(** * Batch colorization core: queue, status tracker, memory estimate, processor

    A shallow embedding of the orchestration core of the batch processing
    package:

    - [batch_processing/core/queue.py]      ([ImageQueueItem], [ImageQueue])
    - [batch_processing/core/status.py]     ([ProcessingStatus], [StatusTracker])
    - [batch_processing/memory/memory_manager.py] ([estimate_memory_required])
    - [batch_processing/processor.py]       ([BatchProcessor])
    - [batch_processing/io/file_handler.py] ([handle_filename_collision])

    Conventions.

    - Python integers are unbounded and are modelled by [Z], Python [str] by
      [string], a Python [float] in arithmetic by an IEEE 754 binary64 value
      of [SpecFloat], a raised exception by the [Raise] constructor of
      [result].
    - A method that mutates [self] returns the new object.  The methods of
      [BatchProcessor] thread a [World] (the processor and the number of
      [uuid4] and [time.time] readings taken) and may raise: they live in
      the state-and-exception monad [M].
    - What the processor calls but does not define (file checks, output
      paths, [uuid4], the clock, the colorization pipeline, control calls
      made by another thread while a job runs) is an [Env] of functions.
    - A Python [while] loop is a [Fixpoint] on a number of rounds; the
      callers pass more rounds than the queue holds items, and
      [process_loop_fuel_enough] shows that further rounds change nothing.

    The first part of the file holds the definitions, module by module; the
    predicates used in the statements follow; the last part holds the
    proofs: first the main properties of each module ([QueueFacts],
    [StatusFacts], [MemoryFacts], [ProcessorFacts]), then further
    properties of the same code ([QueueMore], [StatusMore],
    [FileHandlerFacts], [MemoryMore], [ProcessorMore]). *)

From Stdlib Require Import String Ascii.
From Stdlib Require Import List ZArith Lia Bool QArith.
From Stdlib Require Import Sorted Permutation SpecFloat DecimalString.
Import ListNotations.
Open Scope string_scope.
Open Scope list_scope.
Open Scope Z_scope.

(** ** Exceptions ([batch_processing/exceptions.py] and the builtins used) *)

Inductive exn : Type :=
| TypeError (msg : string)
| ValueError (msg : string)
| KeyError (msg : string)
| IndexError (msg : string)
| OverflowError (msg : string)
| BatchProcessingError (msg : string)
| ImageProcessingError (image_path : string) (message : string)
| ValidationError (msg : string)
| ResourceError (msg : string)
| OtherException (msg : string).

(** [isinstance(e, ImageProcessingError)] *)
Definition is_ImageProcessingError (e : exn) : bool :=
  match e with ImageProcessingError _ _ => true | _ => false end.

(** [str(e)]: [ImageProcessingError.__init__] passes
    ["Error processing {image_path}: {message}"] to [Exception.__init__];
    [str] of a [KeyError] is the [repr] of its argument. *)
Definition str_exn (e : exn) : string :=
  match e with
  | ImageProcessingError p m =>
      ("Error processing " ++ p ++ ": " ++ m)%string
  | KeyError m => ("'" ++ m ++ "'")%string
  | TypeError m | ValueError m | IndexError m | OverflowError m
  | BatchProcessingError m | ValidationError m | ResourceError m
  | OtherException m => m
  end.

(** [str(n)] for an [int]. *)
Definition str_int (n : Z) : string := NilZero.string_of_int (Z.to_int n).

Inductive result (A : Type) : Type :=
| Ok (a : A)
| Raise (e : exn).
Arguments Ok {A} a.
Arguments Raise {A} e.

(** ** [core/queue.py] *)

Module Queue.

(** [@dataclass ImageQueueItem] *)
Record ImageQueueItem : Type := mkItem {
  id : string;
  input_path : string;
  output_path : string;
  config : option (list (string * string));
  priority : Z;
  image_type : option string;
  classification_confidence : option Q
}.

(** [ImageQueueItem.__post_init__]: the checks a constructed item passed. *)
Definition post_init_ok (it : ImageQueueItem) : bool :=
  match image_type it with
  | None => true
  | Some t => String.eqb t "line_art" || String.eqb t "colored"
  end
  &&
  match classification_confidence it with
  | None => true
  | Some c => (Qle_bool 0 c && Qle_bool c 1)%Q
  end.

(** [class ImageQueue]: [self._queue] and the separately kept [self._size]. *)
Record ImageQueue : Type := mkQueue {
  _queue : list ImageQueueItem;
  _size : Z
}.

(** [ImageQueue.__init__] *)
Definition ImageQueue_init : ImageQueue := mkQueue [] 0.

(** The [for i, queued_item in enumerate(self._queue)] scan of [enqueue]:
    the first index [i] with [item.priority > queued_item.priority], if the
    loop reaches its [break]. *)
Fixpoint scan_insert_pos (item : ImageQueueItem) (l : list ImageQueueItem)
         (i : nat) : option nat :=
  match l with
  | [] => None
  | queued_item :: rest =>
      if priority item >? priority queued_item then Some i
      else scan_insert_pos item rest (S i)
  end.

(** [insert_pos = len(self._queue)] unless the scan overwrites it. *)
Definition insert_pos (item : ImageQueueItem) (l : list ImageQueueItem) : nat :=
  match scan_insert_pos item l 0 with
  | Some i => i
  | None => length l
  end.

(** Python's [list.insert(pos, x)] for [0 <= pos]; a position past the end
    appends. *)
Definition list_insert {A : Type} (pos : nat) (x : A) (l : list A) : list A :=
  firstn pos l ++ x :: skipn pos l.

(** [ImageQueue.enqueue] (the [isinstance] check is the type of [item]). *)
Definition enqueue (q : ImageQueue) (item : ImageQueueItem) : ImageQueue :=
  mkQueue (list_insert (insert_pos item (_queue q)) item (_queue q))
          (_size q + 1).

(** [ImageQueue.dequeue]: [list.pop(0)] on an empty list raises
    [IndexError]. *)
Definition dequeue (q : ImageQueue) : result (option ImageQueueItem * ImageQueue) :=
  if _size q =? 0 then Ok (None, q)
  else match _queue q with
       | [] => Raise (IndexError "pop from empty list")
       | item :: rest => Ok (Some item, mkQueue rest (_size q - 1))
       end.

(** [ImageQueue.peek] *)
Definition peek (q : ImageQueue) : result (option ImageQueueItem) :=
  if _size q =? 0 then Ok None
  else match _queue q with
       | [] => Raise (IndexError "list index out of range")
       | item :: _ => Ok (Some item)
       end.

(** [ImageQueue.size] *)
Definition size (q : ImageQueue) : Z := _size q.

(** [ImageQueue.clear] *)
Definition clear (q : ImageQueue) : ImageQueue := mkQueue [] 0.

(** [ImageQueue.__len__] *)
Definition len (q : ImageQueue) : Z := _size q.

(** [ImageQueue.__iter__]: the items in queue order. *)
Definition iter (q : ImageQueue) : list ImageQueueItem := _queue q.

(** [ImageQueue.__bool__] *)
Definition bool_of (q : ImageQueue) : bool := _size q >? 0.

(** A sequence of [enqueue] calls, first element first. *)
Definition enqueue_all (q : ImageQueue) (items : list ImageQueueItem) : ImageQueue :=
  fold_left enqueue items q.

(** [n] successive [dequeue] calls: what each returned, and the queue left. *)
Fixpoint dequeue_n (n : nat) (q : ImageQueue)
  : result (list (option ImageQueueItem) * ImageQueue) :=
  match n with
  | O => Ok ([], q)
  | S n' =>
      match dequeue q with
      | Raise e => Raise e
      | Ok (r, q') =>
          match dequeue_n n' q' with
          | Raise e => Raise e
          | Ok (rs, q'') => Ok (r :: rs, q'')
          end
      end
  end.

End Queue.

(** ** [core/status.py] *)

Module Status.

(** A reading of [time.time()]. *)
Definition timestamp : Type := Q.

(** [class ProcessingState(Enum)] and its [.value]. *)
Inductive ProcessingState : Type :=
| PENDING | PROCESSING | COMPLETED | FAILED | CANCELLED.

Definition value (s : ProcessingState) : string :=
  match s with
  | PENDING => "pending"
  | PROCESSING => "processing"
  | COMPLETED => "completed"
  | FAILED => "failed"
  | CANCELLED => "cancelled"
  end.

(** [[state.value for state in ProcessingState]] *)
Definition valid_states : list string :=
  map value [PENDING; PROCESSING; COMPLETED; FAILED; CANCELLED].

(** [x in l] on a list of strings. *)
Definition str_in (x : string) (l : list string) : bool :=
  existsb (String.eqb x) l.

(** [@dataclass ProcessingStatus]; [state] is the string the code stores. *)
Record ProcessingStatus : Type := mkStatus {
  id : string;
  state : string;
  start_time : option timestamp;
  end_time : option timestamp;
  error_message : option string;
  output_path : option string
}.

(** The end of the message of the [ValueError] for an unknown state. *)
Definition invalid_state_tail : string :=
  ". Must be one of ['pending', 'processing', 'completed', 'failed', 'cancelled']".

(** The dataclass constructor followed by [__post_init__]. *)
Definition ProcessingStatus_new (id state : string)
  : result ProcessingStatus :=
  if negb (str_in state valid_states)
  then Raise (ValueError ("Invalid state: " ++ state ++ invalid_state_tail)%string)
  else Ok (mkStatus id state None None None None).

(** [ProcessingStatus.is_terminal_state] *)
Definition is_terminal_state (st : ProcessingStatus) : bool :=
  str_in (state st) [value COMPLETED; value FAILED; value CANCELLED].

(** [@dataclass StatusSummary] *)
Record StatusSummary : Type := mkSummary {
  total : Z;
  pending : Z;
  processing : Z;
  completed : Z;
  failed : Z;
  cancelled : Z;
  s_start_time : option timestamp;
  s_end_time : option timestamp
}.

(** [StatusSummary.is_complete] *)
Definition is_complete (s : StatusSummary) : bool :=
  completed s + failed s + cancelled s =? total s.

(** A Python [dict] with [str] keys: its items in insertion order.  The
    functions below keep the keys pairwise distinct. *)
Definition dict (V : Type) : Type := list (string * V).

(** [k in d] *)
Definition dict_contains {V} (k : string) (d : dict V) : bool :=
  existsb (fun kv => String.eqb k (fst kv)) d.

(** [d[k]] *)
Fixpoint dict_get {V} (k : string) (d : dict V) : option V :=
  match d with
  | [] => None
  | (k', v) :: rest => if String.eqb k k' then Some v else dict_get k rest
  end.

(** [d[k] = v]: an existing key keeps its position, a new one goes last. *)
Fixpoint dict_set {V} (k : string) (v : V) (d : dict V) : dict V :=
  match d with
  | [] => [(k, v)]
  | (k', v') :: rest =>
      if String.eqb k k' then (k', v) :: rest
      else (k', v') :: dict_set k v rest
  end.

(** [d.values()] *)
Definition dict_values {V} (d : dict V) : list V := map snd d.

(** [class StatusTracker] *)
Record StatusTracker : Type := mkTracker {
  _statuses : dict ProcessingStatus;
  _batch_start_time : option timestamp;
  _batch_end_time : option timestamp
}.

(** [StatusTracker.__init__] *)
Definition StatusTracker_init : StatusTracker := mkTracker [] None None.

(** One round of the [for status in self._statuses.values()] loop of
    [get_summary]: the [if]/[elif] chain on [status.state]. *)
Definition count_status (summary : StatusSummary) (status : ProcessingStatus)
  : StatusSummary :=
  let 'mkSummary t pe pr co fa ca st en := summary in
  if String.eqb (state status) (value PENDING)
  then mkSummary t (pe + 1) pr co fa ca st en
  else if String.eqb (state status) (value PROCESSING)
  then mkSummary t pe (pr + 1) co fa ca st en
  else if String.eqb (state status) (value COMPLETED)
  then mkSummary t pe pr (co + 1) fa ca st en
  else if String.eqb (state status) (value FAILED)
  then mkSummary t pe pr co (fa + 1) ca st en
  else if String.eqb (state status) (value CANCELLED)
  then mkSummary t pe pr co fa (ca + 1) st en
  else summary.

(** [StatusTracker.get_summary] *)
Definition get_summary (t : StatusTracker) : StatusSummary :=
  fold_left count_status (dict_values (_statuses t))
    (mkSummary (Z.of_nat (length (_statuses t))) 0 0 0 0 0
               (_batch_start_time t) (_batch_end_time t)).

(** [StatusTracker.add_image]; [now] is what [time.time()] returns if the
    method reads the clock. *)
Definition add_image (t : StatusTracker) (image_id : string) (now : timestamp)
  : result StatusTracker :=
  if dict_contains image_id (_statuses t)
  then Raise (ValueError ("Image " ++ image_id ++ " is already being tracked")%string)
  else
    match ProcessingStatus_new image_id (value PENDING) with
    | Raise e => Raise e
    | Ok st =>
        Ok (mkTracker (dict_set image_id st (_statuses t))
              (match _batch_start_time t with
               | None => Some now
               | Some s => Some s
               end)
              (_batch_end_time t))
    end.

(** Whether [add_image] reads the clock. *)
Definition add_image_reads_clock (t : StatusTracker) (image_id : string) : bool :=
  negb (dict_contains image_id (_statuses t)) &&
  match _batch_start_time t with None => true | Some _ => false end.

(** The field updates [update_status] makes on the status object. *)
Definition apply_update (status : ProcessingStatus) (new_state : string)
    (err : option string) (out : option string) (current_time : timestamp)
  : ProcessingStatus :=
  let old_state := state status in
  mkStatus (id status) new_state
    (if String.eqb new_state (value PROCESSING) && String.eqb old_state (value PENDING)
     then Some current_time else start_time status)
    (if str_in new_state [value COMPLETED; value FAILED; value CANCELLED]
     then match end_time status with
          | None => Some current_time
          | Some e => Some e
          end
     else end_time status)
    (match err with Some m => Some m | None => error_message status end)
    (match out with Some p => Some p | None => output_path status end).

(** [StatusTracker.update_status]; [now] is the reading of
    [current_time = time.time()]. *)
Definition update_status (t : StatusTracker) (image_id : string)
    (new_state : string) (err : option string) (out : option string)
    (now : timestamp) : result StatusTracker :=
  match dict_get image_id (_statuses t) with
  | None => Raise (KeyError ("Image " ++ image_id ++ " is not being tracked")%string)
  | Some status =>
      if negb (str_in new_state valid_states)
      then Raise (ValueError ("Invalid state: " ++ new_state ++ invalid_state_tail)%string)
      else
        let t1 := mkTracker
                    (dict_set image_id (apply_update status new_state err out now)
                              (_statuses t))
                    (_batch_start_time t) (_batch_end_time t) in
        let summary := get_summary t1 in
        Ok (mkTracker (_statuses t1) (_batch_start_time t1)
              (if is_complete summary
               then match _batch_end_time t1 with
                    | None => Some now
                    | Some e => Some e
                    end
               else _batch_end_time t1))
  end.

(** [StatusTracker.get_status] *)
Definition get_status (t : StatusTracker) (image_id : string)
  : result ProcessingStatus :=
  match dict_get image_id (_statuses t) with
  | None => Raise (KeyError ("Image " ++ image_id ++ " is not being tracked")%string)
  | Some status => Ok status
  end.

(** [StatusTracker.get_images_by_state] *)
Definition get_images_by_state (t : StatusTracker) (s : string) : list string :=
  map fst (filter (fun kv => String.eqb (state (snd kv)) s) (_statuses t)).

(** [StatusTracker.clear] *)
Definition clear (t : StatusTracker) : StatusTracker := mkTracker [] None None.

(** [StatusTracker.__len__] *)
Definition len (t : StatusTracker) : Z := Z.of_nat (length (_statuses t)).

(** The calls a client can make on a tracker. *)
Inductive call : Type :=
| Call_add_image (image_id : string) (now : timestamp)
| Call_update_status (image_id : string) (new_state : string)
    (err : option string) (out : option string) (now : timestamp)
| Call_clear.

Definition run_call (t : StatusTracker) (c : call) : result StatusTracker :=
  match c with
  | Call_add_image i now => add_image t i now
  | Call_update_status i s e o now => update_status t i s e o now
  | Call_clear => Ok (clear t)
  end.

(** A client making the calls [cs] in turn on [t]; a call that raises is
    caught by the client and leaves the tracker as it was (both methods
    raise before they change anything). *)
Fixpoint run_calls (t : StatusTracker) (cs : list call) : StatusTracker :=
  match cs with
  | [] => t
  | c :: rest =>
      match run_call t c with
      | Ok t' => run_calls t' rest
      | Raise _ => run_calls t rest
      end
  end.

(** [self._statuses[image_id].state], when the image is tracked. *)
Definition state_of (t : StatusTracker) (image_id : string) : option string :=
  option_map state (dict_get image_id (_statuses t)).

End Status.

(** ** [memory/memory_manager.py] *)

Module Memory.

(** *** Python [float]: IEEE 754 binary64, as specified by [SpecFloat] *)

Definition prec : Z := 53.
Definition emax : Z := 1024.

Definition float : Type := spec_float.

(** The literal [1.5], that is [3 * 2^51 * 2^-52]. *)
Definition float_1_5 : float := S754_finite false 6755399441055744 (-52).

(** Conversion of an [int] operand to [float] (correctly rounded, ties to
    even); an [int] too large for a [float] raises [OverflowError]. *)
Definition float_of_int (n : Z) : result float :=
  match binary_normalize prec emax n 0 false with
  | S754_infinity _ => Raise (OverflowError "int too large to convert to float")
  | f => Ok f
  end.

(** [x * y] on floats. *)
Definition float_mul (x y : float) : float := SFmul prec emax x y.

(** [int(x)]: truncation towards zero. *)
Definition int_of_float (x : float) : result Z :=
  match x with
  | S754_zero _ => Ok 0
  | S754_finite s m e =>
      let a := match e with
               | Zneg k => Z.pos m / 2 ^ Z.pos k
               | _ => Z.pos m * 2 ^ e
               end in
      Ok (if s then - a else a)
  | S754_infinity _ => Raise (OverflowError "cannot convert float infinity to integer")
  | S754_nan => Raise (ValueError "cannot convert float NaN to integer")
  end.

(** [torch.device.type] *)
Inductive device_type : Type := cuda | mps | cpu.

(** [class MemoryManager] *)
Record MemoryManager : Type := mkMemoryManager {
  device : device_type;
  memory_threshold : Q
}.

(** [MemoryManager.estimate_memory_required]; [//] is floor division. *)
Definition estimate_memory_required (self : MemoryManager) (image_size : Z * Z)
  : result Z :=
  let '(width, height) := image_size in
  let pixels := width * height in
  let input_memory := pixels * 3 * 4 in
  let latent_memory := (pixels / 64) * 4 * 4 in
  let activation_memory := latent_memory * 2 in
  let reference_memory := input_memory * 4 in
  match float_of_int (input_memory + latent_memory + activation_memory
                      + reference_memory) with
  | Raise e => Raise e
  | Ok f => int_of_float (float_mul f float_1_5)
  end.

End Memory.

(** ** [processor.py] *)

Module Processor.
Import Queue.

(** [@dataclass BatchConfig] ([config/config_handler.py]) *)
Record BatchConfig : Type := mkConfig {
  input_dir : string;
  output_dir : string;
  reference_images : list string;
  style : string;
  seed : Z;
  num_inference_steps : Z;
  top_k : Z;
  recursive : bool;
  overwrite : bool;
  preview_mode : bool;
  max_concurrent : Z;
  input_is_zip : bool;
  output_as_zip : bool;
  zip_output_name : option string
}.

(** The dictionary stored in [self._preview_result].  [pr_status] is the
    tracker's status object of the previewed image, held by reference: it is
    kept as the key under which the tracker holds it ([None] when
    [get_status] raised). *)
Record PreviewResult : Type := mkPreviewResult {
  pr_output_path : option string;
  pr_input_path : string;
  pr_status : option string;
  pr_error : option string;
  pr_image_id : string
}.

(** [class BatchProcessor] *)
Record BatchProcessor : Type := mkProcessor {
  config : BatchConfig;
  queue : ImageQueue;
  status_tracker : Status.StatusTracker;
  memory_manager : Memory.MemoryManager;
  _paused : bool;
  _cancelled : bool;
  _processing : bool;
  _preview_processed : bool;
  _preview_approved : bool;
  _preview_result : option PreviewResult
}.

(** [BatchProcessor.__init__]; [dev] is the device torch reports. *)
Definition BatchProcessor_init (cfg : BatchConfig) (dev : Memory.device_type)
  : BatchProcessor :=
  mkProcessor cfg ImageQueue_init Status.StatusTracker_init
    (Memory.mkMemoryManager dev (8 # 10))
    false false false false false None.

(** Field updates. *)
Definition set_queue (q : ImageQueue) (bp : BatchProcessor) : BatchProcessor :=
  mkProcessor (config bp) q (status_tracker bp) (memory_manager bp)
    (_paused bp) (_cancelled bp) (_processing bp)
    (_preview_processed bp) (_preview_approved bp) (_preview_result bp).

Definition set_status_tracker (t : Status.StatusTracker) (bp : BatchProcessor)
  : BatchProcessor :=
  mkProcessor (config bp) (queue bp) t (memory_manager bp)
    (_paused bp) (_cancelled bp) (_processing bp)
    (_preview_processed bp) (_preview_approved bp) (_preview_result bp).

Definition set_paused (b : bool) (bp : BatchProcessor) : BatchProcessor :=
  mkProcessor (config bp) (queue bp) (status_tracker bp) (memory_manager bp)
    b (_cancelled bp) (_processing bp)
    (_preview_processed bp) (_preview_approved bp) (_preview_result bp).

Definition set_cancelled (b : bool) (bp : BatchProcessor) : BatchProcessor :=
  mkProcessor (config bp) (queue bp) (status_tracker bp) (memory_manager bp)
    (_paused bp) b (_processing bp)
    (_preview_processed bp) (_preview_approved bp) (_preview_result bp).

Definition set_processing (b : bool) (bp : BatchProcessor) : BatchProcessor :=
  mkProcessor (config bp) (queue bp) (status_tracker bp) (memory_manager bp)
    (_paused bp) (_cancelled bp) b
    (_preview_processed bp) (_preview_approved bp) (_preview_result bp).

Definition set_preview_processed (b : bool) (bp : BatchProcessor) : BatchProcessor :=
  mkProcessor (config bp) (queue bp) (status_tracker bp) (memory_manager bp)
    (_paused bp) (_cancelled bp) (_processing bp)
    b (_preview_approved bp) (_preview_result bp).

Definition set_preview_approved (b : bool) (bp : BatchProcessor) : BatchProcessor :=
  mkProcessor (config bp) (queue bp) (status_tracker bp) (memory_manager bp)
    (_paused bp) (_cancelled bp) (_processing bp)
    (_preview_processed bp) b (_preview_result bp).

Definition set_preview_result (r : option PreviewResult) (bp : BatchProcessor)
  : BatchProcessor :=
  mkProcessor (config bp) (queue bp) (status_tracker bp) (memory_manager bp)
    (_paused bp) (_cancelled bp) (_processing bp)
    (_preview_processed bp) (_preview_approved bp) r.

(** *** Logging

    Logger calls do not touch the processor.  They are modelled where the
    specification names them, for the control surface: [pause_processing],
    [cancel_processing] and [resume_processing] return the records their own
    bodies emit.  Elsewhere logger calls are left out. *)
Inductive log_level : Type := DEBUG | INFO | WARNING | ERROR.
Definition LogRecord : Type := (log_level * string)%type.

(** [BatchProcessor.pause_processing] *)
Definition pause_processing (bp : BatchProcessor)
  : BatchProcessor * list LogRecord :=
  if negb (_processing bp)
  then (bp, [(WARNING, "Cannot pause: processing is not active")])
  else if _paused bp
  then (bp, [(WARNING, "Processing is already paused")])
  else (set_paused true bp, [(INFO, "Pausing batch processing")]).

(** [BatchProcessor.cancel_processing] *)
Definition cancel_processing (bp : BatchProcessor)
  : BatchProcessor * list LogRecord :=
  if negb (_processing bp)
  then (bp, [(WARNING, "Cannot cancel: processing is not active")])
  else if _cancelled bp
  then (bp, [(WARNING, "Processing is already cancelled")])
  else (set_cancelled true bp, [(INFO, "Cancelling batch processing")]).

(** [BatchProcessor.is_preview_mode] *)
Definition is_preview_mode (bp : BatchProcessor) : bool :=
  preview_mode (config bp).

(** [BatchProcessor.is_waiting_for_preview_approval] *)
Definition is_waiting_for_preview_approval (bp : BatchProcessor) : bool :=
  _preview_processed bp && negb (_preview_approved bp).

(** [BatchProcessor.get_preview_result] *)
Definition get_preview_result (bp : BatchProcessor) : option PreviewResult :=
  _preview_result bp.

(** *** The environment of a run

    What the processor calls but does not define: the file system helpers of
    [io/file_handler.py], [uuid.uuid4], [time.time], the colorization
    pipeline of [app.py], and the control calls made from another execution
    context while a job is in flight. *)

(** How the pipeline stages inside the big [try] of [process_single_image]
    end for one item. *)
Inductive RenderOutcome : Type :=
| Rendered
    (** every stage succeeds and the output file is written *)
| StageFails (current_stage : string) (message : string)
    (** a stage raises [ImageProcessingError(input_path, message)] *)
| Unexpected (current_stage : string) (message : string).
    (** another [Exception] escapes a stage, with [str(e) = message] *)

Inductive ControlRequest : Type := ReqPause | ReqCancel.

Record Env : Type := mkEnv {
  validate_image_file : string -> bool;
  create_output_path : string -> string -> string -> result string;
  handle_filename_collision : string -> bool -> result string;
  uuid4 : nat -> string;
  time_time : nat -> Status.timestamp;
  render : ImageQueueItem -> RenderOutcome;
  arrivals : ImageQueueItem -> list ControlRequest
}.

(** The processor together with the number of [uuid4] and [time.time]
    readings taken so far. *)
Record World : Type := mkWorld {
  proc : BatchProcessor;
  uuid_calls : nat;
  time_calls : nat
}.

(** *** Statements that may raise, over a [World] *)

Definition M (A : Type) : Type := World -> result A * World.

Definition ret {A} (a : A) : M A := fun w => (Ok a, w).

Definition raise {A} (e : exn) : M A := fun w => (Raise e, w).

Definition bind {A B} (m : M A) (k : A -> M B) : M B :=
  fun w => match m w with
           | (Ok a, w') => k a w'
           | (Raise e, w') => (Raise e, w')
           end.

Declare Scope py_scope.
Delimit Scope py_scope with py.
Notation "x <- m ;; k" := (bind m (fun x => k))
  (at level 61, m at next level, right associativity) : py_scope.
Notation "m ;; k" := (bind m (fun _ => k))
  (at level 61, right associativity) : py_scope.
Open Scope py_scope.

(** [try: m except Exception as e: h e] *)
Definition try_except {A} (m : M A) (h : exn -> M A) : M A :=
  fun w => match m w with
           | (Ok a, w') => (Ok a, w')
           | (Raise e, w') => h e w'
           end.

(** [try: m finally: f] *)
Definition try_finally {A} (m : M A) (f : M unit) : M A :=
  fun w => let '(r, w1) := m w in
           match f w1 with
           | (Ok _, w2) => (r, w2)
           | (Raise e, w2) => (Raise e, w2)
           end.

Definition get_proc : M BatchProcessor := fun w => (Ok (proc w), w).

Definition modify_proc (f : BatchProcessor -> BatchProcessor) : M unit :=
  fun w => (Ok tt, mkWorld (f (proc w)) (uuid_calls w) (time_calls w)).

(** [self.memory_manager.clear_cache()] and [trigger_gc_if_needed()] act on
    the torch allocator and the Python collector only. *)
Definition clear_cache : M unit := ret tt.
Definition trigger_gc_if_needed : M unit := ret tt.

Section WithEnv.
Variable env : Env.

(** [str(uuid.uuid4())] *)
Definition fresh_uuid : M string :=
  fun w => (Ok (uuid4 env (uuid_calls w)),
            mkWorld (proc w) (S (uuid_calls w)) (time_calls w)).

(** [self.queue.enqueue(item)] *)
Definition queue_enqueue (item : ImageQueueItem) : M unit :=
  modify_proc (fun bp => set_queue (enqueue (queue bp) item) bp).

(** [self.queue.dequeue()] *)
Definition queue_dequeue : M (option ImageQueueItem) :=
  fun w => match dequeue (queue (proc w)) with
           | Raise e => (Raise e, w)
           | Ok (r, q') =>
               (Ok r, mkWorld (set_queue q' (proc w)) (uuid_calls w) (time_calls w))
           end.

(** [self.status_tracker.add_image(image_id)] *)
Definition tracker_add_image (image_id : string) : M unit :=
  fun w =>
    let t := status_tracker (proc w) in
    match Status.add_image t image_id (time_time env (time_calls w)) with
    | Raise e => (Raise e, w)
    | Ok t' =>
        (Ok tt, mkWorld (set_status_tracker t' (proc w)) (uuid_calls w)
                  (if Status.add_image_reads_clock t image_id
                   then S (time_calls w) else time_calls w))
    end.

(** [self.status_tracker.update_status(image_id, state, error_message,
    output_path)] *)
Definition tracker_update_status (image_id : string) (s : Status.ProcessingState)
    (err out : option string) : M unit :=
  fun w =>
    match Status.update_status (status_tracker (proc w)) image_id
            (Status.value s) err out (time_time env (time_calls w)) with
    | Raise e => (Raise e, w)
    | Ok t' =>
        (Ok tt, mkWorld (set_status_tracker t' (proc w)) (uuid_calls w)
                  (S (time_calls w)))
    end.

(** [try: status = self.status_tracker.get_status(id) except Exception:
    status = None] *)
Definition try_get_status (image_id : string) : M (option string) :=
  fun w => match Status.get_status (status_tracker (proc w)) image_id with
           | Ok _ => (Ok (Some image_id), w)
           | Raise _ => (Ok None, w)
           end.

(** [if summary.elapsed_time: logger.info(f"... {summary.elapsed_time:.2f}")].
    The property reads the clock when the batch has started and not ended,
    and it is evaluated a second time, for the message, when its first
    value is not zero. *)
Definition read_elapsed_time : M unit :=
  fun w =>
    let s := Status.get_summary (status_tracker (proc w)) in
    match Status.s_start_time s, Status.s_end_time s with
    | Some t0, None =>
        if Qeq_bool (time_time env (time_calls w) - t0)%Q 0%Q
        then (Ok tt, mkWorld (proc w) (uuid_calls w) (S (time_calls w)))
        else (Ok tt, mkWorld (proc w) (uuid_calls w) (S (S (time_calls w))))
    | _, _ => (Ok tt, w)
    end.

(** [BatchProcessor.add_images]: the body of the [try] for one valid path. *)
Definition add_one_image (image_path : string) : M unit :=
  image_id <- fresh_uuid ;;
  bp <- get_proc ;;
  match create_output_path env image_path (output_dir (config bp)) "_colorized" with
  | Raise e => raise e
  | Ok out0 =>
      match handle_filename_collision env out0 (overwrite (config bp)) with
      | Raise e => raise e
      | Ok out =>
          let queue_item :=
            mkItem image_id image_path out None 0 (Some "line_art") None in
          queue_enqueue queue_item ;;
          tracker_add_image image_id
      end
  end.

(** The [for image_path in image_paths] loop, with its two counters. *)
Fixpoint add_images_loop (image_paths : list string)
    (valid_count invalid_count : Z) : M (Z * Z) :=
  match image_paths with
  | [] => ret (valid_count, invalid_count)
  | image_path :: rest =>
      if negb (validate_image_file env image_path)
      then add_images_loop rest valid_count (invalid_count + 1)
      else
        added <- try_except (add_one_image image_path ;; ret true)
                            (fun _ => ret false) ;;
        if added : bool
        then add_images_loop rest (valid_count + 1) invalid_count
        else add_images_loop rest valid_count (invalid_count + 1)
  end.

(** [BatchProcessor.add_images] *)
Definition add_images (image_paths : list string) : M unit :=
  match image_paths with
  | [] => raise (ValidationError "Cannot add images: image_paths list is empty")
  | _ =>
      counts <- add_images_loop image_paths 0 0 ;;
      if fst counts =? 0
      then raise (ValidationError
                    ("No valid images added. " ++ str_int (snd counts)
                     ++ " images were invalid.")%string)
      else ret tt
  end.

(** A control call arriving from another execution context. *)
Definition deliver (r : ControlRequest) : M unit :=
  match r with
  | ReqPause => modify_proc (fun bp => fst (pause_processing bp))
  | ReqCancel => modify_proc (fun bp => fst (cancel_processing bp))
  end.

Fixpoint deliver_all (rs : list ControlRequest) : M unit :=
  match rs with
  | [] => ret tt
  | r :: rest => deliver r ;; deliver_all rest
  end.

(** The pipeline stages of [process_single_image] (imports, loading, line
    art extraction, colorization, saving, verification): the control calls
    that arrive while they run, and how they end. *)
Definition run_pipeline (queue_item : ImageQueueItem) : M RenderOutcome :=
  deliver_all (arrivals env queue_item) ;;
  ret (render env queue_item).

(** [BatchProcessor.process_single_image] *)
Definition process_single_image (queue_item : ImageQueueItem) : M unit :=
  let image_id := Queue.id queue_item in
  let input_path := Queue.input_path queue_item in
  let output_path := Queue.output_path queue_item in
  try_except
    (tracker_update_status image_id Status.PROCESSING None None)
    (fun _ => ret tt) ;;
  try_finally
    (outcome <- run_pipeline queue_item ;;
     match outcome with
     | Rendered =>
         try_except
           (tracker_update_status image_id Status.COMPLETED None (Some output_path))
           (fun _ => ret tt)
     | StageFails current_stage message =>
         (* except ImageProcessingError: update the status and re-raise *)
         try_except
           (tracker_update_status image_id Status.FAILED
              (Some ("Failed at " ++ current_stage)%string) None)
           (fun _ => ret tt) ;;
         raise (ImageProcessingError input_path message)
     | Unexpected current_stage message =>
         (* except Exception: wrap with context *)
         let error_msg :=
           ("Unexpected error at stage '" ++ current_stage ++ "': " ++ message)%string in
         try_except
           (tracker_update_status image_id Status.FAILED (Some error_msg) None)
           (fun _ => ret tt) ;;
         raise (ImageProcessingError input_path error_msg)
     end)
    (try_except clear_cache (fun _ => ret tt)).

(** The handlers of the [try] around [process_single_image] in the main
    loop: [except ImageProcessingError] only counts the failure, [except
    Exception] also marks the job failed. *)
Definition loop_handler (queue_item : ImageQueueItem) (e : exn) : M unit :=
  if is_ImageProcessingError e then ret tt
  else
    try_except
      (tracker_update_status (Queue.id queue_item) Status.FAILED
         (Some ("Unexpected error: " ++ str_exn e)%string) None)
      (fun _ => ret tt).

(** The inner [while self.queue.size() > 0] of the cancellation branch:
    every remaining item is dequeued and marked cancelled.  [fuel] bounds
    the number of rounds. *)
Fixpoint cancel_remaining (fuel : nat) : M unit :=
  match fuel with
  | O => ret tt
  | S fuel' =>
      bp <- get_proc ;;
      if size (queue bp) >? 0 then
        item <- queue_dequeue ;;
        match item with
        | Some it =>
            tracker_update_status (Queue.id it) Status.CANCELLED None None ;;
            cancel_remaining fuel'
        | None => cancel_remaining fuel'
        end
      else ret tt
  end.

(** The [while self.queue.size() > 0] loop shared, statement for statement,
    by [start_processing] and [_continue_after_preview].  [fuel] bounds the
    number of rounds; every round that goes on has removed one item. *)
Fixpoint process_loop (fuel : nat) : M unit :=
  match fuel with
  | O => ret tt
  | S fuel' =>
      bp <- get_proc ;;
      if size (queue bp) >? 0 then
        if _paused bp then ret tt
        else if _cancelled bp then
          cancel_remaining (S (Z.to_nat (size (queue bp))))
        else
          queue_item <- queue_dequeue ;;
          match queue_item with
          | None => ret tt
          | Some it =>
              try_except (process_single_image it) (loop_handler it) ;;
              try_except trigger_gc_if_needed (fun _ => ret tt) ;;
              process_loop fuel'
          end
      else ret tt
  end.

(** The loop, run with enough rounds for the queue at hand. *)
Definition run_process_loop : M unit :=
  bp <- get_proc ;;
  process_loop (S (Z.to_nat (size (queue bp)))).

(** The preview branch of [start_processing]: exactly one item. *)
Definition process_preview : M unit :=
  queue_item <- queue_dequeue ;;
  match queue_item with
  | None => ret tt
  | Some it =>
      try_except
        (process_single_image it ;;
         status <- try_get_status (Queue.id it) ;;
         modify_proc (set_preview_result
           (Some (mkPreviewResult (Some (Queue.output_path it))
                    (Queue.input_path it) status None (Queue.id it)))) ;;
         modify_proc (set_preview_processed true))
        (fun e =>
           if is_ImageProcessingError e then
             status <- try_get_status (Queue.id it) ;;
             modify_proc (set_preview_result
               (Some (mkPreviewResult None (Queue.input_path it) status
                        (Some (str_exn e)) (Queue.id it)))) ;;
             modify_proc (set_preview_processed true)
           else
             try_except
               (tracker_update_status (Queue.id it) Status.FAILED
                  (Some ("Unexpected error: " ++ str_exn e)%string) None)
               (fun _ => ret tt) ;;
             status <- try_get_status (Queue.id it) ;;
             modify_proc (set_preview_result
               (Some (mkPreviewResult None (Queue.input_path it) status
                        (Some ("Unexpected error: " ++ str_exn e)%string)
                        (Queue.id it)))) ;;
             modify_proc (set_preview_processed true)) ;;
      try_except trigger_gc_if_needed (fun _ => ret tt)
  end.

(** The summary logging after the loop of [start_processing]: reading
    [summary.elapsed_time] happens only in the branch taken when the batch
    was neither cancelled nor paused. *)
Definition log_final_summary : M unit :=
  bp <- get_proc ;;
  if _cancelled bp then ret tt
  else if _paused bp then ret tt
  else read_elapsed_time.

(** [BatchProcessor.start_processing] *)
Definition start_processing : M unit :=
  bp <- get_proc ;;
  if size (queue bp) =? 0
  then raise (BatchProcessingError "Cannot start processing: queue is empty")
  else if _processing bp then ret tt
  else if preview_mode (config bp) && _preview_processed bp
          && negb (_preview_approved bp)
  then ret tt
  else
    modify_proc (set_processing true) ;;
    modify_proc (set_cancelled false) ;;
    modify_proc (set_paused false) ;;
    try_finally
      (bp1 <- get_proc ;;
       if preview_mode (config bp1) && negb (_preview_processed bp1)
       then process_preview
       else (run_process_loop ;; log_final_summary))
      (bp2 <- get_proc ;;
       (if negb (preview_mode (config bp2) && _preview_processed bp2
                 && negb (_preview_approved bp2))
        then modify_proc (set_processing false)
        else ret tt) ;;
       try_except clear_cache (fun _ => ret tt)).

(** [BatchProcessor.resume_processing], with the records its body logs. *)
Definition resume_processing (w : World)
  : (result unit * World) * list LogRecord :=
  if negb (_paused (proc w))
  then ((Ok tt, w), [(WARNING, "Cannot resume: processing is not paused")])
  else
    ((modify_proc (set_paused false) ;; start_processing) w,
     [(INFO, "Resuming batch processing")]).

(** [BatchProcessor._continue_after_preview] *)
Definition _continue_after_preview : M unit :=
  bp <- get_proc ;;
  if size (queue bp) =? 0 then ret tt
  else
    try_finally
      (run_process_loop ;; read_elapsed_time)
      (modify_proc (set_processing false) ;;
       try_except clear_cache (fun _ => ret tt)).

(** [BatchProcessor.approve_preview] *)
Definition approve_preview : M unit :=
  bp <- get_proc ;;
  if negb (preview_mode (config bp))
  then raise (BatchProcessingError
                "Cannot approve preview: preview mode is not enabled")
  else if negb (_preview_processed bp)
  then raise (BatchProcessingError
                "Cannot approve preview: no preview has been processed")
  else if _preview_approved bp then ret tt
  else
    modify_proc (set_preview_approved true) ;;
    _continue_after_preview.

(** [BatchProcessor.reject_preview] *)
Definition reject_preview : M unit :=
  bp <- get_proc ;;
  if negb (preview_mode (config bp))
  then raise (BatchProcessingError
                "Cannot reject preview: preview mode is not enabled")
  else if negb (_preview_processed bp)
  then raise (BatchProcessingError
                "Cannot reject preview: no preview has been processed")
  else
    modify_proc (set_preview_processed false) ;;
    modify_proc (set_preview_approved false) ;;
    modify_proc (set_preview_result None).

End WithEnv.

End Processor.

(** ** [io/file_handler.py] *)

Module FileHandler.

(** What [handle_filename_collision] asks of [pathlib.Path] and of the file
    system, which is not written to while the function runs. *)
Record FileSystem : Type := mkFileSystem {
  path_exists : string -> bool;
    (** [Path(p).exists()] *)
  path_stem : string -> string;
    (** [Path(p).stem] *)
  path_suffix : string -> string;
    (** [Path(p).suffix] *)
  path_parent : string -> string;
    (** [Path(p).parent] *)
  path_join : string -> string -> string
    (** [str(parent / name)] *)
}.

Section WithFileSystem.
Variable fs : FileSystem.

(** [str(parent / f"{stem}_{counter}{extension}")] *)
Definition numbered_variant (path : string) (counter : Z) : string :=
  path_join fs (path_parent fs path)
    (path_stem fs path ++ "_" ++ str_int counter ++ path_suffix fs path)%string.

(** The [while True] loop of [handle_filename_collision]; [None] when the
    rounds given are used up. *)
Fixpoint collision_loop (path : string) (fuel : nat) (counter : Z)
  : option (result string) :=
  match fuel with
  | O => None
  | S fuel' =>
      let new_path := numbered_variant path counter in
      if negb (path_exists fs new_path) then Some (Ok new_path)
      else
        let counter := counter + 1 in
        if counter >? 10000
        then Some (Raise (ResourceError
                            ("Too many file collisions for: " ++ path)%string))
        else collision_loop path fuel' counter
  end.

(** [handle_filename_collision] *)
Definition handle_filename_collision (path : string) (overwrite : bool)
  : option (result string) :=
  if negb (path_exists fs path) then Some (Ok path)
  else if overwrite then Some (Ok path)
  else collision_loop path (Z.to_nat 10000) 1.

End WithFileSystem.

End FileHandler.

(** * Predicates used to state the properties *)

Module QueueSpec.
Import Queue.

(** The class invariant: [_size] is the length of [_queue]. *)
Definition size_ok (q : ImageQueue) : Prop := _size q = Z.of_nat (length (_queue q)).

(** Descending priority. *)
Definition prio_ge (a b : ImageQueueItem) : Prop := priority b <= priority a.

(** The items of [l] that have priority [p], in the order of [l]. *)
Definition with_priority (p : Z) (l : list ImageQueueItem) : list ImageQueueItem :=
  filter (fun x => priority x =? p) l.

(** The recursive reading of the insertion done by [enqueue]. *)
Fixpoint insert_sorted (item : ImageQueueItem) (l : list ImageQueueItem)
  : list ImageQueueItem :=
  match l with
  | [] => [item]
  | y :: rest =>
      if priority item >? priority y then item :: y :: rest
      else y :: insert_sorted item rest
  end.

(** The three items of the example in the specification. *)
Definition item_A : ImageQueueItem := mkItem "A" "a.png" "a_out.png" None 0 None None.
Definition item_B : ImageQueueItem := mkItem "B" "b.png" "b_out.png" None 5 None None.
Definition item_C : ImageQueueItem := mkItem "C" "c.png" "c_out.png" None 0 None None.

End QueueSpec.

Module StatusSpec.
Import Status.

(** Every stored state is one of the five values of [ProcessingState]. *)
Definition states_valid (d : dict ProcessingStatus) : Prop :=
  Forall (fun kv => str_in (state (snd kv)) valid_states = true) d.

(** The five counts of a summary, added up. *)
Definition count_sum (s : StatusSummary) : Z :=
  pending s + processing s + completed s + failed s + cancelled s.

(** [state in [COMPLETED.value, FAILED.value, CANCELLED.value]] *)
Definition terminal_value (s : string) : bool :=
  str_in s [value COMPLETED; value FAILED; value CANCELLED].

(** "No resurrection", read as a property of [update_status] alone: on a
    tracker reached through any calls, no successful [update_status] moves a
    job that is in a terminal state to pending or processing. *)
Definition no_resurrection : Prop :=
  forall (cs : list call) (image_id new_state : string)
         (err out : option string) (now : timestamp)
         (st : ProcessingStatus) (t' : StatusTracker),
    let t := run_calls StatusTracker_init cs in
    dict_get image_id (_statuses t) = Some st ->
    is_terminal_state st = true ->
    update_status t image_id new_state err out now = Ok t' ->
    state_of t' image_id <> Some (value PENDING) /\
    state_of t' image_id <> Some (value PROCESSING).

(** A job taken through processing to completed. *)
Definition completed_job_calls : list call :=
  [Call_add_image "img-1" 1%Q;
   Call_update_status "img-1" "processing" None None 2%Q;
   Call_update_status "img-1" "completed" None (Some "out/img-1.png") 3%Q].

(** The number of tracked jobs whose stored state is [s]. *)
Definition count_state (s : string) (t : StatusTracker) : Z :=
  Z.of_nat (length (filter (fun kv => String.eqb (state (snd kv)) s)
                           (_statuses t))).

(** [_batch_end_time] is set whenever the summary is complete. *)
Definition complete_stamped (t : StatusTracker) : Prop :=
  is_complete (get_summary t) = true -> _batch_end_time t <> None.

(** [t'] is [t] with job [i] moved from state [old] to state [new] and
    nothing else about the states changed. *)
Definition tracker_moved (t t' : StatusTracker) (i old new : string) : Prop :=
  state_of t' i = Some new /\
  (forall j, j <> i -> state_of t' j = state_of t j) /\
  (forall s, count_state s t' =
             count_state s t - Z.b2z (String.eqb old s) + Z.b2z (String.eqb new s)) /\
  length (_statuses t') = length (_statuses t) /\
  complete_stamped t'.

End StatusSpec.

Module MemorySpec.
Import Memory.

(** The closed form of the estimate under exact arithmetic, as the
    specification words it: [90*w*h + 72*((w*h) // 64)]. *)
Definition exact_estimate (width height : Z) : Z :=
  90 * (width * height) + 72 * ((width * height) / 64).

(** The estimate read as its closed form for every non-negative size. *)
Definition closed_form_everywhere : Prop :=
  forall (mm : MemoryManager) (width height : Z),
    0 <= width -> 0 <= height ->
    estimate_memory_required mm (width, height)
    = Ok (exact_estimate width height).

(** [m] counted in multiples of [2^n], to the nearest multiple, a tie going
    to the even count. *)
Definition round_at (n m : Z) : Z :=
  let q := m / 2 ^ n in
  let r := m mod 2 ^ n in
  if 2 * r <? 2 ^ n then q
  else if 2 ^ n <? 2 * r then q + 1
  else if Z.even q then q else q + 1.

(** The integer [m] rounded to the 53 significant bits of a binary64
    float, to nearest, ties to even. *)
Definition round53 (m : Z) : Z :=
  let n := Z.max 0 (Zdigits2 m - 53) in
  round_at n m * 2 ^ n.

(** [int(float(total) * 1.5)] with both roundings written out: the sum is
    rounded when it is converted, and its product by [1.5] is rounded
    again. *)
Definition rounded_estimate (width height : Z) : Z :=
  let pixels := width * height in
  round53 (3 * round53 (60 * pixels + 48 * (pixels / 64))) / 2.

End MemorySpec.

Module ProcessorSpec.
Import Queue Processor.

Definition is_rendered (o : RenderOutcome) : bool :=
  match o with Rendered => true | _ => false end.

(** The state [process_single_image] leaves a job in. *)
Definition final_state (o : RenderOutcome) : string :=
  if is_rendered o then "completed" else "failed".

(** The effect of the control calls on the processor. *)
Definition apply_request (bp : BatchProcessor) (r : ControlRequest)
  : BatchProcessor :=
  match r with
  | ReqPause => fst (pause_processing bp)
  | ReqCancel => fst (cancel_processing bp)
  end.

Definition apply_requests (rs : list ControlRequest) (bp : BatchProcessor)
  : BatchProcessor :=
  fold_left apply_request rs bp.

(** Pairwise distinct strings. *)
Fixpoint distinct (l : list string) : bool :=
  match l with
  | [] => true
  | x :: rest => negb (Status.str_in x rest) && distinct rest
  end.

(** The jobs of the batch: what is in the queue. *)
Definition jobs (bp : BatchProcessor) : list ImageQueueItem := _queue (queue bp).

Definition batch_size (bp : BatchProcessor) : Z := Z.of_nat (length (jobs bp)).

(** A batch as [add_images] leaves it on a fresh processor, before any
    processing: the queued items have distinct ids, the tracker tracks
    exactly them, all pending, and no run or preview is under way. *)
Definition batch_ready (bp : BatchProcessor) : bool :=
  (_size (queue bp) =? batch_size bp) &&
  distinct (map Queue.id (jobs bp)) &&
  forallb (fun x => Status.dict_contains (Queue.id x)
                      (Status._statuses (status_tracker bp))) (jobs bp) &&
  forallb (fun kv => String.eqb (Status.state (snd kv)) "pending")
          (Status._statuses (status_tracker bp)) &&
  Nat.eqb (length (Status._statuses (status_tracker bp))) (length (jobs bp)) &&
  negb (_processing bp) && negb (_preview_processed bp) &&
  negb (_preview_approved bp).

(** No control call arrives while any of the jobs is in flight. *)
Definition no_arrivals (env : Env) (l : list ImageQueueItem) : bool :=
  forallb (fun x => match arrivals env x with [] => true | _ => false end) l.

(** The number of jobs whose rendering fails. *)
Definition failures (env : Env) (l : list ImageQueueItem) : Z :=
  Z.of_nat (length (filter (fun x => negb (is_rendered (render env x))) l)).

(** The number of jobs of [l] that [fin] sends to state [s]. *)
Definition count_fin (fin : ImageQueueItem -> string) (s : string)
    (l : list ImageQueueItem) : Z :=
  Z.of_nat (length (filter (fun x => String.eqb (fin x) s) l)).

(** [t'] is [t] with every job of [l] moved from pending to the state [fin]
    gives it, and nothing else about the states changed. *)
Definition batch_moved (t t' : Status.StatusTracker) (l : list ImageQueueItem)
    (fin : ImageQueueItem -> string) : Prop :=
  (forall x, In x l -> Status.state_of t' (Queue.id x) = Some (fin x)) /\
  (forall j, ~ In j (map Queue.id l) -> Status.state_of t' j = Status.state_of t j) /\
  (forall s, StatusSpec.count_state s t' =
             StatusSpec.count_state s t
             - Z.b2z (String.eqb "pending" s) * Z.of_nat (length l)
             + count_fin fin s l) /\
  length (Status._statuses t') = length (Status._statuses t) /\
  StatusSpec.complete_stamped t'.

(** The job's state is completed, failed or cancelled. *)
Definition is_terminal (t : Status.StatusTracker) (image_id : string) : bool :=
  match Status.state_of t image_id with
  | Some s => StatusSpec.terminal_value s
  | None => false
  end.

(** What [process_single_image] returns. *)
Definition handled (r : result unit) : Prop :=
  r = Ok tt \/ exists p m, r = Raise (ImageProcessingError p m).

(** A statement that leaves the queue as it found it. *)
Definition keeps_queue {A} (m : M A) : Prop :=
  forall w r w', m w = (r, w') -> queue (proc w') = queue (proc w).

(** The state of a processor on which [k] images have been added. *)
Definition added (cfg : BatchConfig) (dev : Memory.device_type)
    (env : Env) (u k : nat) (done : list string) (w : World) : Prop :=
  exists items start,
    proc w = mkProcessor cfg (mkQueue items (Z.of_nat (length items)))
               (Status.mkTracker
                  (map (fun i => (i, Status.mkStatus i "pending" None None None None))
                       (map Queue.id items))
                  start None)
               (Memory.mkMemoryManager dev (8 # 10))
               false false false false false None /\
    uuid_calls w = (u + k)%nat /\
    length items = k /\
    Forall (fun y => priority y = 0) items /\
    map Queue.id items = map (uuid4 env) (seq u k) /\
    map Queue.input_path items = done.

(** *** A concrete batch, used to exercise the statements *)

Definition demo_config (preview : bool) : BatchConfig :=
  mkConfig "in" "out" ["ref.png"] "line + shadow" 0 10 3 false false preview 1
           false false None.

(** An environment in which the job with id [bad] fails at the colorization
    stage and a cancel request arrives while the job with id [stop] is in
    flight. *)
Definition demo_env (bad stop : string) : Env :=
  mkEnv (fun _ => true)
        (fun input_path output_dir suffix =>
           Ok (output_dir ++ "/" ++ input_path ++ suffix)%string)
        (fun path _ => Ok path)
        (fun n => ("id-" ++ str_int (Z.of_nat n))%string)
        (fun n => inject_Z (Z.of_nat n))
        (fun x => if String.eqb (Queue.id x) bad
                  then StageFails "running colorization pipeline"
                         "Failed during colorization: boom"
                  else Rendered)
        (fun x => if String.eqb (Queue.id x) stop then [ReqCancel] else []).

(** A fresh processor on which [add_images] was called with three paths. *)
Definition demo_world (preview : bool) : World :=
  snd (add_images (demo_env "none" "none") ["a.png"; "b.png"; "c.png"]
         (mkWorld (BatchProcessor_init (demo_config preview) Memory.cpu) 0 0)).

(** The message of the [ValidationError] that [add_images] raises when it
    added nothing. *)
Definition no_valid_image_message (image_paths : list string) : string :=
  match image_paths with
  | [] => "Cannot add images: image_paths list is empty"
  | _ => ("No valid images added. "
          ++ str_int (Z.of_nat (length image_paths))
          ++ " images were invalid.")%string
  end.

(** An environment whose file check rejects every path. *)
Definition rejecting_env : Env :=
  mkEnv (fun _ => false)
        (fun input_path output_dir suffix =>
           Ok (output_dir ++ "/" ++ input_path ++ suffix)%string)
        (fun path _ => Ok path)
        (fun n => ("id-" ++ str_int (Z.of_nat n))%string)
        (fun n => inject_Z (Z.of_nat n))
        (fun _ => Rendered)
        (fun _ => []).

(** A processor that was just constructed. *)
Definition fresh_world : World :=
  mkWorld (BatchProcessor_init (demo_config false) Memory.cpu) 0 0.

End ProcessorSpec.

(** * Clients of the queue and further predicates *)

Module QueueCalls.
Import Queue.

(** The calls a client can make on a queue. *)
Inductive call : Type :=
| Call_enqueue (item : ImageQueueItem)
| Call_dequeue
| Call_clear.

(** One call; the item [dequeue] returns is dropped. *)
Definition run_call (q : ImageQueue) (c : call) : result ImageQueue :=
  match c with
  | Call_enqueue item => Ok (enqueue q item)
  | Call_dequeue =>
      match dequeue q with
      | Ok (_, q') => Ok q'
      | Raise e => Raise e
      end
  | Call_clear => Ok (clear q)
  end.

(** A client making the calls [cs] in turn; an exception ends the run. *)
Fixpoint run_calls (q : ImageQueue) (cs : list call) : result ImageQueue :=
  match cs with
  | [] => Ok q
  | c :: rest =>
      match run_call q c with
      | Ok q' => run_calls q' rest
      | Raise e => Raise e
      end
  end.

End QueueCalls.

Module StatusCalls.
Import Status.

(** Whether the call is [clear]. *)
Definition is_clear (c : call) : bool :=
  match c with Call_clear => true | _ => false end.

(** The status [add_image] stores for a new image. *)
Definition new_status (image_id : string) : ProcessingStatus :=
  mkStatus image_id (value PENDING) None None None None.

(** Every key occurs once, and the status kept under a key carries that key
    as its [id]. *)
Definition keys_ok (d : dict ProcessingStatus) : Prop :=
  NoDup (map fst d) /\ Forall (fun kv => id (snd kv) = fst kv) d.

(** A tracker on which a job was added, started and completed. *)
Definition one_done : StatusTracker :=
  run_calls StatusTracker_init StatusSpec.completed_job_calls.

End StatusCalls.

Module FileHandlerSpec.
Import FileHandler.

(** A directory [out] in which the files named in [taken] exist; paths are
    split at the last ["/"] and the last ["."] by hand for the one file
    name used. *)
Definition demo_fs (taken : list string) : FileSystem :=
  mkFileSystem (fun p => Status.str_in p taken)
               (fun _ => "page1_colorized")
               (fun _ => ".png")
               (fun _ => "out")
               (fun parent name => (parent ++ "/" ++ name)%string).

End FileHandlerSpec.

Module ProcessorMoreSpec.
Import Queue Processor ProcessorSpec.

Definition is_pause (r : ControlRequest) : bool :=
  match r with ReqPause => true | ReqCancel => false end.

Definition is_cancel (r : ControlRequest) : bool :=
  match r with ReqCancel => true | ReqPause => false end.

(** A processor that is not running, without preview mode, whose queue
    holds the jobs [l], all of them tracked as pending. *)
Definition idle_with (bp : BatchProcessor) (l : list ImageQueueItem) : Prop :=
  queue bp = mkQueue l (Z.of_nat (length l)) /\
  _processing bp = false /\
  preview_mode (config bp) = false /\
  NoDup (map Queue.id l) /\
  (forall x, In x l ->
     Status.state_of (status_tracker bp) (Queue.id x) = Some "pending") /\
  StatusSpec.complete_stamped (status_tracker bp).

(** The state in which the rendering of a job leaves it. *)
Definition rendered_state (env : Env) (x : ImageQueueItem) : string :=
  final_state (render env x).

(** An environment in which the job with id [bad] fails at the colorization
    stage and the requests [reqs] arrive while the job with id [stop] is in
    flight. *)
Definition control_env (bad stop : string) (reqs : list ControlRequest) : Env :=
  mkEnv (fun _ => true)
        (fun input_path output_dir suffix =>
           Ok (output_dir ++ "/" ++ input_path ++ suffix)%string)
        (fun path _ => Ok path)
        (fun n => ("id-" ++ str_int (Z.of_nat n))%string)
        (fun n => inject_Z (Z.of_nat n))
        (fun x => if String.eqb (Queue.id x) bad
                  then StageFails "running colorization pipeline"
                         "Failed during colorization: boom"
                  else Rendered)
        (fun x => if String.eqb (Queue.id x) stop then reqs else []).

(** Whether [add_images] queues the path: it passes the file check and an
    output path can be made for it. *)
Definition addable (env : Env) (cfg : BatchConfig) (image_path : string) : bool :=
  validate_image_file env image_path &&
  match create_output_path env image_path (output_dir cfg) "_colorized" with
  | Ok out0 =>
      match handle_filename_collision env out0 (overwrite cfg) with
      | Ok _ => true
      | Raise _ => false
      end
  | Raise _ => false
  end.

(** The state of a processor made with [cfg] and [dev] when [uuid4] had
    been read [u] times, after [add_images] has gone through some paths of
    which it queued [done]. *)
Definition added_upto (cfg : BatchConfig) (dev : Memory.device_type)
    (env : Env) (u : nat) (done : list string) (w : World) : Prop :=
  exists items start,
    proc w = mkProcessor cfg (mkQueue items (Z.of_nat (length items)))
               (Status.mkTracker
                  (map (fun i => (i, Status.mkStatus i "pending" None None None None))
                       (map Queue.id items))
                  start None)
               (Memory.mkMemoryManager dev (8 # 10))
               false false false false false None /\
    (items = [] -> start = None) /\
    (u <= uuid_calls w)%nat /\
    Forall (fun y => priority y = 0 /\ image_type y = Some "line_art") items /\
    NoDup (map Queue.id items) /\
    (forall i, In i (map Queue.id items) ->
       exists n, (u <= n < uuid_calls w)%nat /\ i = uuid4 env n) /\
    map Queue.input_path items = done.

(** An environment whose file check accepts the paths ending in [.png] and
    in which no output path can be made for ["locked.png"]. *)
Definition picky_env : Env :=
  mkEnv (fun p => String.eqb (substring (String.length p - 4) 4 p) ".png")
        (fun input_path output_dir suffix =>
           if String.eqb input_path "locked.png"
           then Raise (ResourceError "Permission denied creating output directory: out")
           else Ok (output_dir ++ "/" ++ input_path ++ suffix)%string)
        (fun path _ => Ok path)
        (fun n => ("id-" ++ str_int (Z.of_nat n))%string)
        (fun n => inject_Z (Z.of_nat n))
        (fun _ => Rendered)
        (fun _ => []).

(** The three jobs of [demo_world]. *)
Definition job_0 : ImageQueueItem :=
  mkItem "id-0" "a.png" "out/a.png_colorized" None 0 (Some "line_art") None.
Definition job_1 : ImageQueueItem :=
  mkItem "id-1" "b.png" "out/b.png_colorized" None 0 (Some "line_art") None.
Definition job_2 : ImageQueueItem :=
  mkItem "id-2" "c.png" "out/c.png_colorized" None 0 (Some "line_art") None.

(** Cancellation requested when exactly one job has finished, as the
    specification words it: the first job is done and the second one is in
    flight when the request is made, and every job but the first is expected
    to be cancelled when [start_processing] returns. *)
Definition cancel_after_one_job_cancels_all_others : Prop :=
  forall (env : Env) (w : World) (x y : ImageQueueItem)
         (rest : list ImageQueueItem),
    batch_ready (proc w) = true ->
    preview_mode (config (proc w)) = false ->
    jobs (proc w) = x :: y :: rest ->
    arrivals env x = [] ->
    arrivals env y = [ReqCancel] ->
    exists w',
      start_processing env w = (Ok tt, w') /\
      let t := status_tracker (proc w') in
      let s := Status.get_summary t in
      is_terminal t (Queue.id x) = true /\
      (forall z, In z (y :: rest) ->
         Status.state_of t (Queue.id z) = Some "cancelled") /\
      Status.pending s = 0 /\ Status.processing s = 0.

End ProcessorMoreSpec.

(** * Properties of the queue *)

Module QueueFacts.
Import Queue QueueSpec.

Lemma scan_insert_pos_shift item l i :
  scan_insert_pos item l (S i) = option_map S (scan_insert_pos item l i).
Proof.
  revert i; induction l as [|y l IH]; intros i; simpl; auto.
  destruct (priority item >? priority y); simpl; auto.
Qed.

Lemma list_insert_is_insert_sorted item l :
  list_insert (insert_pos item l) item l = insert_sorted item l.
Proof.
  unfold list_insert, insert_pos.
  induction l as [|y l IH]; simpl; auto.
  destruct (priority item >? priority y) eqn:E; simpl; auto.
  rewrite scan_insert_pos_shift.
  destruct (scan_insert_pos item l 0) as [i|]; simpl in *; now rewrite IH.
Qed.

Lemma insert_sorted_perm item l : Permutation (item :: l) (insert_sorted item l).
Proof.
  induction l as [|y l IH]; simpl; auto.
  destruct (priority item >? priority y); auto.
  eapply perm_trans; [apply perm_swap|]. now constructor.
Qed.

Lemma insert_sorted_sorted item l :
  StronglySorted prio_ge l -> StronglySorted prio_ge (insert_sorted item l).
Proof.
  induction l as [|y l IH]; simpl; intros Hs.
  - repeat constructor.
  - inversion Hs as [|? ? Hs' Hall]; subst.
    destruct (priority item >? priority y) eqn:E.
    + constructor; auto. constructor.
      * unfold prio_ge. lia.
      * eapply Forall_impl; [|exact Hall]. unfold prio_ge. intros; lia.
    + constructor; auto.
      eapply Permutation_Forall; [apply insert_sorted_perm|].
      constructor; auto. unfold prio_ge. lia.
Qed.

Lemma with_priority_none p l :
  Forall (fun x => priority x < p) l -> with_priority p l = [].
Proof.
  unfold with_priority. induction 1 as [|x l Hx _ IH]; simpl; auto.
  replace (priority x =? p) with false by (symmetry; lia). exact IH.
Qed.

Lemma insert_sorted_with_priority p item l :
  StronglySorted prio_ge l ->
  with_priority p (insert_sorted item l) =
  with_priority p l ++ with_priority p [item].
Proof.
  induction l as [|y l IH]; intros Hs; [reflexivity|].
  inversion Hs as [|? ? Hs' Hall]; subst.
  cbn [insert_sorted].
  destruct (priority item >? priority y) eqn:E.
  - change (with_priority p (item :: y :: l))
      with (if priority item =? p then item :: with_priority p (y :: l)
            else with_priority p (y :: l)).
    change (with_priority p [item])
      with (if priority item =? p then [item] else []).
    destruct (priority item =? p) eqn:Ep.
    + (* every queued item has a strictly lower priority than [p] *)
      rewrite (with_priority_none p (y :: l)); [reflexivity|].
      constructor; [lia|].
      eapply Forall_impl; [|exact Hall]. unfold prio_ge. intros; lia.
    + now rewrite app_nil_r.
  - unfold with_priority in *. cbn [filter].
    destruct (priority y =? p); cbn [app]; now rewrite IH.
Qed.

(** *** What a run of [enqueue] calls leaves in the queue *)

Lemma enqueue_queue q item :
  _queue (enqueue q item) = insert_sorted item (_queue q).
Proof. unfold enqueue; simpl. apply list_insert_is_insert_sorted. Qed.

Lemma enqueue_size_ok q item : size_ok q -> size_ok (enqueue q item).
Proof.
  unfold size_ok. rewrite enqueue_queue. intros H. simpl _size. rewrite H.
  rewrite <- (Permutation_length (insert_sorted_perm item (_queue q))).
  simpl length. lia.
Qed.

Lemma enqueue_all_spec items : forall q,
  size_ok q -> StronglySorted prio_ge (_queue q) ->
  size_ok (enqueue_all q items) /\
  StronglySorted prio_ge (_queue (enqueue_all q items)) /\
  Permutation (_queue q ++ items) (_queue (enqueue_all q items)) /\
  (forall p, with_priority p (_queue (enqueue_all q items)) =
             with_priority p (_queue q) ++ with_priority p items).
Proof.
  induction items as [|x items IH]; intros q Hsz Hs; simpl.
  - rewrite app_nil_r. repeat split; auto. intros p. now rewrite app_nil_r.
  - assert (Hs' : StronglySorted prio_ge (_queue (enqueue q x)))
      by (rewrite enqueue_queue; now apply insert_sorted_sorted).
    destruct (IH (enqueue q x) (enqueue_size_ok q x Hsz) Hs')
      as (H1 & H2 & H3 & H4).
    repeat split; auto.
    + eapply perm_trans; [|exact H3]. rewrite enqueue_queue.
      eapply perm_trans; [apply Permutation_sym, Permutation_middle|].
      change (x :: _queue q ++ items) with ((x :: _queue q) ++ items).
      apply Permutation_app_tail, insert_sorted_perm.
    + intros p. rewrite H4, enqueue_queue, insert_sorted_with_priority by auto.
      rewrite <- app_assoc. f_equal. unfold with_priority. simpl.
      destruct (priority x =? p); reflexivity.
Qed.

(** *** What repeated [dequeue] calls return *)

Lemma dequeue_n_all l : forall sz,
  sz = Z.of_nat (length l) ->
  dequeue_n (S (length l)) (mkQueue l sz) =
  Ok (map Some l ++ [None], ImageQueue_init).
Proof.
  induction l as [|x l IH]; intros sz Hsz.
  - subst sz. reflexivity.
  - cbn [length]. remember (S (length l)) as n eqn:En.
    cbn [dequeue_n]. unfold dequeue. cbn [_size _queue].
    replace (sz =? 0) with false
      by (symmetry; apply Z.eqb_neq; subst sz; cbn [length]; lia).
    subst n. rewrite IH by (subst sz; cbn [length]; lia). reflexivity.
Qed.

(** C1. Whatever items are enqueued on a fresh queue, [length items]
    dequeue calls return all of them (the next call returns [None]), in
    non-increasing priority, and the items of any one priority come out in
    the order they were enqueued.  Enqueuing A(0), B(5), C(0) gives B, A, C. *)
Theorem C1_priority_order_stable :
  (forall items : list ImageQueueItem,
     exists out : list ImageQueueItem,
       dequeue_n (S (length items)) (enqueue_all ImageQueue_init items)
         = Ok (map Some out ++ [None], ImageQueue_init) /\
       StronglySorted prio_ge out /\
       Permutation items out /\
       (forall p, with_priority p out = with_priority p items)) /\
  dequeue_n 4 (enqueue_all ImageQueue_init [item_A; item_B; item_C])
    = Ok ([Some item_B; Some item_A; Some item_C; None], ImageQueue_init).
Proof.
  split; [|reflexivity].
  intros items.
  destruct (enqueue_all_spec items ImageQueue_init) as (Hsz & Hs & Hp & Hw).
  { reflexivity. }
  { constructor. }
  simpl in Hp.
  exists (_queue (enqueue_all ImageQueue_init items)).
  repeat split; auto.
  - rewrite (Permutation_length Hp).
    destruct (enqueue_all ImageQueue_init items) as [l sz].
    unfold size_ok in Hsz. simpl in *. now apply dequeue_n_all.
Qed.

End QueueFacts.
(** * Properties of the status tracker *)

Module StatusFacts.
Import Status StatusSpec.

Lemma count_status_total s st : total (count_status s st) = total s.
Proof.
  destruct s; unfold count_status.
  repeat match goal with |- context [if ?b then _ else _] => destruct b end;
    reflexivity.
Qed.

Lemma count_status_sum s st :
  str_in (state st) valid_states = true ->
  count_sum (count_status s st) = count_sum s + 1.
Proof.
  destruct s; unfold count_status, count_sum, str_in, valid_states.
  cbn [map existsb value].
  repeat match goal with |- context [String.eqb ?a ?b] =>
    destruct (String.eqb a b) end; cbn; intros; try lia; discriminate.
Qed.

Lemma fold_count_status l : forall s,
  Forall (fun st => str_in (state st) valid_states = true) l ->
  total (fold_left count_status l s) = total s /\
  count_sum (fold_left count_status l s) = count_sum s + Z.of_nat (length l).
Proof.
  induction l as [|st l IH]; intros s Hall; cbn [fold_left length].
  - split; [reflexivity | lia].
  - inversion Hall as [|? ? Hst Hl]; subst.
    destruct (IH (count_status s st) Hl) as [Ht Hc].
    rewrite Ht, Hc, count_status_total, count_status_sum by exact Hst.
    split; [reflexivity | lia].
Qed.

Lemma get_summary_sum t :
  states_valid (_statuses t) ->
  count_sum (get_summary t) = total (get_summary t) /\
  total (get_summary t) = len t.
Proof.
  intros Hv. unfold get_summary, dict_values, len.
  destruct (fold_count_status (map snd (_statuses t))
              (mkSummary (Z.of_nat (length (_statuses t))) 0 0 0 0 0
                 (_batch_start_time t) (_batch_end_time t))) as [Ht Hc].
  { unfold states_valid in Hv. rewrite Forall_map. exact Hv. }
  rewrite Ht, Hc, length_map. cbn. split; [lia | reflexivity].
Qed.

(** *** The dictionary *)

Lemma dict_set_valid k v (d : dict ProcessingStatus) :
  str_in (state v) valid_states = true ->
  states_valid d -> states_valid (dict_set k v d).
Proof.
  unfold states_valid. intros Hv.
  induction d as [|[k' v'] d IH]; intros Hd; cbn [dict_set].
  - repeat constructor. exact Hv.
  - inversion Hd; subst. destruct (String.eqb k k'); constructor; auto.
Qed.

Lemma dict_get_set_same {V} k (v : V) d :
  dict_contains k d = true -> dict_get k (dict_set k v d) = Some v.
Proof.
  induction d as [|[k' v'] d IH]; cbn; [discriminate|].
  destruct (String.eqb k k') eqn:E; cbn; rewrite E; auto.
Qed.

Lemma dict_get_contains {V} k (d : dict V) v :
  dict_get k d = Some v -> dict_contains k d = true.
Proof.
  induction d as [|[k' v'] d IH]; cbn; [discriminate|].
  destruct (String.eqb k k'); cbn; auto.
Qed.

Lemma dict_get_set_other {V} k k' (v : V) d :
  k' <> k -> dict_get k' (dict_set k v d) = dict_get k' d.
Proof.
  intros Hne. induction d as [|[k0 v0] d IH]; cbn.
  - destruct (String.eqb k' k) eqn:E; [|reflexivity].
    apply String.eqb_eq in E. contradiction.
  - destruct (String.eqb k k0) eqn:E; cbn.
    + apply String.eqb_eq in E. subst k0.
      destruct (String.eqb k' k) eqn:E'; [|reflexivity].
      apply String.eqb_eq in E'. contradiction.
    + destruct (String.eqb k' k0); auto.
Qed.

Lemma dict_set_length {V} k (v : V) d :
  dict_contains k d = true -> length (dict_set k v d) = length d.
Proof.
  induction d as [|[k0 v0] d IH]; cbn; [discriminate|].
  destruct (String.eqb k k0); cbn; auto.
Qed.

Lemma dict_set_count k v (d : dict ProcessingStatus) st s :
  dict_get k d = Some st ->
  Z.of_nat (length (filter (fun kv => String.eqb (state (snd kv)) s)
                           (dict_set k v d))) =
  Z.of_nat (length (filter (fun kv => String.eqb (state (snd kv)) s) d))
  - Z.b2z (String.eqb (state st) s) + Z.b2z (String.eqb (state v) s).
Proof.
  induction d as [|[k0 v0] d IH]; cbn [dict_get dict_set]; [discriminate|].
  destruct (String.eqb k k0).
  - intros [= ->]. cbn [filter snd].
    destruct (String.eqb (state st) s), (String.eqb (state v) s);
      cbn [length Z.b2z]; lia.
  - intros H. cbn [filter snd].
    destruct (String.eqb (state v0) s); cbn [length]; rewrite ?Nat2Z.inj_succ;
      rewrite (IH H); lia.
Qed.

(** *** The summary counts *)

Lemma count_status_fields s st :
  pending (count_status s st) = pending s + Z.b2z (String.eqb (state st) "pending") /\
  processing (count_status s st) = processing s + Z.b2z (String.eqb (state st) "processing") /\
  completed (count_status s st) = completed s + Z.b2z (String.eqb (state st) "completed") /\
  failed (count_status s st) = failed s + Z.b2z (String.eqb (state st) "failed") /\
  cancelled (count_status s st) = cancelled s + Z.b2z (String.eqb (state st) "cancelled") /\
  s_end_time (count_status s st) = s_end_time s /\
  s_start_time (count_status s st) = s_start_time s.
Proof.
  destruct s; unfold count_status; cbn [value].
  destruct (String.eqb (state st) "pending") eqn:E1;
    [try (apply String.eqb_eq in E1; rewrite E1); cbn; repeat split; lia|].
  destruct (String.eqb (state st) "processing") eqn:E2;
    [try (apply String.eqb_eq in E2; rewrite E2); cbn; repeat split; lia|].
  destruct (String.eqb (state st) "completed") eqn:E3;
    [try (apply String.eqb_eq in E3; rewrite E3); cbn; repeat split; lia|].
  destruct (String.eqb (state st) "failed") eqn:E4;
    [try (apply String.eqb_eq in E4; rewrite E4); cbn; repeat split; lia|].
  destruct (String.eqb (state st) "cancelled") eqn:E5;
    [try (apply String.eqb_eq in E5; rewrite E5); cbn; repeat split; lia|].
  cbn. repeat split; lia.
Qed.

Lemma fold_count_fields (d : dict ProcessingStatus) : forall s,
  let r := fold_left count_status (map snd d) s in
  let n x := Z.of_nat (length (filter (fun kv => String.eqb (state (snd kv)) x) d)) in
  pending r = pending s + n "pending" /\
  processing r = processing s + n "processing" /\
  completed r = completed s + n "completed" /\
  failed r = failed s + n "failed" /\
  cancelled r = cancelled s + n "cancelled" /\
  s_end_time r = s_end_time s /\
  total r = total s.
Proof.
  induction d as [|[k st] d IH]; intros s; cbn [map fold_left filter snd].
  - cbn. repeat split; lia.
  - destruct (IH (count_status s st)) as (H1 & H2 & H3 & H4 & H5 & H6 & H7).
    destruct (count_status_fields s st) as (C1 & C2 & C3 & C4 & C5 & C6 & _).
    cbv zeta. rewrite H1, H2, H3, H4, H5, H6, H7, C1, C2, C3, C4, C5, C6.
    rewrite count_status_total.
    repeat split;
      match goal with
      | |- context [String.eqb (state st) ?x] =>
          destruct (String.eqb (state st) x); cbn [length Z.b2z];
          rewrite ?Nat2Z.inj_succ; lia
      | _ => reflexivity
      end.
Qed.

Lemma summary_fields t :
  pending (get_summary t) = count_state "pending" t /\
  processing (get_summary t) = count_state "processing" t /\
  completed (get_summary t) = count_state "completed" t /\
  failed (get_summary t) = count_state "failed" t /\
  cancelled (get_summary t) = count_state "cancelled" t /\
  s_end_time (get_summary t) = _batch_end_time t /\
  total (get_summary t) = Z.of_nat (length (_statuses t)).
Proof.
  unfold get_summary, dict_values, count_state.
  destruct (fold_count_fields (_statuses t)
              (mkSummary (Z.of_nat (length (_statuses t))) 0 0 0 0 0
                 (_batch_start_time t) (_batch_end_time t)))
    as (H1 & H2 & H3 & H4 & H5 & H6 & H7).
  cbv zeta in *. rewrite H1, H2, H3, H4, H5, H6, H7. cbn. repeat split.
Qed.

Lemma is_complete_statuses t1 t2 :
  _statuses t1 = _statuses t2 ->
  is_complete (get_summary t1) = is_complete (get_summary t2).
Proof.
  intros H. unfold is_complete.
  destruct (summary_fields t1) as (_ & _ & H3 & H4 & H5 & _ & H7).
  destruct (summary_fields t2) as (_ & _ & G3 & G4 & G5 & _ & G7).
  rewrite H3, H4, H5, H7, G3, G4, G5, G7. unfold count_state. now rewrite H.
Qed.

(** *** What a successful [update_status] does to the tracked states *)

Lemma state_of_tracked t i old :
  state_of t i = Some old ->
  exists st, dict_get i (_statuses t) = Some st /\ state st = old.
Proof.
  unfold state_of. destruct (dict_get i (_statuses t)) as [st|]; cbn;
    [|discriminate].
  intros [= <-]. eauto.
Qed.

Lemma update_status_moved t i old s e o now :
  state_of t i = Some old ->
  exists t',
    update_status t i (value s) e o now = Ok t' /\
    tracker_moved t t' i old (value s).
Proof.
  intros Hold. destruct (state_of_tracked _ _ _ Hold) as (st & Hget & Hst).
  unfold update_status. rewrite Hget.
  replace (str_in (value s) valid_states) with true by (destruct s; reflexivity).
  cbn [negb]. eexists; split; [reflexivity|].
  assert (Hc : dict_contains i (_statuses t) = true)
    by (eapply dict_get_contains; eauto).
  unfold tracker_moved, state_of, count_state, complete_stamped.
  cbn [_statuses _batch_end_time _batch_start_time].
  repeat split.
  - rewrite dict_get_set_same by exact Hc. reflexivity.
  - intros j Hj. now rewrite dict_get_set_other.
  - intros s0. rewrite (dict_set_count i _ _ st s0 Hget). now rewrite Hst.
  - now apply dict_set_length.
  - match goal with
    | |- context [if is_complete (get_summary ?T1) then _ else _] =>
        intros Hcomp;
        match type of Hcomp with
        | is_complete (get_summary ?T2) = true =>
            rewrite (is_complete_statuses T2 T1 eq_refl) in Hcomp
        end;
        rewrite Hcomp
    end.
    destruct (_batch_end_time t); discriminate.
Qed.

Lemma tracker_moved_trans t t1 t2 i a b c :
  tracker_moved t t1 i a b -> tracker_moved t1 t2 i b c ->
  tracker_moved t t2 i a c.
Proof.
  intros (A1 & A2 & A3 & A4 & A5) (B1 & B2 & B3 & B4 & B5).
  unfold tracker_moved. repeat split; auto.
  - intros j Hj. rewrite B2, A2; auto.
  - intros s. rewrite B3, A3. lia.
  - congruence.
Qed.

(** *** Validity of the stored states is kept by every call *)

Lemma run_call_valid t c t' :
  states_valid (_statuses t) -> run_call t c = Ok t' ->
  states_valid (_statuses t').
Proof.
  intros Hv. destruct c as [i now | i s e o now |]; cbn [run_call].
  - unfold add_image, ProcessingStatus_new.
    destruct (dict_contains i (_statuses t)); [discriminate|].
    cbn. intros [= <-]. cbn. apply dict_set_valid; [reflexivity | exact Hv].
  - unfold update_status.
    destruct (dict_get i (_statuses t)) as [st|]; [|discriminate].
    destruct (str_in s valid_states) eqn:Es; cbn [negb]; [|discriminate].
    intros [= <-]. cbn [_statuses]. apply dict_set_valid; [exact Es | exact Hv].
  - intros [= <-]. constructor.
Qed.

Lemma run_calls_valid cs : forall t,
  states_valid (_statuses t) -> states_valid (_statuses (run_calls t cs)).
Proof.
  induction cs as [|c cs IH]; intros t Hv; cbn [run_calls]; auto.
  destruct (run_call t c) as [t'|e] eqn:E; auto.
  apply IH. eapply run_call_valid; eauto.
Qed.

(** C2. After any sequence of [add_image], [update_status] and [clear]
    calls on a fresh tracker (calls that raise change nothing), the five
    counts of [get_summary] add up to [total], and [total] is the number of
    tracked jobs. *)
Theorem C2_summary_counts_add_up :
  forall cs : list call,
    let s := get_summary (run_calls StatusTracker_init cs) in
    pending s + processing s + completed s + failed s + cancelled s = total s /\
    total s = len (run_calls StatusTracker_init cs).
Proof.
  intros cs. apply (get_summary_sum (run_calls StatusTracker_init cs)).
  apply run_calls_valid. constructor.
Qed.

(** C4 as stated does not hold: [update_status] checks the new state
    against the valid values only, so a completed job is moved back to
    pending. *)
Lemma C4_resurrection_counterexample : ~ no_resurrection.
Proof.
  intros H.
  destruct (H completed_job_calls "img-1" "pending" None None 4%Q
              (mkStatus "img-1" "completed" (Some 2%Q) (Some 3%Q) None
                 (Some "out/img-1.png"))
              (mkTracker
                 [("img-1", mkStatus "img-1" "pending" (Some 2%Q) (Some 3%Q)
                              None (Some "out/img-1.png"))]
                 (Some 1%Q) (Some 3%Q)))
    as [Hp _]; try reflexivity.
  apply Hp. reflexivity.
Qed.

(** C4, amended. A successful [update_status] gives the job exactly the
    state that was passed, whatever state it was in; if the job was in a
    terminal state and the new state is terminal it is still in a terminal
    state; and an end time that was set is kept. *)
Theorem C4_update_status_sets_state :
  forall (t : StatusTracker) (image_id new_state : string)
         (err out : option string) (now : timestamp)
         (st : ProcessingStatus) (t' : StatusTracker),
    dict_get image_id (_statuses t) = Some st ->
    update_status t image_id new_state err out now = Ok t' ->
    exists st',
      dict_get image_id (_statuses t') = Some st' /\
      state st' = new_state /\
      is_terminal_state st' = terminal_value new_state /\
      (forall e, end_time st = Some e -> end_time st' = Some e).
Proof.
  intros t i s err out now st t' Hget. unfold update_status. rewrite Hget.
  destruct (str_in s valid_states); cbn [negb]; [|discriminate].
  intros [= <-]. cbn [_statuses].
  exists (apply_update st s err out now).
  rewrite dict_get_set_same by (eapply dict_get_contains; eauto).
  repeat split.
  intros e He. unfold apply_update. cbn [end_time]. rewrite He.
  destruct (str_in s _); reflexivity.
Qed.

Lemma C4_update_status_sets_state_witness :
  exists st',
    dict_get "img-1"
      (_statuses (mkTracker
         [("img-1", mkStatus "img-1" "pending" (Some 2%Q) (Some 3%Q)
                      None (Some "out/img-1.png"))]
         (Some 1%Q) (Some 3%Q))) = Some st' /\
    state st' = "pending" /\
    is_terminal_state st' = terminal_value "pending" /\
    (forall e, Some 3%Q = Some e -> end_time st' = Some e).
Proof.
  apply (C4_update_status_sets_state
           (run_calls StatusTracker_init completed_job_calls)
           "img-1" "pending" None None 4%Q
           (mkStatus "img-1" "completed" (Some 2%Q) (Some 3%Q) None
              (Some "out/img-1.png"))); reflexivity.
Defined.

End StatusFacts.

(** * Properties of the memory estimate *)

Module MemoryFacts.
Import Memory MemorySpec.

(** *** Binary digits *)

Lemma digits2_pos_bounds p :
  2 ^ (Z.pos (digits2_pos p) - 1) <= Z.pos p < 2 ^ Z.pos (digits2_pos p).
Proof.
  induction p as [p IH | p IH |]; cbn [digits2_pos].
  - rewrite Pos2Z.inj_succ.
    replace (Z.succ (Z.pos (digits2_pos p)) - 1) with (Z.succ (Z.pos (digits2_pos p) - 1)) by lia.
    rewrite !Z.pow_succ_r by lia. lia.
  - rewrite Pos2Z.inj_succ.
    replace (Z.succ (Z.pos (digits2_pos p)) - 1) with (Z.succ (Z.pos (digits2_pos p) - 1)) by lia.
    rewrite !Z.pow_succ_r by lia. lia.
  - cbn. lia.
Qed.

Lemma digits2_pos_unique p d :
  2 ^ (d - 1) <= Z.pos p < 2 ^ d -> Z.pos (digits2_pos p) = d.
Proof.
  intros [Hlo Hhi]. pose proof (digits2_pos_bounds p) as [Glo Ghi].
  set (g := Z.pos (digits2_pos p)) in *.
  assert (0 < d).
  { destruct (Z_lt_le_dec 0 d); auto.
    rewrite Z.pow_neg_r in Hlo by lia. 
    destruct (Z.eq_dec d 0) as [->|]; [cbn in Hhi; lia|].
    rewrite Z.pow_neg_r in Hhi by lia. lia. }
  assert (g - 1 < d).
  { apply (Z.pow_lt_mono_r_iff 2); lia. }
  assert (d - 1 < g).
  { apply (Z.pow_lt_mono_r_iff 2); lia. }
  lia.
Qed.

(** *** Shifting out zero bits is exact *)

Lemma shr_1_even m :
  0 <= m -> m mod 2 = 0 ->
  shr_1 (Build_shr_record m false false) = Build_shr_record (m / 2) false false.
Proof.
  intros Hm He. destruct m as [|p|p]; [reflexivity| |lia].
  destruct p as [p|p|]; cbn [shr_1 orb].
  - exfalso. rewrite Pos2Z.inj_xI in He.
    rewrite Z.add_comm, Z.mul_comm, Z.mod_add in He by lia. discriminate.
  - f_equal. rewrite Pos2Z.inj_xO, Z.mul_comm, Z.div_mul by lia. reflexivity.
  - discriminate.
Qed.

Lemma iter_pos_shr_exact n : forall m,
  0 <= m -> m mod 2 ^ Z.pos n = 0 ->
  iter_pos shr_1 n (Build_shr_record m false false)
  = Build_shr_record (m / 2 ^ Z.pos n) false false.
Proof.
  induction n as [n IH | n IH |]; intros m Hm Hd; cbn [iter_pos].
  - assert (E : 2 ^ Z.pos n~1 = 2 * (2 ^ Z.pos n * 2 ^ Z.pos n)).
    { replace (Z.pos n~1) with (Z.pos n + Z.pos n + 1) by lia.
      rewrite !Z.pow_add_r, Z.pow_1_r by lia. lia. }
    rewrite E in *.
    pose proof (Z.pow_pos_nonneg 2 (Z.pos n) ltac:(lia) ltac:(lia)) as Hpow.
    apply Z.mod_divide in Hd; [|lia]. destruct Hd as [k Hk]. subst m.
    rewrite shr_1_even; [|lia|].
    2:{ replace (k * (2 * (2 ^ Z.pos n * 2 ^ Z.pos n)))
          with ((k * (2 ^ Z.pos n * 2 ^ Z.pos n)) * 2) by lia.
        apply Z.mod_mul; lia. }
    replace (k * (2 * (2 ^ Z.pos n * 2 ^ Z.pos n)) / 2)
      with (k * 2 ^ Z.pos n * 2 ^ Z.pos n).
    2:{ replace (k * (2 * (2 ^ Z.pos n * 2 ^ Z.pos n)))
          with ((k * 2 ^ Z.pos n * 2 ^ Z.pos n) * 2) by lia.
        rewrite Z.div_mul; lia. }
    rewrite IH; [|nia|apply Z.mod_mul; lia].
    rewrite Z.div_mul by lia.
    rewrite IH; [|nia|apply Z.mod_mul; lia].
    rewrite Z.div_mul by lia. f_equal.
    rewrite Z.div_mul; lia.
  - assert (E : 2 ^ Z.pos n~0 = 2 ^ Z.pos n * 2 ^ Z.pos n).
    { replace (Z.pos n~0) with (Z.pos n + Z.pos n) by lia.
      rewrite Z.pow_add_r by lia. lia. }
    rewrite E in *.
    pose proof (Z.pow_pos_nonneg 2 (Z.pos n) ltac:(lia) ltac:(lia)) as Hpow.
    apply Z.mod_divide in Hd; [|lia]. destruct Hd as [k Hk]. subst m.
    replace (k * (2 ^ Z.pos n * 2 ^ Z.pos n))
      with (k * 2 ^ Z.pos n * 2 ^ Z.pos n) by lia.
    rewrite IH; [|nia|apply Z.mod_mul; lia].
    rewrite Z.div_mul by lia.
    rewrite IH; [|nia|apply Z.mod_mul; lia].
    rewrite Z.div_mul by lia. f_equal.
    replace (k * 2 ^ Z.pos n * 2 ^ Z.pos n)
      with (k * (2 ^ Z.pos n * 2 ^ Z.pos n)) by lia.
    rewrite Z.div_mul; lia.
  - change (2 ^ 1) with 2 in *. now apply shr_1_even.
Qed.

Lemma Zdigits2_div_pow2 mx n :
  0 < mx -> 0 <= n -> n < Zdigits2 mx ->
  0 < mx / 2 ^ n /\ Zdigits2 (mx / 2 ^ n) = Zdigits2 mx - n.
Proof.
  intros Hm Hn Hd. destruct mx as [|p|p]; try lia. cbn [Zdigits2] in *.
  pose proof (digits2_pos_bounds p) as [Hlo Hhi].
  set (d := Z.pos (digits2_pos p)) in *.
  pose proof (Z.pow_pos_nonneg 2 n ltac:(lia) Hn) as Hpn.
  assert (E1 : 2 ^ (d - 1) = 2 ^ (d - n - 1) * 2 ^ n).
  { rewrite <- Z.pow_add_r by lia. f_equal. lia. }
  assert (E2 : 2 ^ d = 2 ^ (d - n) * 2 ^ n).
  { rewrite <- Z.pow_add_r by lia. f_equal. lia. }
  assert (Hq1 : 2 ^ (d - n - 1) <= Z.pos p / 2 ^ n).
  { apply Z.div_le_lower_bound; lia. }
  assert (Hq2 : Z.pos p / 2 ^ n < 2 ^ (d - n)).
  { apply Z.div_lt_upper_bound; lia. }
  pose proof (Z.pow_pos_nonneg 2 (d - n - 1) ltac:(lia) ltac:(lia)).
  split; [lia|].
  destruct (Z.pos p / 2 ^ n) as [|q|q] eqn:Eq; try lia.
  cbn [Zdigits2]. apply digits2_pos_unique. split; [exact Hq1 | lia].
Qed.

(** Rounding a mantissa whose low bits are all zero only drops them. *)
Lemma binary_round_aux_exact mx e n :
  0 < mx -> n = Zdigits2 mx - prec -> 0 <= n ->
  3 - emax - prec <= e + n -> e + n <= emax - prec ->
  mx mod 2 ^ n = 0 ->
  binary_round_aux prec emax false mx e loc_Exact
  = S754_finite false (Z.to_pos (mx / 2 ^ n)) (e + n).
Proof.
  intros Hm Hn Hn0 Hlo Hhi Hdiv.
  destruct (Zdigits2_div_pow2 mx n Hm Hn0) as [Hq Hdq]; [unfold prec in *; lia|].
  assert (Hshr : shr_fexp prec emax mx e loc_Exact
                 = (Build_shr_record (mx / 2 ^ n) false false, e + n)).
  { unfold shr_fexp, fexp, emin. cbn [shr_record_of_loc].
    replace (Z.max (Zdigits2 mx + e - prec) (3 - emax - prec) - e) with n by lia.
    unfold shr. destruct n as [|k|k]; try lia.
    - rewrite Z.pow_0_r, Z.div_1_r, Z.add_0_r. reflexivity.
    - rewrite iter_pos_shr_exact by (auto; lia). reflexivity. }
  unfold binary_round_aux. rewrite Hshr.
  cbn [shr_m loc_of_shr_record round_nearest_even].
  assert (Hshr2 : shr_fexp prec emax (mx / 2 ^ n) (e + n) loc_Exact
                  = (Build_shr_record (mx / 2 ^ n) false false, e + n)).
  { unfold shr_fexp, fexp, emin. cbn [shr_record_of_loc]. rewrite Hdq.
    replace (Z.max (Zdigits2 mx - n + (e + n) - prec) (3 - emax - prec) - (e + n))
      with 0 by lia.
    reflexivity. }
  rewrite Hshr2. cbn [shr_m].
  destruct (mx / 2 ^ n) as [|q|q] eqn:Eq; try lia.
  replace (e + n <=? emax - prec) with true by (symmetry; apply Z.leb_le; lia).
  reflexivity.
Qed.

(** *** Conversion of a small [int] is exact *)

Lemma iter_xO_pow2 k : forall p, Z.pos (Pos.iter xO p k) = Z.pos p * 2 ^ Z.pos k.
Proof.
  induction k as [|k IH] using Pos.peano_ind; intros p.
  - cbn [Pos.iter]. rewrite Z.pow_1_r. lia.
  - rewrite Pos.iter_succ, Pos2Z.inj_xO, IH, Pos2Z.inj_succ, Z.pow_succ_r by lia.
    lia.
Qed.

Lemma shl_align_spec mx ex ex' :
  ex' <= ex ->
  let '(mz, ez) := shl_align mx ex ex' in
  ez = ex' /\ Z.pos mz = Z.pos mx * 2 ^ (ex - ex').
Proof.
  intros H. unfold shl_align. destruct (ex' - ex) as [|k|k] eqn:E; try lia.
  - replace (ex - ex') with 0 by lia. rewrite Z.pow_0_r. lia.
  - rewrite iter_xO_pow2. replace (ex - ex') with (Z.pos k) by lia. lia.
Qed.

Lemma float_of_int_small s :
  Z.pos s < 2 ^ 53 ->
  let d := Z.pos (digits2_pos s) in
  float_of_int (Z.pos s)
  = Ok (S754_finite false (Z.to_pos (Z.pos s * 2 ^ (53 - d))) (d - 53)).
Proof.
  intros Hs d. pose proof (digits2_pos_bounds s) as [Hlo Hhi]. fold d in Hlo, Hhi.
  assert (Hd1 : 1 <= d) by (unfold d; lia).
  assert (Hd : d <= 53).
  { destruct (Z_le_gt_dec d 53); auto. exfalso.
    assert (2 ^ 53 <= 2 ^ (d - 1)) by (apply Z.pow_le_mono_r; lia). lia. }
  pose proof (Z.pow_pos_nonneg 2 (53 - d) ltac:(lia) ltac:(lia)) as Hp.
  assert (Hbig : 2 ^ 52 <= Z.pos s * 2 ^ (53 - d) < 2 ^ 53).
  { assert (E52 : 2 ^ 52 = 2 ^ (d - 1) * 2 ^ (53 - d))
      by (rewrite <- Z.pow_add_r by lia; f_equal; lia).
    assert (E53 : 2 ^ 53 = 2 ^ d * 2 ^ (53 - d))
      by (rewrite <- Z.pow_add_r by lia; f_equal; lia).
    rewrite E52, E53.
    split; [apply Z.mul_le_mono_nonneg_r | apply Z.mul_lt_mono_pos_r]; lia. }
  assert (Haux : forall mz,
            Z.pos mz = Z.pos s * 2 ^ (53 - d) ->
            binary_round_aux prec emax false (Z.pos mz) (d - 53) loc_Exact
            = S754_finite false (Z.to_pos (Z.pos s * 2 ^ (53 - d))) (d - 53)).
  { intros mz Hmz.
    rewrite (binary_round_aux_exact (Z.pos mz) (d - 53) 0); try (unfold prec, emax; lia).
    - rewrite Z.pow_0_r, Z.div_1_r, Z.add_0_r, Hmz. reflexivity.
    - cbn [Zdigits2]. rewrite (digits2_pos_unique mz 53); [reflexivity|].
      rewrite Hmz. exact Hbig.
    - rewrite Z.pow_0_r. apply Z.mod_1_r. }
  unfold float_of_int, binary_normalize, binary_round, fexp, emin.
  fold d. rewrite Z.add_0_r.
  replace (Z.max (d - prec) (3 - emax - prec)) with (d - 53)
    by (unfold prec, emax; lia).
  pose proof (shl_align_spec s 0 (d - 53) ltac:(lia)) as Hal.
  destruct (shl_align s 0 (d - 53)) as [mz ez]. destruct Hal as [-> Hmz].
  rewrite Haux; [reflexivity|]. rewrite Hmz. f_equal. f_equal. lia.
Qed.

(** *** Multiplying an even [int] below [2^53 * 2/3] by [1.5] is exact *)

Lemma pow2_split a b : 0 <= a -> 0 <= b -> 2 ^ (a + b) = 2 ^ a * 2 ^ b.
Proof. intros. now rewrite Z.pow_add_r. Qed.

Lemma mul_1_5_exact s :
  Z.pos s mod 2 = 0 -> 3 * Z.pos s < 2 ^ 54 ->
  exists f,
    float_of_int (Z.pos s) = Ok f /\
    int_of_float (float_mul f float_1_5) = Ok (3 * (Z.pos s / 2)).
Proof.
  intros Heven Hlt.
  assert (E54 : 2 ^ 54 = 18014398509481984) by reflexivity.
  assert (E53 : 2 ^ 53 = 9007199254740992) by reflexivity.
  assert (Hs53 : Z.pos s < 2 ^ 53) by lia.
  set (d := Z.pos (digits2_pos s)).
  pose proof (digits2_pos_bounds s) as [Hlo Hhi]. fold d in Hlo, Hhi.
  assert (Hd1 : 1 <= d) by (unfold d; lia).
  assert (Hd : d <= 53).
  { destruct (Z_le_gt_dec d 53); auto. exfalso.
    assert (2 ^ 53 <= 2 ^ (d - 1)) by (apply Z.pow_le_mono_r; lia). lia. }
  (* the half of [s] *)
  set (h := Z.pos s / 2).
  assert (Hh : Z.pos s = 2 * h).
  { unfold h. pose proof (Z.div_mod (Z.pos s) 2 ltac:(lia)). lia. }
  assert (Hhpos : 0 < h) by lia.
  (* the digits of [3 * s] *)
  set (d3 := Z.pos (digits2_pos (3 * s))).
  pose proof (digits2_pos_bounds (3 * s)) as [Hlo3 Hhi3]. fold d3 in Hlo3, Hhi3.
  rewrite Pos2Z.inj_mul in Hlo3, Hhi3.
  assert (Hd3lo : d < d3).
  { apply (Z.pow_lt_mono_r_iff 2); [lia | unfold d3; lia | ].
    assert (2 ^ d <= 2 * Z.pos s)
      by (replace d with (Z.succ (d - 1)) by lia; rewrite Z.pow_succ_r by lia; lia).
    lia. }
  assert (Hd3hi : d3 <= 54).
  { destruct (Z_le_gt_dec d3 54); auto. exfalso.
    assert (2 ^ 54 <= 2 ^ (d3 - 1)) by (apply Z.pow_le_mono_r; lia). lia. }
  assert (Hd3d : d3 <= d + 2).
  { assert (d3 - 1 < d + 2); [|lia].
    apply (Z.pow_lt_mono_r_iff 2); [lia | lia | ].
    rewrite (pow2_split d 2) by lia. change (2 ^ 2) with 4. lia. }
  (* the float of [s] *)
  eexists. split; [apply float_of_int_small; exact Hs53|].
  fold d.
  pose proof (Z.pow_pos_nonneg 2 (53 - d) ltac:(lia) ltac:(lia)) as Hp53.
  set (M := Z.pos s * 2 ^ (53 - d)).
  assert (HM : 0 < M) by (unfold M; lia).
  (* the product of the mantissas *)
  unfold float_mul, float_1_5, SFmul. cbn [xorb].
  set (n := d3 + 51 - d).
  assert (Hn : 52 <= n <= 53) by (unfold n; lia).
  set (P := Z.pos (Z.to_pos M * 6755399441055744)).
  assert (HP : P = 3 * h * 2 ^ (54 - d3) * 2 ^ n).
  { unfold P. rewrite Pos2Z.inj_mul, Z2Pos.id by exact HM. unfold M.
    change (Z.pos 6755399441055744) with (3 * 2 ^ 51).
    rewrite Hh.
    assert (A : 2 ^ (54 - d3) * 2 ^ n = 2 ^ (105 - d))
      by (rewrite <- pow2_split by lia; f_equal; unfold n; lia).
    assert (B : 2 ^ 1 * 2 ^ (53 - d) * 2 ^ 51 = 2 ^ (105 - d))
      by (rewrite <- !pow2_split by lia; f_equal; lia).
    replace (2 * h * 2 ^ (53 - d) * (3 * 2 ^ 51))
      with (3 * h * (2 ^ 1 * 2 ^ (53 - d) * 2 ^ 51)) by ring.
    replace (3 * h * 2 ^ (54 - d3) * 2 ^ n)
      with (3 * h * (2 ^ (54 - d3) * 2 ^ n)) by ring.
    now rewrite A, B. }
  pose proof (Z.pow_pos_nonneg 2 (54 - d3) ltac:(lia) ltac:(lia)) as Hp54.
  pose proof (Z.pow_pos_nonneg 2 n ltac:(lia) ltac:(lia)) as Hpn.
  assert (HPd : Zdigits2 P = n + 53).
  { unfold P at 1. cbn [Zdigits2]. apply digits2_pos_unique. fold P.
    assert (EP : P = 3 * Z.pos s * 2 ^ (104 - d)).
    { rewrite HP, Hh.
      assert (A : 2 ^ (54 - d3) * 2 ^ n = 2 ^ (105 - d))
        by (rewrite <- pow2_split by lia; f_equal; unfold n; lia).
      assert (B : 2 ^ 1 * 2 ^ (104 - d) = 2 ^ (105 - d))
        by (rewrite <- !pow2_split by lia; f_equal; lia).
      replace (3 * (2 * h) * 2 ^ (104 - d))
        with (3 * h * (2 ^ 1 * 2 ^ (104 - d))) by ring.
      replace (3 * h * 2 ^ (54 - d3) * 2 ^ n)
        with (3 * h * (2 ^ (54 - d3) * 2 ^ n)) by ring.
      now rewrite A, B. }
    pose proof (Z.pow_pos_nonneg 2 (104 - d) ltac:(lia) ltac:(lia)) as Hp104.
    rewrite EP.
    replace (n + 53 - 1) with ((d3 - 1) + (104 - d)) by (unfold n; lia).
    replace (n + 53) with (d3 + (104 - d)) by (unfold n; lia).
    rewrite !pow2_split by lia.
    split; [apply Z.mul_le_mono_nonneg_r | apply Z.mul_lt_mono_pos_r]; lia. }
  rewrite (binary_round_aux_exact P (d - 53 + -52) n);
    try (unfold prec, emax; lia).
  2:{ rewrite HP. apply Z.mod_mul. lia. }
  rewrite HP, Z.div_mul by lia.
  unfold int_of_float.
  replace (d - 53 + -52 + n) with (d3 - 54) by (unfold n; lia).
  rewrite Z2Pos.id by lia.
  destruct (d3 - 54) as [|k|k] eqn:Ek; try lia.
  - replace (54 - d3) with 0 by lia. rewrite !Z.pow_0_r. f_equal. lia.
  - replace (54 - d3) with (Z.pos k) by lia. rewrite Z.div_mul by lia.
    reflexivity.
Qed.

(** *** The estimate *)

Lemma estimate_exact mm width height :
  0 <= width -> 0 <= height ->
  exact_estimate width height < 2 ^ 53 ->
  estimate_memory_required mm (width, height) = Ok (exact_estimate width height).
Proof.
  intros Hw Hh Hb. unfold estimate_memory_required, exact_estimate in *.
  set (p := width * height) in *.
  assert (Hp : 0 <= p) by (unfold p; nia).
  pose proof (Z.div_pos p 64 Hp ltac:(lia)) as Hq.
  set (q := p / 64) in *.
  replace (p * 3 * 4 + q * 4 * 4 + q * 4 * 4 * 2 + p * 3 * 4 * 4)
    with (2 * (30 * p + 24 * q)) by ring.
  destruct (2 * (30 * p + 24 * q)) as [|s|s] eqn:Es; try lia.
  - (* no pixel *)
    assert (Hp0 : p = 0) by lia. assert (Hq0 : q = 0) by lia.
    rewrite Hp0, Hq0. reflexivity.
  - assert (E53 : 2 ^ 53 = 9007199254740992) by reflexivity.
    assert (E54 : 2 ^ 54 = 18014398509481984) by reflexivity.
    destruct (mul_1_5_exact s) as (f & Hf & Hi).
    + rewrite <- Es. rewrite Z.mul_comm. apply Z.mod_mul. lia.
    + lia.
    + rewrite Hf, Hi. f_equal. rewrite <- Es.
      rewrite (Z.mul_comm 2), Z.div_mul by lia. ring.
Qed.

Lemma exact_estimate_mono w1 h1 w2 h2 :
  0 <= w1 * h1 <= w2 * h2 ->
  0 <= exact_estimate w1 h1 <= exact_estimate w2 h2.
Proof.
  intros [H0 H]. unfold exact_estimate.
  pose proof (Z.div_pos (w1 * h1) 64 H0 ltac:(lia)).
  pose proof (Z.div_le_mono (w1 * h1) (w2 * h2) 64 ltac:(lia) H). lia.
Qed.

(** A size beyond the range of a [float] makes the conversion raise. *)
Example estimate_overflow :
  estimate_memory_required (mkMemoryManager cpu (8 # 10)) (10 ^ 200, 10 ^ 200)
  = Raise (OverflowError "int too large to convert to float").
Proof. vm_compute. reflexivity. Qed.

(** *** Shifting with a round bit and a sticky bit *)

Lemma shr_1_nonneg m r s :
  0 <= m ->
  shr_1 (Build_shr_record m r s) = Build_shr_record (m / 2) (Z.odd m) (r || s).
Proof.
  intros Hm. destruct m as [|p|p]; [reflexivity| |lia].
  rewrite <- Z.div2_div. destruct p; reflexivity.
Qed.

Lemma iter_pos_nat {A} (f : A -> A) p : forall x,
  iter_pos f p x = Nat.iter (Pos.to_nat p) f x.
Proof.
  induction p as [p IH | p IH |]; intros x; cbn [iter_pos].
  - rewrite !IH, Pos2Nat.inj_xI, <- Nat.iter_add, <- Nat.iter_succ_r.
    f_equal. lia.
  - rewrite !IH, Pos2Nat.inj_xO, <- Nat.iter_add. f_equal. lia.
  - reflexivity.
Qed.

Lemma shr_iter m : forall j : nat,
  0 <= m ->
  Nat.iter (S j) shr_1 (Build_shr_record m false false)
  = Build_shr_record (m / 2 ^ Z.of_nat (S j))
                     (Z.odd (m / 2 ^ Z.of_nat j))
                     (negb (m mod 2 ^ Z.of_nat j =? 0)).
Proof.
  intros j Hm. induction j as [|j IH].
  - cbn [Nat.iter]. rewrite shr_1_nonneg by exact Hm.
    change (2 ^ Z.of_nat 1) with 2. change (2 ^ Z.of_nat 0) with 1.
    rewrite Z.div_1_r, Z.mod_1_r. reflexivity.
  - change (Nat.iter (S (S j)) shr_1 ?x) with (shr_1 (Nat.iter (S j) shr_1 x)).
    rewrite IH.
    pose proof (Z.pow_pos_nonneg 2 (Z.of_nat j) ltac:(lia) ltac:(lia)) as Hp.
    pose proof (Z.pow_pos_nonneg 2 (Z.of_nat (S j)) ltac:(lia) ltac:(lia)) as Hp'.
    assert (E : 2 ^ Z.of_nat (S j) = 2 ^ Z.of_nat j * 2).
    { rewrite Nat2Z.inj_succ, Z.pow_succ_r by lia. lia. }
    assert (E' : 2 ^ Z.of_nat (S (S j)) = 2 ^ Z.of_nat (S j) * 2).
    { rewrite (Nat2Z.inj_succ (S j)), Z.pow_succ_r by lia. lia. }
    rewrite shr_1_nonneg by (apply Z.div_pos; lia).
    rewrite Z.div_div by lia. rewrite <- E'. f_equal.
    rewrite E, Z.rem_mul_r by lia. rewrite (Zmod_odd (m / 2 ^ Z.of_nat j)).
    pose proof (Z.mod_pos_bound m (2 ^ Z.of_nat j) Hp) as Hb.
    destruct (Z.odd (m / 2 ^ Z.of_nat j)); cbn [orb].
    + symmetry. apply negb_true_iff, Z.eqb_neq. lia.
    + f_equal. rewrite Z.mul_0_r, Z.add_0_r. reflexivity.
Qed.

(** The record left by [n] shifts rounds to [round_at n m]. *)
Lemma shr_round_at m n :
  0 <= m -> 0 <= n ->
  let mrs := fst (shr (Build_shr_record m false false) 0 n) in
  round_nearest_even (shr_m mrs) (loc_of_shr_record mrs) = round_at n m.
Proof.
  intros Hm Hn. unfold shr, round_at. destruct n as [|p|p]; [| |lia].
  - cbn [fst shr_m loc_of_shr_record round_nearest_even].
    rewrite Z.pow_0_r, Z.div_1_r, Z.mod_1_r. reflexivity.
  - cbn [fst]. rewrite iter_pos_nat.
    destruct (Pos.to_nat p) as [|j] eqn:Ej; [lia|].
    rewrite shr_iter by exact Hm.
    assert (Ep : Z.pos p = Z.of_nat (S j)) by lia.
    rewrite Ep.
    pose proof (Z.pow_pos_nonneg 2 (Z.of_nat j) ltac:(lia) ltac:(lia)) as Hp.
    assert (E : 2 ^ Z.of_nat (S j) = 2 ^ Z.of_nat j * 2).
    { rewrite Nat2Z.inj_succ, Z.pow_succ_r by lia. lia. }
    set (q := m / 2 ^ Z.of_nat (S j)).
    assert (Er : m mod 2 ^ Z.of_nat (S j)
                 = m mod 2 ^ Z.of_nat j
                   + 2 ^ Z.of_nat j * (if Z.odd (m / 2 ^ Z.of_nat j) then 1 else 0)).
    { rewrite E, Z.rem_mul_r by lia. now rewrite Zmod_odd. }
    rewrite Er, E.
    pose proof (Z.mod_pos_bound m (2 ^ Z.of_nat j) Hp) as Hb.
    cbn [shr_m].
    destruct (Z.odd (m / 2 ^ Z.of_nat j)).
    + replace (2 * (m mod 2 ^ Z.of_nat j + 2 ^ Z.of_nat j * 1) <? 2 ^ Z.of_nat j * 2)
        with false by (symmetry; apply Z.ltb_ge; lia).
      destruct (m mod 2 ^ Z.of_nat j =? 0) eqn:E0;
        cbn [negb loc_of_shr_record round_nearest_even].
      * apply Z.eqb_eq in E0.
        replace (2 ^ Z.of_nat j * 2 <? 2 * (m mod 2 ^ Z.of_nat j + 2 ^ Z.of_nat j * 1))
          with false by (symmetry; apply Z.ltb_ge; lia).
        reflexivity.
      * apply Z.eqb_neq in E0.
        replace (2 ^ Z.of_nat j * 2 <? 2 * (m mod 2 ^ Z.of_nat j + 2 ^ Z.of_nat j * 1))
          with true by (symmetry; apply Z.ltb_lt; lia).
        reflexivity.
    + replace (2 * (m mod 2 ^ Z.of_nat j + 2 ^ Z.of_nat j * 0) <? 2 ^ Z.of_nat j * 2)
        with true by (symmetry; apply Z.ltb_lt; lia).
      destruct (m mod 2 ^ Z.of_nat j =? 0); reflexivity.
Qed.

Lemma shr_fst_snd mrs e n :
  0 <= n ->
  shr mrs e n = (fst (shr mrs 0 n), e + n).
Proof.
  intros Hn. unfold shr. destruct n; [now rewrite Z.add_0_r | reflexivity | lia].
Qed.

(** *** Rounding to 53 bits *)

Lemma round_at_bounds n m :
  m / 2 ^ n <= round_at n m <= m / 2 ^ n + 1.
Proof.
  unfold round_at.
  destruct (2 * (m mod 2 ^ n) <? 2 ^ n); [lia|].
  destruct (2 ^ n <? 2 * (m mod 2 ^ n)); [lia|].
  destruct (Z.even (m / 2 ^ n)); lia.
Qed.

Lemma Zdigits2_bounds m :
  0 < m -> 2 ^ (Zdigits2 m - 1) <= m < 2 ^ Zdigits2 m.
Proof.
  intros Hm. destruct m as [|p|p]; try lia. apply digits2_pos_bounds.
Qed.

Lemma Zdigits2_unique m d :
  2 ^ (d - 1) <= m < 2 ^ d -> 0 < m -> Zdigits2 m = d.
Proof.
  intros H Hm. destruct m as [|p|p]; try lia. now apply digits2_pos_unique.
Qed.

Lemma Zdigits2_pos m : 0 < m -> 0 < Zdigits2 m.
Proof. intros Hm. destruct m as [|p|p]; try lia. cbn. lia. Qed.

(** The mantissa kept when [mx] loses its digits beyond the 53rd. *)
Lemma round_at_mantissa mx :
  0 < mx -> 53 <= Zdigits2 mx ->
  2 ^ 52 <= round_at (Zdigits2 mx - 53) mx <= 2 ^ 53.
Proof.
  intros Hm Hd.
  destruct (Zdigits2_div_pow2 mx (Zdigits2 mx - 53) Hm) as [Hq Hdq]; [lia | lia |].
  pose proof (Zdigits2_bounds _ Hq) as Hb. rewrite Hdq in Hb.
  replace (Zdigits2 mx - (Zdigits2 mx - 53) - 1) with 52 in Hb by lia.
  replace (Zdigits2 mx - (Zdigits2 mx - 53)) with 53 in Hb by lia.
  pose proof (round_at_bounds (Zdigits2 mx - 53) mx). lia.
Qed.

(** [binary_round_aux] on a mantissa of at least 53 digits, in the normal
    range: the result is [round53 mx] scaled by [2^e], or an infinity. *)
Lemma binary_round_aux_round53 mx e :
  0 < mx -> 53 <= Zdigits2 mx -> -1074 <= e + (Zdigits2 mx - 53) ->
  exists M k,
    2 ^ 52 <= M < 2 ^ 53 /\ Zdigits2 mx - 53 <= k /\
    M * 2 ^ k = round53 mx /\
    binary_round_aux prec emax false mx e loc_Exact
    = if e + k <=? 971 then S754_finite false (Z.to_pos M) (e + k)
      else S754_infinity false.
Proof.
  intros Hm Hd He. set (n := Zdigits2 mx - 53) in *.
  assert (Hn : 0 <= n) by (unfold n; lia).
  pose proof (round_at_mantissa mx Hm Hd) as HM. fold n in HM.
  assert (E53 : 2 ^ 53 = 9007199254740992) by reflexivity.
  assert (E52 : 2 ^ 52 = 4503599627370496) by reflexivity.
  assert (Hr53 : round53 mx = round_at n mx * 2 ^ n).
  { unfold round53. replace (Z.max 0 (Zdigits2 mx - 53)) with n by (unfold n; lia).
    reflexivity. }
  unfold binary_round_aux.
  assert (H1 : shr_fexp prec emax mx e loc_Exact
               = (fst (shr (Build_shr_record mx false false) 0 n), e + n)).
  { unfold shr_fexp, fexp, emin, prec, emax. cbn [shr_record_of_loc].
    replace (Z.max (Zdigits2 mx + e - 53) (3 - 1024 - 53) - e) with n
      by (unfold n; lia).
    now apply shr_fst_snd. }
  rewrite H1.
  pose proof (shr_round_at mx n ltac:(lia) Hn) as Hrnd. cbv zeta in Hrnd.
  rewrite Hrnd. clear H1 Hrnd.
  set (M0 := round_at n mx) in *.
  destruct (Z.eq_dec M0 (2 ^ 53)) as [Hc | Hc].
  - (* the rounding carried into a 54th digit *)
    exists (2 ^ 52), (n + 1). split; [lia|]. split; [lia|]. split.
    { rewrite Hr53, Hc, Z.pow_add_r, Z.pow_1_r by lia. lia. }
    rewrite Hc.
    assert (H2 : shr_fexp prec emax (2 ^ 53) (e + n) loc_Exact
                 = (Build_shr_record (2 ^ 52) false false, e + n + 1)).
    { unfold shr_fexp, fexp, emin, prec, emax. cbn [shr_record_of_loc].
      change (Zdigits2 (2 ^ 53)) with 54.
      replace (Z.max (54 + (e + n) - 53) (3 - 1024 - 53) - (e + n)) with 1 by lia.
      reflexivity. }
    rewrite H2. cbn [shr_m]. replace (e + (n + 1)) with (e + n + 1) by lia.
    reflexivity.
  - exists M0, n. split; [lia|]. split; [lia|]. split; [now rewrite Hr53|].
    assert (Hd0 : Zdigits2 M0 = 53) by (apply Zdigits2_unique; lia).
    assert (H2 : shr_fexp prec emax M0 (e + n) loc_Exact
                 = (Build_shr_record M0 false false, e + n)).
    { unfold shr_fexp, fexp, emin, prec, emax. cbn [shr_record_of_loc].
      rewrite Hd0.
      replace (Z.max (53 + (e + n) - 53) (3 - 1024 - 53) - (e + n)) with 0 by lia.
      reflexivity. }
    rewrite H2. cbn [shr_m].
    destruct M0 as [|p|p]; try lia. reflexivity.
Qed.


(** *** The rounding as a function on integers *)

Lemma round_at_exact n m :
  0 <= n -> m mod 2 ^ n = 0 -> round_at n m * 2 ^ n = m.
Proof.
  intros Hn Hdiv. unfold round_at. rewrite Hdiv.
  pose proof (Z.pow_pos_nonneg 2 n ltac:(lia) Hn) as Hp.
  replace (2 * 0 <? 2 ^ n) with true by (symmetry; apply Z.ltb_lt; lia).
  pose proof (Z.div_mod m (2 ^ n) ltac:(lia)). lia.
Qed.

Lemma round_at_mono n a b :
  0 <= n -> a <= b -> round_at n a <= round_at n b.
Proof.
  intros Hn Hab.
  pose proof (Z.pow_pos_nonneg 2 n ltac:(lia) Hn) as Hp.
  pose proof (Z.div_le_mono a b (2 ^ n) Hp Hab) as Hq.
  destruct (Z.eq_dec (a / 2 ^ n) (b / 2 ^ n)) as [E | E].
  - pose proof (Z.div_mod a (2 ^ n) ltac:(lia)) as Ha.
    pose proof (Z.div_mod b (2 ^ n) ltac:(lia)) as Hb.
    assert (Hr : a mod 2 ^ n <= b mod 2 ^ n) by (rewrite E in Ha; lia).
    unfold round_at. rewrite E.
    destruct (Z.ltb_spec (2 * (a mod 2 ^ n)) (2 ^ n));
      destruct (Z.ltb_spec (2 * (b mod 2 ^ n)) (2 ^ n));
      destruct (Z.ltb_spec (2 ^ n) (2 * (a mod 2 ^ n)));
      destruct (Z.ltb_spec (2 ^ n) (2 * (b mod 2 ^ n)));
      destruct (Z.even (b / 2 ^ n)); lia.
  - pose proof (round_at_bounds n a). pose proof (round_at_bounds n b). lia.
Qed.

Lemma Zdigits2_mono a b : 0 < a -> a <= b -> Zdigits2 a <= Zdigits2 b.
Proof.
  intros Ha Hab.
  pose proof (Zdigits2_bounds a Ha) as [Hlo _].
  pose proof (Zdigits2_bounds b ltac:(lia)) as [_ Hhi].
  pose proof (Zdigits2_pos b ltac:(lia)).
  assert (Zdigits2 a - 1 < Zdigits2 b); [|lia].
  apply (Z.pow_lt_mono_r_iff 2); lia.
Qed.

Lemma Zdigits2_scale x j :
  0 < x -> 0 <= j -> Zdigits2 (x * 2 ^ j) = Zdigits2 x + j.
Proof.
  intros Hx Hj.
  pose proof (Zdigits2_bounds x Hx) as [Hlo Hhi].
  pose proof (Zdigits2_pos x Hx) as Hd.
  pose proof (Z.pow_pos_nonneg 2 j ltac:(lia) Hj) as Hp.
  apply Zdigits2_unique; [|nia].
  replace (Zdigits2 x + j - 1) with ((Zdigits2 x - 1) + j) by lia.
  rewrite !Z.pow_add_r by lia.
  split; [apply Z.mul_le_mono_nonneg_r | apply Z.mul_lt_mono_pos_r]; lia.
Qed.

Lemma Zdigits2_below m : 0 <= m < 2 ^ 53 -> Zdigits2 m <= 53.
Proof.
  intros [H0 H]. destruct (Z.eq_dec m 0) as [-> | Hne]; [cbn; lia|].
  pose proof (Zdigits2_bounds m ltac:(lia)) as [Hlo _].
  assert (Zdigits2 m - 1 < 53); [|lia].
  apply (Z.pow_lt_mono_r_iff 2); lia.
Qed.

Lemma round53_exact m :
  0 <= m -> m mod 2 ^ Z.max 0 (Zdigits2 m - 53) = 0 -> round53 m = m.
Proof.
  intros Hm Hdiv. unfold round53. apply round_at_exact; [lia | exact Hdiv].
Qed.

Lemma round53_small m : 0 <= m < 2 ^ 53 -> round53 m = m.
Proof.
  intros H. pose proof (Zdigits2_below m H).
  apply round53_exact; [lia|].
  replace (Z.max 0 (Zdigits2 m - 53)) with 0 by lia. apply Z.mod_1_r.
Qed.

Lemma round53_nonneg m : 0 <= m -> 0 <= round53 m.
Proof.
  intros Hm. unfold round53.
  set (n := Z.max 0 (Zdigits2 m - 53)).
  pose proof (Z.pow_pos_nonneg 2 n ltac:(lia) ltac:(lia)) as Hp.
  pose proof (round_at_bounds n m).
  pose proof (Z.div_pos m (2 ^ n) Hm Hp). nia.
Qed.

Lemma ltb_scale a b c : 0 < c -> (a * c <? b * c) = (a <? b).
Proof.
  intros Hc. destruct (Z.ltb_spec a b) as [H | H].
  - apply Z.ltb_lt. now apply Z.mul_lt_mono_pos_r.
  - apply Z.ltb_ge. apply Z.mul_le_mono_nonneg_r; lia.
Qed.

(** Rounding to 53 significant bits commutes with a scaling by a power of
    two. *)
Lemma round53_scale x j :
  0 < x -> 0 <= j -> round53 (x * 2 ^ j) = round53 x * 2 ^ j.
Proof.
  intros Hx Hj.
  pose proof (Z.pow_pos_nonneg 2 j ltac:(lia) Hj) as Hp.
  destruct (Z_lt_le_dec (Zdigits2 x) 53) as [Hd | Hd].
  - (* nothing to round *)
    assert (Hx53 : x < 2 ^ 53).
    { pose proof (Zdigits2_bounds x Hx) as [_ Hhi].
      assert (2 ^ Zdigits2 x <= 2 ^ 53) by (apply Z.pow_le_mono_r; lia). lia. }
    rewrite (round53_small x) by lia.
    apply round53_exact; [nia|].
    rewrite Zdigits2_scale by assumption.
    set (n := Z.max 0 (Zdigits2 x + j - 53)).
    assert (Hnj : 0 <= n <= j) by (unfold n; lia).
    replace j with ((j - n) + n) by lia.
    rewrite Z.pow_add_r, Z.mul_assoc by lia. apply Z.mod_mul.
    pose proof (Z.pow_pos_nonneg 2 n ltac:(lia) ltac:(lia)). lia.
  - unfold round53. rewrite Zdigits2_scale by assumption.
    replace (Z.max 0 (Zdigits2 x + j - 53)) with (Zdigits2 x - 53 + j) by lia.
    replace (Z.max 0 (Zdigits2 x - 53)) with (Zdigits2 x - 53) by lia.
    set (n := Zdigits2 x - 53) in *.
    pose proof (Z.pow_pos_nonneg 2 n ltac:(lia) ltac:(lia)) as Hpn.
    rewrite (Z.pow_add_r 2 n j) by lia.
    assert (E : round_at (n + j) (x * 2 ^ j) = round_at n x).
    { unfold round_at. rewrite (Z.pow_add_r 2 n j) by lia.
      rewrite Z.div_mul_cancel_r by lia.
      rewrite Z.mul_mod_distr_r by lia.
      rewrite Z.mul_assoc, !ltb_scale by lia. reflexivity. }
    rewrite E. ring.
Qed.

(** Rounding to 53 significant bits keeps the order. *)
Lemma round53_mono a b : 0 <= a -> a <= b -> round53 a <= round53 b.
Proof.
  intros Ha Hab.
  destruct (Z.eq_dec a 0) as [-> | Hne].
  { change (round53 0) with 0. apply round53_nonneg. lia. }
  assert (Ha0 : 0 < a) by lia. assert (Hb0 : 0 < b) by lia.
  pose proof (Zdigits2_mono a b Ha0 Hab) as Hd.
  unfold round53.
  set (na := Z.max 0 (Zdigits2 a - 53)). set (nb := Z.max 0 (Zdigits2 b - 53)).
  pose proof (Z.pow_pos_nonneg 2 na ltac:(lia) ltac:(lia)) as Hpa.
  pose proof (Z.pow_pos_nonneg 2 nb ltac:(lia) ltac:(lia)) as Hpb.
  destruct (Z.eq_dec na nb) as [E | E].
  - rewrite <- E. apply Z.mul_le_mono_nonneg_r; [lia|].
    apply round_at_mono; lia.
  - assert (Hlt : na < nb) by lia.
    assert (E53 : 2 ^ 53 = 2 * 2 ^ 52) by reflexivity.
    assert (Hup : round_at na a <= 2 ^ 53).
    { destruct (Z_lt_le_dec (Zdigits2 a) 53) as [Hs | Hs].
      - replace na with 0 by lia.
        pose proof (Zdigits2_bounds a Ha0) as [_ Hhi].
        assert (2 ^ Zdigits2 a <= 2 ^ 53) by (apply Z.pow_le_mono_r; lia).
        pose proof (round_at_exact 0 a ltac:(lia) (Z.mod_1_r a)) as Hex.
        rewrite Z.pow_0_r in Hex. lia.
      - replace na with (Zdigits2 a - 53) by lia.
        apply round_at_mantissa; assumption. }
    assert (Hlow : 2 ^ 52 <= round_at nb b).
    { replace nb with (Zdigits2 b - 53) by lia.
      apply round_at_mantissa; lia. }
    assert (Hpow : 2 * 2 ^ na <= 2 ^ nb).
    { replace nb with (Z.succ na + (nb - na - 1)) by lia.
      rewrite Z.pow_add_r, Z.pow_succ_r by lia.
      pose proof (Z.pow_pos_nonneg 2 (nb - na - 1) ltac:(lia) ltac:(lia)). nia. }
    transitivity (2 ^ 53 * 2 ^ na); [apply Z.mul_le_mono_nonneg_r; lia|].
    transitivity (2 ^ 52 * 2 ^ nb); [rewrite E53; nia|].
    apply Z.mul_le_mono_nonneg_r; lia.
Qed.


(** *** The conversion, the product and the truncation, for every size *)

(** [float(s)] is [round53 s], held as a 53-bit mantissa [M] and an exponent
    [ef], unless it is too large for a float. *)
Lemma float_of_int_round53 s :
  exists M ef,
    2 ^ 52 <= M < 2 ^ 53 /\ -52 <= ef /\
    M * 2 ^ (ef + 52) = round53 (Z.pos s) * 2 ^ 52 /\
    float_of_int (Z.pos s)
    = if ef <=? 971 then Ok (S754_finite false (Z.to_pos M) ef)
      else Raise (OverflowError "int too large to convert to float").
Proof.
  assert (E53 : 2 ^ 53 = 9007199254740992) by reflexivity.
  assert (E52 : 2 ^ 52 = 4503599627370496) by reflexivity.
  set (d := Z.pos (digits2_pos s)).
  pose proof (digits2_pos_bounds s) as [Hlo Hhi]. fold d in Hlo, Hhi.
  assert (Hd1 : 1 <= d) by (unfold d; lia).
  destruct (Z_lt_le_dec (Z.pos s) (2 ^ 53)) as [Hs | Hs].
  - (* the conversion is exact *)
    assert (Hd : d <= 53).
    { destruct (Z_le_gt_dec d 53); auto. exfalso.
      assert (2 ^ 53 <= 2 ^ (d - 1)) by (apply Z.pow_le_mono_r; lia). lia. }
    pose proof (Z.pow_pos_nonneg 2 (53 - d) ltac:(lia) ltac:(lia)) as Hp.
    exists (Z.pos s * 2 ^ (53 - d)), (d - 53).
    assert (Hbig : 2 ^ 52 <= Z.pos s * 2 ^ (53 - d) < 2 ^ 53).
    { assert (A : 2 ^ 52 = 2 ^ (d - 1) * 2 ^ (53 - d))
        by (rewrite <- Z.pow_add_r by lia; f_equal; lia).
      assert (B : 2 ^ 53 = 2 ^ d * 2 ^ (53 - d))
        by (rewrite <- Z.pow_add_r by lia; f_equal; lia).
      rewrite A, B.
      split; [apply Z.mul_le_mono_nonneg_r | apply Z.mul_lt_mono_pos_r]; lia. }
    split; [exact Hbig|]. split; [lia|]. split.
    + rewrite round53_small by lia. rewrite <- Z.mul_assoc, <- Z.pow_add_r by lia.
      f_equal. f_equal. lia.
    + replace (d - 53 <=? 971) with true by (symmetry; apply Z.leb_le; lia).
      apply float_of_int_small. exact Hs.
  - (* digits are lost *)
    assert (Hd : 54 <= d).
    { destruct (Z_le_gt_dec 54 d); auto. exfalso.
      assert (2 ^ d <= 2 ^ 53) by (apply Z.pow_le_mono_r; lia). lia. }
    destruct (binary_round_aux_round53 (Z.pos s) 0 ltac:(lia))
      as (M & k & HM & Hk & Hval & Hres).
    { cbn [Zdigits2]. fold d. lia. }
    { cbn [Zdigits2]. fold d. lia. }
    cbn [Zdigits2] in Hk. fold d in Hk.
    exists M, k. split; [exact HM|]. split; [lia|]. split.
    + rewrite <- Hval, <- Z.mul_assoc, <- Z.pow_add_r by lia. reflexivity.
    + unfold float_of_int, binary_normalize, binary_round, fexp, emin, prec, emax.
      fold d. rewrite Z.add_0_r.
      replace (Z.max (d - 53) (3 - 1024 - 53)) with (d - 53) by lia.
      unfold shl_align. replace (d - 53 - 0) with (d - 53) by lia.
      destruct (d - 53) as [|g|g] eqn:Eg; try lia.
      unfold prec, emax in Hres. rewrite Hres. cbn [Z.add].
      destruct (k <=? 971); reflexivity.
Qed.

(** The product of a float by [1.5] is [round53] of three times its
    mantissa, at the exponent below, unless it is too large. *)
Lemma float_mul_1_5_round53 M ef :
  2 ^ 52 <= M < 2 ^ 53 -> -52 <= ef ->
  exists M2 e2,
    2 ^ 52 <= M2 < 2 ^ 53 /\ ef <= e2 /\
    M2 * 2 ^ (e2 + 104) = round53 (3 * M) * 2 ^ (ef + 103) /\
    float_mul (S754_finite false (Z.to_pos M) ef) float_1_5
    = if e2 <=? 971 then S754_finite false (Z.to_pos M2) e2
      else S754_infinity false.
Proof.
  intros HM Hef.
  assert (E53 : 2 ^ 53 = 9007199254740992) by reflexivity.
  assert (E52 : 2 ^ 52 = 4503599627370496) by reflexivity.
  assert (E51 : 2 ^ 51 = 2251799813685248) by reflexivity.
  assert (E104 : 2 ^ 104 = 20282409603651670423947251286016) by reflexivity.
  unfold float_mul, float_1_5, SFmul. cbn [xorb].
  set (P := Z.pos (Z.to_pos M * 6755399441055744)).
  assert (HP : P = 3 * M * 2 ^ 51).
  { unfold P. rewrite Pos2Z.inj_mul, Z2Pos.id by lia. lia. }
  assert (HdP : 105 <= Zdigits2 P).
  { pose proof (Zdigits2_bounds P ltac:(lia)) as [_ Hhi].
    destruct (Z_le_gt_dec 105 (Zdigits2 P)); auto. exfalso.
    assert (2 ^ Zdigits2 P <= 2 ^ 104)
      by (apply Z.pow_le_mono_r; lia).
    lia. }
  destruct (binary_round_aux_round53 P (ef + -52) ltac:(lia) ltac:(lia) ltac:(lia))
    as (M2 & k & HM2 & Hk & Hval & Hres).
  exists M2, (ef + -52 + k). split; [exact HM2|]. split; [lia|]. split.
  - replace (ef + -52 + k + 104) with (k + (ef + 52)) by lia.
    rewrite Z.pow_add_r, Z.mul_assoc, Hval, HP by lia.
    rewrite round53_scale by lia.
    rewrite <- Z.mul_assoc, <- Z.pow_add_r by lia. f_equal. f_equal. lia.
  - exact Hres.
Qed.

(** Truncating a non-negative float whose double is the integer [T]. *)
Lemma int_of_float_half M2 e2 T :
  0 < M2 -> -52 <= e2 ->
  M2 * 2 ^ (e2 + 104) = T * 2 ^ 103 ->
  int_of_float (S754_finite false (Z.to_pos M2) e2) = Ok (T / 2).
Proof.
  intros HM He Hval. unfold int_of_float. rewrite Z2Pos.id by exact HM.
  f_equal.
  destruct e2 as [|g|g].
  - rewrite Z.pow_0_r, Z.mul_1_r.
    change (2 ^ (0 + 104)) with (2 * 2 ^ 103) in Hval.
    assert (T = M2 * 2) by nia. subst T. now rewrite Z.div_mul by lia.
  - pose proof (Z.pow_pos_nonneg 2 (Z.pos g) ltac:(lia) ltac:(lia)) as Hp.
    replace (Z.pos g + 104) with (Z.pos g + 1 + 103) in Hval by lia.
    rewrite (Z.pow_add_r 2 (Z.pos g + 1) 103), Z.mul_assoc in Hval by lia.
    apply Z.mul_cancel_r in Hval; [|discriminate].
    rewrite Z.pow_add_r, Z.pow_1_r in Hval by lia.
    subst T. replace (M2 * (2 ^ Z.pos g * 2)) with (M2 * 2 ^ Z.pos g * 2) by ring.
    now rewrite Z.div_mul by lia.
  - set (j := Z.pos g). assert (Hj : 1 <= j <= 52) by (unfold j; lia).
    change (Z.neg g) with (- j) in Hval.
    pose proof (Z.pow_pos_nonneg 2 (j - 1) ltac:(lia) ltac:(lia)) as Hp.
    pose proof (Z.pow_pos_nonneg 2 (-j + 104) ltac:(lia) ltac:(lia)) as Hp'.
    assert (E : 2 ^ 103 = 2 ^ (j - 1) * 2 ^ (- j + 104))
      by (rewrite <- Z.pow_add_r by lia; f_equal; lia).
    rewrite E, Z.mul_assoc in Hval. apply Z.mul_cancel_r in Hval; [|lia].
    subst M2.
    replace (2 ^ j) with (2 * 2 ^ (j - 1))
      by (replace j with (Z.succ (j - 1)) at 2 by lia;
          rewrite Z.pow_succ_r by lia; reflexivity).
    now rewrite Z.div_mul_cancel_r by lia.
Qed.

(** A 53-bit mantissa at exponent [a] stays below [2^(b + 53)] exactly when
    [a <= b]. *)
Lemma mantissa_below M a b :
  2 ^ 52 <= M < 2 ^ 53 -> 0 <= a -> 0 <= b ->
  (a <= b <-> M * 2 ^ a < 2 ^ 53 * 2 ^ b).
Proof.
  intros HM Ha Hb.
  pose proof (Z.pow_pos_nonneg 2 a ltac:(lia) Ha) as Hpa.
  pose proof (Z.pow_pos_nonneg 2 b ltac:(lia) Hb) as Hpb.
  assert (E53 : 2 ^ 53 = 2 * 2 ^ 52) by reflexivity.
  split; intros H.
  - assert (2 ^ a <= 2 ^ b) by (apply Z.pow_le_mono_r; lia). nia.
  - destruct (Z_le_gt_dec a b); auto. exfalso.
    assert (2 * 2 ^ b <= 2 ^ a).
    { replace a with (Z.succ b + (a - b - 1)) by lia.
      rewrite Z.pow_add_r, Z.pow_succ_r by lia.
      pose proof (Z.pow_pos_nonneg 2 (a - b - 1) ltac:(lia) ltac:(lia)). nia. }
    rewrite E53 in H. nia.
Qed.

(** [int(float(s) * 1.5)] for a positive [s]. *)
Lemma int_float_1_5 s :
  let T := round53 (3 * round53 (Z.pos s)) in
  match float_of_int (Z.pos s) with
  | Raise e => Raise e
  | Ok f => int_of_float (float_mul f float_1_5)
  end
  = if T / 2 <? 2 ^ 1024 then Ok (T / 2)
    else Raise (OverflowError
                  (if round53 (Z.pos s) <? 2 ^ 1024
                   then "cannot convert float infinity to integer"
                   else "int too large to convert to float")).
Proof.
  intros T.
  destruct (float_of_int_round53 s) as (M & ef & HM & Hef & HvalF & HF).
  destruct (float_mul_1_5_round53 M ef HM Hef) as (M2 & e2 & HM2 & He2 & HvalP & HP).
  assert (E52 : 0 < 2 ^ 52) by reflexivity.
  assert (E53 : 0 < 2 ^ 53) by reflexivity.
  set (R := round53 (Z.pos s)) in *.
  pose proof (Z.pow_pos_nonneg 2 (ef + 52) ltac:(lia) ltac:(lia)) as Hpe.
  assert (HR : 0 < R) by nia.
  (* the double of the result *)
  assert (HT : M2 * 2 ^ (e2 + 104) = T * 2 ^ 103).
  { rewrite HvalP. unfold T.
    assert (A : round53 (3 * R) * 2 ^ 52 = round53 (3 * M) * 2 ^ (ef + 52)).
    { rewrite <- !round53_scale by lia. f_equal. lia. }
    change (2 ^ 103) with (2 ^ 52 * 2 ^ 51). rewrite Z.mul_assoc, A.
    rewrite <- Z.mul_assoc, <- Z.pow_add_r by lia. f_equal. f_equal. lia. }
  (* which conversions overflow *)
  assert (HcF : ef <= 971 <-> R < 2 ^ 1024).
  { pose proof (mantissa_below M (ef + 52) 1023 HM ltac:(lia) ltac:(lia)) as Hc.
    rewrite HvalF in Hc.
    change (2 ^ 53 * 2 ^ 1023) with (2 ^ 1024 * 2 ^ 52) in Hc.
    rewrite <- Z.mul_lt_mono_pos_r in Hc by exact E52. rewrite <- Hc. lia. }
  assert (HcP : e2 <= 971 <-> T / 2 < 2 ^ 1024).
  { pose proof (mantissa_below M2 (e2 + 104) 1075 HM2 ltac:(lia) ltac:(lia)) as Hc.
    rewrite HT in Hc.
    change (2 ^ 53 * 2 ^ 1075) with (2 * 2 ^ 1024 * 2 ^ 103) in Hc.
    rewrite <- Z.mul_lt_mono_pos_r in Hc by reflexivity.
    split; intros H.
    - apply Z.div_lt_upper_bound; [lia|]. apply Hc. lia.
    - assert (T < 2 * 2 ^ 1024); [|lia].
      pose proof (Z.div_mod T 2 ltac:(lia)).
      pose proof (Z.mod_pos_bound T 2 ltac:(lia)). lia. }
  rewrite HF.
  destruct (Z.leb_spec ef 971) as [Hf | Hf].
  - rewrite HP. destruct (Z.leb_spec e2 971) as [Hp | Hp].
    + replace (T / 2 <? 2 ^ 1024) with true
        by (symmetry; apply Z.ltb_lt; apply HcP; exact Hp).
      apply int_of_float_half; [lia | lia | exact HT].
    + replace (T / 2 <? 2 ^ 1024) with false
        by (symmetry; apply Z.ltb_ge; destruct (Z_lt_le_dec (T / 2) (2 ^ 1024)) as [H|H];
            [apply HcP in H; lia | exact H]).
      replace (R <? 2 ^ 1024) with true
        by (symmetry; apply Z.ltb_lt; apply HcF; exact Hf).
      reflexivity.
  - replace (T / 2 <? 2 ^ 1024) with false
      by (symmetry; apply Z.ltb_ge; destruct (Z_lt_le_dec (T / 2) (2 ^ 1024)) as [H|H];
          [apply HcP in H; lia | exact H]).
    replace (R <? 2 ^ 1024) with false
      by (symmetry; apply Z.ltb_ge; destruct (Z_lt_le_dec R (2 ^ 1024)) as [H|H];
          [apply HcF in H; lia | exact H]).
    reflexivity.
Qed.


(** *** The estimate for every size *)

(** The estimate is the twice-rounded closed form; the call raises
    [OverflowError] exactly when that value does not fit a float. *)
Lemma estimate_rounded mm width height :
  0 <= width -> 0 <= height ->
  estimate_memory_required mm (width, height)
  = if rounded_estimate width height <? 2 ^ 1024
    then Ok (rounded_estimate width height)
    else Raise (OverflowError
                  (if round53 (60 * (width * height)
                               + 48 * (width * height / 64)) <? 2 ^ 1024
                   then "cannot convert float infinity to integer"
                   else "int too large to convert to float")).
Proof.
  intros Hw Hh. unfold estimate_memory_required, rounded_estimate.
  set (p := width * height).
  assert (Hp : 0 <= p) by (unfold p; nia).
  pose proof (Z.div_pos p 64 Hp ltac:(lia)) as Hq.
  replace (p * 3 * 4 + p / 64 * 4 * 4 + p / 64 * 4 * 4 * 2 + p * 3 * 4 * 4)
    with (60 * p + 48 * (p / 64)) by ring.
  destruct (60 * p + 48 * (p / 64)) as [|s|s] eqn:Es; try lia.
  - reflexivity.
  - apply int_float_1_5.
Qed.

Lemma rounded_estimate_mono w1 h1 w2 h2 :
  0 <= w1 * h1 <= w2 * h2 ->
  0 <= rounded_estimate w1 h1 <= rounded_estimate w2 h2.
Proof.
  intros [H0 H]. unfold rounded_estimate.
  pose proof (Z.div_pos (w1 * h1) 64 H0 ltac:(lia)) as Hq.
  pose proof (Z.div_le_mono (w1 * h1) (w2 * h2) 64 ltac:(lia) H) as Hq'.
  set (s1 := 60 * (w1 * h1) + 48 * (w1 * h1 / 64)).
  set (s2 := 60 * (w2 * h2) + 48 * (w2 * h2 / 64)).
  assert (Hs : 0 <= s1 <= s2) by (unfold s1, s2; lia).
  pose proof (round53_nonneg s1 ltac:(lia)) as Hr1.
  pose proof (round53_mono s1 s2 ltac:(lia) ltac:(lia)) as Hr.
  pose proof (round53_nonneg (3 * round53 s1) ltac:(lia)) as Ht1.
  pose proof (round53_mono (3 * round53 s1) (3 * round53 s2) ltac:(lia) ltac:(lia)) as Ht.
  split.
  - apply Z.div_pos; lia.
  - apply Z.div_le_mono; lia.
Qed.

(** Below [2^53] neither rounding changes anything. *)
Lemma rounded_estimate_exact width height :
  0 <= width -> 0 <= height ->
  exact_estimate width height < 2 ^ 53 ->
  rounded_estimate width height = exact_estimate width height.
Proof.
  intros Hw Hh Hb. unfold rounded_estimate, exact_estimate in *.
  set (p := width * height) in *.
  assert (Hp : 0 <= p) by (unfold p; nia).
  pose proof (Z.div_pos p 64 Hp ltac:(lia)) as Hq.
  set (q := p / 64) in *.
  assert (E53 : 2 ^ 53 = 9007199254740992) by reflexivity.
  rewrite (round53_small (60 * p + 48 * q)) by lia.
  destruct (Z.eq_dec (90 * p + 72 * q) 0) as [E0 | E0].
  - assert (Hp0 : p = 0) by lia. assert (Hq0 : q = 0) by lia.
    rewrite Hp0, Hq0. reflexivity.
  - replace (3 * (60 * p + 48 * q)) with ((90 * p + 72 * q) * 2 ^ 1)
      by (rewrite Z.pow_1_r; ring).
    rewrite round53_scale by lia.
    rewrite round53_small by lia.
    rewrite Z.pow_1_r. apply Z.div_mul. lia.
Qed.

(** C10 as stated does not hold for every size: from [2^53] on the
    binary64 product is rounded. *)
Lemma C10_rounding_counterexample : ~ closed_form_everywhere.
Proof.
  intros H.
  specialize (H (mkMemoryManager cpu (8 # 10)) 100000007 100000007
                ltac:(lia) ltac:(lia)).
  vm_compute in H. congruence.
Qed.

(** C10, amended. For every pair of non-negative integers the call returns
    [int(float(total) * 1.5)], the closed form [90*w*h + 72*((w*h) // 64)]
    rounded twice to 53 significant bits, unless that value does not fit a
    float, in which case it raises [OverflowError].  The value returned is
    the closed form itself whenever the closed form is below [2^53].
    Wherever the call returns, on every smaller pixel count it returns too,
    the estimates are non-negative and they are ordered as the pixel counts
    are.  The result depends on the size only. *)
Theorem C10_estimate_is_rounded_closed_form :
  forall (mm mm' : MemoryManager) (w1 h1 w2 h2 : Z),
    0 <= w1 -> 0 <= h1 -> 0 <= w2 -> 0 <= h2 ->
    w1 * h1 <= w2 * h2 ->
    (exact_estimate w2 h2 < 2 ^ 53 ->
       estimate_memory_required mm (w2, h2) = Ok (exact_estimate w2 h2)) /\
    (rounded_estimate w2 h2 < 2 ^ 1024 ->
       estimate_memory_required mm (w2, h2) = Ok (rounded_estimate w2 h2)) /\
    (2 ^ 1024 <= rounded_estimate w2 h2 ->
       exists msg,
         estimate_memory_required mm (w2, h2) = Raise (OverflowError msg)) /\
    (forall v2,
       estimate_memory_required mm (w2, h2) = Ok v2 ->
       exists v1,
         estimate_memory_required mm (w1, h1) = Ok v1 /\ 0 <= v1 <= v2) /\
    estimate_memory_required mm' (w2, h2) = estimate_memory_required mm (w2, h2).
Proof.
  intros mm mm' w1 h1 w2 h2 Hw1 Hh1 Hw2 Hh2 Hle.
  assert (Hp1 : 0 <= w1 * h1) by nia.
  pose proof (rounded_estimate_mono w1 h1 w2 h2 (conj Hp1 Hle)) as Hm.
  split; [intros Hb; now apply estimate_exact|].
  split; [|split; [|split]].
  - intros Hb. rewrite estimate_rounded by assumption.
    now replace (rounded_estimate w2 h2 <? 2 ^ 1024) with true
      by (symmetry; apply Z.ltb_lt; exact Hb).
  - intros Hb. rewrite estimate_rounded by assumption.
    replace (rounded_estimate w2 h2 <? 2 ^ 1024) with false
      by (symmetry; apply Z.ltb_ge; exact Hb).
    eexists. reflexivity.
  - intros v2. rewrite !estimate_rounded by assumption.
    destruct (Z.ltb_spec (rounded_estimate w2 h2) (2 ^ 1024)) as [Hb | Hb];
      [|discriminate].
    intros [= <-]. exists (rounded_estimate w1 h1). split; [|exact Hm].
    now replace (rounded_estimate w1 h1 <? 2 ^ 1024) with true
      by (symmetry; apply Z.ltb_lt; lia).
  - reflexivity.
Qed.

Lemma C10_estimate_is_rounded_closed_form_witness :
  (exact_estimate 100000007 100000007 < 2 ^ 53 ->
     estimate_memory_required (mkMemoryManager cpu (8 # 10)) (100000007, 100000007)
     = Ok (exact_estimate 100000007 100000007)) /\
  (rounded_estimate 100000007 100000007 < 2 ^ 1024 ->
     estimate_memory_required (mkMemoryManager cpu (8 # 10)) (100000007, 100000007)
     = Ok (rounded_estimate 100000007 100000007)) /\
  (2 ^ 1024 <= rounded_estimate 100000007 100000007 ->
     exists msg,
       estimate_memory_required (mkMemoryManager cpu (8 # 10)) (100000007, 100000007)
       = Raise (OverflowError msg)) /\
  (forall v2,
     estimate_memory_required (mkMemoryManager cpu (8 # 10)) (100000007, 100000007)
     = Ok v2 ->
     exists v1,
       estimate_memory_required (mkMemoryManager cpu (8 # 10)) (1024, 1024) = Ok v1 /\
       0 <= v1 <= v2) /\
  estimate_memory_required (mkMemoryManager cuda (1 # 2)) (100000007, 100000007)
  = estimate_memory_required (mkMemoryManager cpu (8 # 10)) (100000007, 100000007).
Proof.
  apply (C10_estimate_is_rounded_closed_form
           (mkMemoryManager cpu (8 # 10)) (mkMemoryManager cuda (1 # 2))
           1024 1024 100000007 100000007); lia.
Defined.

End MemoryFacts.

(** * Properties of the processor *)

Module ProcessorFacts.
Import Queue Processor ProcessorSpec.
Import StatusSpec.

(** Running one [modify_proc] at the head of a sequence. *)
Ltac run_modify :=
  unfold bind at 1, modify_proc at 1; cbn [proc uuid_calls time_calls].

(** Running [get_proc] at the head of a sequence. *)
Ltac run_get :=
  unfold bind at 1, get_proc at 1; cbn [proc].

(** *** Control calls touch the two flags only *)

Lemma apply_request_tracker r t bp :
  apply_request (set_status_tracker t bp) r = set_status_tracker t (apply_request bp r).
Proof.
  destruct r; unfold apply_request, pause_processing, cancel_processing; cbn;
    destruct (_processing bp); cbn;
    try destruct (_paused bp); try destruct (_cancelled bp); reflexivity.
Qed.

Lemma apply_requests_tracker rs : forall t bp,
  apply_requests rs (set_status_tracker t bp)
  = set_status_tracker t (apply_requests rs bp).
Proof.
  unfold apply_requests.
  induction rs as [|r rs IH]; intros t bp; cbn [fold_left]; auto.
  rewrite apply_request_tracker. apply IH.
Qed.

Lemma apply_request_frame r bp :
  config (apply_request bp r) = config bp /\
  queue (apply_request bp r) = queue bp /\
  status_tracker (apply_request bp r) = status_tracker bp /\
  _processing (apply_request bp r) = _processing bp /\
  _preview_processed (apply_request bp r) = _preview_processed bp /\
  _preview_approved (apply_request bp r) = _preview_approved bp /\
  _preview_result (apply_request bp r) = _preview_result bp.
Proof.
  destruct r; unfold apply_request, pause_processing, cancel_processing;
    destruct (_processing bp) eqn:E; cbn;
    try destruct (_paused bp); try destruct (_cancelled bp); cbn; auto 10.
Qed.

Lemma apply_requests_frame rs : forall bp,
  config (apply_requests rs bp) = config bp /\
  queue (apply_requests rs bp) = queue bp /\
  status_tracker (apply_requests rs bp) = status_tracker bp /\
  _processing (apply_requests rs bp) = _processing bp /\
  _preview_processed (apply_requests rs bp) = _preview_processed bp /\
  _preview_approved (apply_requests rs bp) = _preview_approved bp /\
  _preview_result (apply_requests rs bp) = _preview_result bp.
Proof.
  unfold apply_requests.
  induction rs as [|r rs IH]; intros bp; cbn [fold_left]; auto 10.
  destruct (IH (apply_request bp r)) as (H1 & H2 & H3 & H4 & H5 & H6 & H7).
  destruct (apply_request_frame r bp) as (G1 & G2 & G3 & G4 & G5 & G6 & G7).
  repeat split; congruence.
Qed.

Lemma deliver_all_run rs : forall w,
  deliver_all rs w
  = (Ok tt, mkWorld (apply_requests rs (proc w)) (uuid_calls w) (time_calls w)).
Proof.
  induction rs as [|r rs IH]; intros [bp u tc]; cbn [deliver_all].
  - reflexivity.
  - unfold bind. destruct r; cbn [deliver]; unfold modify_proc;
      rewrite IH; reflexivity.
Qed.

(** *** Status updates made by the processor *)

Section Run.
Variable env : Env.

Lemma update_run i s e o w old :
  Status.state_of (status_tracker (proc w)) i = Some old ->
  exists t' tc',
    tracker_update_status env i s e o w
    = (Ok tt, mkWorld (set_status_tracker t' (proc w)) (uuid_calls w) tc') /\
    tracker_moved (status_tracker (proc w)) t' i old (Status.value s).
Proof.
  intros Hold.
  destruct (StatusFacts.update_status_moved _ i old s e o
              (time_time env (time_calls w)) Hold) as (t' & Hup & Hmv).
  exists t', (S (time_calls w)). unfold tracker_update_status.
  rewrite Hup. auto.
Qed.

Lemma try_update_run i s e o w old :
  Status.state_of (status_tracker (proc w)) i = Some old ->
  exists t' tc',
    try_except (tracker_update_status env i s e o) (fun _ => ret tt) w
    = (Ok tt, mkWorld (set_status_tracker t' (proc w)) (uuid_calls w) tc') /\
    tracker_moved (status_tracker (proc w)) t' i old (Status.value s).
Proof.
  intros Hold. destruct (update_run i s e o w old Hold) as (t' & tc' & Hr & Hmv).
  exists t', tc'. unfold try_except. rewrite Hr. auto.
Qed.

Lemma process_single_image_run x w :
  Status.state_of (status_tracker (proc w)) (Queue.id x) = Some "pending" ->
  exists r t' tc',
    process_single_image env x w
    = (r, mkWorld (set_status_tracker t' (apply_requests (arrivals env x) (proc w)))
            (uuid_calls w) tc') /\
    handled r /\
    (is_rendered (render env x) = true -> r = Ok tt) /\
    tracker_moved (status_tracker (proc w)) t' (Queue.id x) "pending"
      (final_state (render env x)).
Proof.
  intros Hpend.
  destruct (try_update_run (Queue.id x) Status.PROCESSING None None w _ Hpend)
    as (t1 & tc1 & Hr1 & Hmv1).
  unfold process_single_image, bind at 1. rewrite Hr1.
  unfold try_finally, run_pipeline, bind. rewrite deliver_all_run.
  cbn [proc uuid_calls time_calls]. unfold ret at 1.
  rewrite apply_requests_tracker.
  set (bp1 := apply_requests (arrivals env x) (proc w)).
  set (w1 := mkWorld (set_status_tracker t1 bp1) (uuid_calls w) tc1).
  assert (Hproc : Status.state_of (status_tracker (proc w1)) (Queue.id x)
                  = Some (Status.value Status.PROCESSING))
    by (destruct Hmv1 as [H _]; exact H).
  destruct (render env x) as [|stage msg|stage msg] eqn:Er.
  - destruct (try_update_run (Queue.id x) Status.COMPLETED None
                (Some (Queue.output_path x)) w1 _ Hproc)
      as (t2 & tc2 & Hr2 & Hmv2).
    rewrite Hr2. cbn.
    exists (Ok tt), t2, tc2.
    split; [reflexivity|]. split; [left; reflexivity|]. split; [auto|].
    eapply StatusFacts.tracker_moved_trans; eauto.
  - destruct (try_update_run (Queue.id x) Status.FAILED
                (Some ("Failed at " ++ stage)%string) None w1 _ Hproc)
      as (t2 & tc2 & Hr2 & Hmv2).
    rewrite Hr2. cbn.
    eexists _, t2, tc2.
    split; [reflexivity|]. split; [right; eauto|]. split; [discriminate|].
    eapply StatusFacts.tracker_moved_trans; eauto.
  - destruct (try_update_run (Queue.id x) Status.FAILED
                (Some ("Unexpected error at stage '" ++ stage ++ "': " ++ msg)%string)
                None w1 _ Hproc)
      as (t2 & tc2 & Hr2 & Hmv2).
    rewrite Hr2. cbn.
    eexists _, t2, tc2.
    split; [reflexivity|]. split; [right; eauto|]. split; [discriminate|].
    eapply StatusFacts.tracker_moved_trans; eauto.
Qed.

(** *** Moving a whole batch *)

Lemma batch_moved_nil t fin :
  complete_stamped t -> batch_moved t t [] fin.
Proof.
  intros Hc. unfold batch_moved, count_fin. cbn.
  repeat split; auto; try tauto. intros s. lia.
Qed.

Lemma batch_moved_cons t t1 t' x rest fin :
  ~ In (Queue.id x) (map Queue.id rest) ->
  tracker_moved t t1 (Queue.id x) "pending" (fin x) ->
  batch_moved t1 t' rest fin ->
  batch_moved t t' (x :: rest) fin.
Proof.
  intros Hnin (A1 & A2 & A3 & A4 & A5) (B1 & B2 & B3 & B4 & B5).
  unfold batch_moved. repeat split; auto.
  - intros y [<- | Hy]; [|auto]. rewrite B2 by exact Hnin. exact A1.
  - intros j Hj. cbn [map In] in Hj.
    rewrite B2 by tauto. apply A2. intros ->. tauto.
  - intros s. rewrite B3, A3. unfold count_fin. cbn [filter length].
    destruct (String.eqb (fin x) s); cbn [length Z.b2z];
      rewrite ?Nat2Z.inj_succ; lia.
  - congruence.
Qed.

Lemma queue_dequeue_run x rest bp u tc :
  queue bp = mkQueue (x :: rest) (Z.of_nat (S (length rest))) ->
  queue_dequeue (mkWorld bp u tc)
  = (Ok (Some x),
     mkWorld (set_queue (mkQueue rest (Z.of_nat (length rest))) bp) u tc).
Proof.
  intros Hq. unfold queue_dequeue, dequeue. cbn [proc uuid_calls time_calls].
  rewrite Hq. cbn [_size _queue].
  replace (Z.of_nat (S (length rest)) =? 0) with false
    by (symmetry; apply Z.eqb_neq; lia).
  replace (Z.of_nat (S (length rest)) - 1) with (Z.of_nat (length rest)) by lia.
  reflexivity.
Qed.

(** One round of the main loop when nothing stops it. *)
Lemma process_loop_step fuel x rest w :
  queue (proc w) = mkQueue (x :: rest) (Z.of_nat (S (length rest))) ->
  _paused (proc w) = false -> _cancelled (proc w) = false ->
  Status.state_of (status_tracker (proc w)) (Queue.id x) = Some "pending" ->
  exists t1 tc1,
    process_loop env (S fuel) w
    = process_loop env fuel
        (mkWorld (set_status_tracker t1
                    (apply_requests (arrivals env x)
                       (set_queue (mkQueue rest (Z.of_nat (length rest))) (proc w))))
           (uuid_calls w) tc1) /\
    tracker_moved (status_tracker (proc w)) t1 (Queue.id x) "pending"
      (final_state (render env x)).
Proof.
  intros Hq Hp Hc Hpend. destruct w as [bp u tc]. cbn [proc] in *.
  destruct (process_single_image_run x
              (mkWorld (set_queue (mkQueue rest (Z.of_nat (length rest))) bp) u tc))
    as (r & t1 & tc1 & Hrun & Hh & _ & Hmv); [exact Hpend|].
  exists t1, tc1. split; [|exact Hmv].
  cbn [process_loop]. run_get.
  rewrite Hq. cbn [size _size].
  replace (Z.of_nat (S (length rest)) >? 0) with true
    by (symmetry; apply Z.gtb_lt; lia).
  rewrite Hp, Hc. unfold bind at 1.
  rewrite (queue_dequeue_run x rest bp u tc Hq).
  unfold bind at 1, try_except at 1. rewrite Hrun.
  destruct Hh as [-> | (p & m & ->)]; reflexivity.
Qed.

(** The main loop with nothing stopping it takes every queued job to the
    state its rendering decides. *)
Lemma process_loop_drains rest : forall fuel w,
  (length rest < fuel)%nat ->
  queue (proc w) = mkQueue rest (Z.of_nat (length rest)) ->
  _paused (proc w) = false -> _cancelled (proc w) = false ->
  NoDup (map Queue.id rest) ->
  (forall x, In x rest ->
     Status.state_of (status_tracker (proc w)) (Queue.id x) = Some "pending") ->
  no_arrivals env rest = true ->
  complete_stamped (status_tracker (proc w)) ->
  exists t' tc',
    process_loop env fuel w
    = (Ok tt, mkWorld (set_status_tracker t' (set_queue (mkQueue [] 0) (proc w)))
                (uuid_calls w) tc') /\
    batch_moved (status_tracker (proc w)) t' rest
      (fun x => final_state (render env x)).
Proof.
  induction rest as [|x rest IH]; intros fuel w Hf Hq Hp Hc Hnd Hpend Hna Hst.
  - exists (status_tracker (proc w)), (time_calls w).
    split; [|now apply batch_moved_nil].
    destruct fuel as [|fuel]; [cbn in Hf; lia|].
    destruct w as [bp u tc]. cbn [process_loop proc uuid_calls time_calls] in *.
    unfold bind, get_proc. cbn [proc]. rewrite Hq. cbn [size _size].
    clear - Hq. destruct bp. cbn in *. subst. reflexivity.
  - destruct fuel as [|fuel]; [cbn in Hf; lia|].
    cbn [no_arrivals forallb] in Hna. apply andb_true_iff in Hna.
    destruct Hna as [Hax Hna].
    destruct (arrivals env x) as [|? ?] eqn:Earr; [|discriminate].
    cbn [map] in Hnd. inversion Hnd as [|? ? Hnin Hnd']; subst.
    destruct (process_loop_step fuel x rest w Hq Hp Hc (Hpend x (or_introl eq_refl)))
      as (t1 & tc1 & Hstep & Hmv).
    rewrite Hstep, Earr. cbn [apply_requests fold_left].
    set (w1 := mkWorld _ _ _).
    destruct (IH fuel w1) as (t' & tc' & Hrun & Hbm).
    + cbn [length] in Hf. lia.
    + reflexivity.
    + exact Hp.
    + exact Hc.
    + exact Hnd'.
    + intros y Hy. cbn [w1 proc status_tracker set_status_tracker].
      destruct Hmv as (_ & Hoth & _). rewrite Hoth; [apply Hpend; now right|].
      intros Heq. apply Hnin. rewrite <- Heq. now apply in_map.
    + exact Hna.
    + destruct Hmv as (_ & _ & _ & _ & H). exact H.
    + exists t', tc'. split; [rewrite Hrun; reflexivity|].
      eapply batch_moved_cons; eauto.
Qed.

(** The cancellation branch marks every queued job cancelled. *)
Lemma cancel_remaining_drains rest : forall fuel w,
  (length rest < fuel)%nat ->
  queue (proc w) = mkQueue rest (Z.of_nat (length rest)) ->
  NoDup (map Queue.id rest) ->
  (forall x, In x rest ->
     Status.state_of (status_tracker (proc w)) (Queue.id x) = Some "pending") ->
  complete_stamped (status_tracker (proc w)) ->
  exists t' tc',
    cancel_remaining env fuel w
    = (Ok tt, mkWorld (set_status_tracker t' (set_queue (mkQueue [] 0) (proc w)))
                (uuid_calls w) tc') /\
    batch_moved (status_tracker (proc w)) t' rest (fun _ => "cancelled").
Proof.
  induction rest as [|x rest IH]; intros fuel w Hf Hq Hnd Hpend Hst.
  - exists (status_tracker (proc w)), (time_calls w).
    split; [|now apply batch_moved_nil].
    destruct fuel as [|fuel]; [cbn in Hf; lia|].
    destruct w as [bp u tc]. cbn [cancel_remaining proc uuid_calls time_calls] in *.
    unfold bind, get_proc. cbn [proc]. rewrite Hq. cbn [size _size].
    clear - Hq. destruct bp. cbn in *. subst. reflexivity.
  - destruct fuel as [|fuel]; [cbn in Hf; lia|].
    cbn [map] in Hnd. inversion Hnd as [|? ? Hnin Hnd']; subst.
    destruct w as [bp u tc]. cbn [proc uuid_calls time_calls] in *.
    set (w0 := mkWorld (set_queue (mkQueue rest (Z.of_nat (length rest))) bp) u tc).
    destruct (update_run (Queue.id x) Status.CANCELLED None None w0 "pending")
      as (t1 & tc1 & Hup & Hmv); [apply Hpend; now left|].
    set (w1 := mkWorld (set_status_tracker t1 (proc w0)) u tc1).
    destruct (IH fuel w1) as (t' & tc' & Hrun & Hbm).
    + cbn [length] in Hf. lia.
    + reflexivity.
    + exact Hnd'.
    + intros y Hy. cbn [w1 w0 proc status_tracker set_status_tracker set_queue].
      destruct Hmv as (_ & Hoth & _).
      cbn [w0 proc status_tracker set_queue] in Hoth.
      rewrite Hoth; [apply Hpend; now right|].
      intros Heq. apply Hnin. rewrite <- Heq. now apply in_map.
    + destruct Hmv as (_ & _ & _ & _ & H). exact H.
    + exists t', tc'. split.
      * cbn [cancel_remaining]. run_get.
        rewrite Hq. cbn [size _size].
        replace (Z.of_nat (length (x :: rest)) >? 0) with true
          by (symmetry; apply Z.gtb_lt; cbn [length]; lia).
        unfold bind at 1. rewrite (queue_dequeue_run x rest bp u tc Hq).
        fold w0. unfold bind at 1. rewrite Hup. exact Hrun.
      * eapply (batch_moved_cons _ t1 t' x rest (fun _ => "cancelled")); eauto.
Qed.

(** *** What [batch_ready] gives *)

Lemma str_in_In x l : Status.str_in x l = true <-> In x l.
Proof.
  unfold Status.str_in. rewrite existsb_exists. split.
  - intros (y & Hy & E). apply String.eqb_eq in E. now subst.
  - intros H. exists x. split; [exact H | apply String.eqb_refl].
Qed.

Lemma distinct_NoDup l : distinct l = true -> NoDup l.
Proof.
  induction l as [|x l IH]; cbn [distinct]; intros H; constructor.
  - apply andb_true_iff in H. destruct H as [H _].
    intros Hin. apply str_in_In in Hin. rewrite Hin in H. discriminate.
  - apply andb_true_iff in H. tauto.
Qed.

Lemma all_pending_state_of (d : Status.dict Status.ProcessingStatus) i :
  forallb (fun kv => String.eqb (Status.state (snd kv)) "pending") d = true ->
  Status.dict_contains i d = true ->
  option_map Status.state (Status.dict_get i d) = Some "pending".
Proof.
  induction d as [|[k st] d IH]; cbn; [discriminate|].
  intros H. apply andb_true_iff in H. destruct H as [Hs Hd].
  destruct (String.eqb i k); cbn.
  - intros _. apply String.eqb_eq in Hs. now rewrite Hs.
  - auto.
Qed.

Lemma all_pending_count (d : Status.dict Status.ProcessingStatus) s :
  forallb (fun kv => String.eqb (Status.state (snd kv)) "pending") d = true ->
  Z.of_nat (length (filter (fun kv => String.eqb (Status.state (snd kv)) s) d))
  = Z.b2z (String.eqb "pending" s) * Z.of_nat (length d).
Proof.
  induction d as [|[k st] d IH]; cbn [forallb filter length snd]; intros H.
  - lia.
  - apply andb_true_iff in H. destruct H as [Hs Hd].
    apply String.eqb_eq in Hs. rewrite Hs.
    destruct (String.eqb "pending" s); cbn [length Z.b2z] in *;
      rewrite ?Nat2Z.inj_succ; rewrite (IH Hd); lia.
Qed.

Lemma batch_ready_facts bp :
  batch_ready bp = true ->
  queue bp = mkQueue (jobs bp) (Z.of_nat (length (jobs bp))) /\
  NoDup (map Queue.id (jobs bp)) /\
  (forall x, In x (jobs bp) ->
     Status.state_of (status_tracker bp) (Queue.id x) = Some "pending") /\
  (forall s, count_state s (status_tracker bp)
             = Z.b2z (String.eqb "pending" s) * Z.of_nat (length (jobs bp))) /\
  length (Status._statuses (status_tracker bp)) = length (jobs bp) /\
  _processing bp = false /\ _preview_processed bp = false /\
  _preview_approved bp = false.
Proof.
  unfold batch_ready. rewrite !andb_true_iff, !negb_true_iff.
  intros (((((((H1 & H2) & H3) & H4) & H5) & H6) & H7) & H8).
  apply Z.eqb_eq in H1. apply Nat.eqb_eq in H5.
  repeat split; auto.
  - unfold batch_size, jobs in *. destruct (queue bp) as [l sz]. cbn in *.
    now subst.
  - now apply distinct_NoDup.
  - intros x Hx. unfold Status.state_of. apply all_pending_state_of; auto.
    rewrite forallb_forall in H3. now apply H3.
  - intros s. unfold count_state. rewrite all_pending_count by exact H4.
    now rewrite H5.
Qed.

Lemma batch_ready_stamped bp :
  batch_ready bp = true -> jobs bp <> [] ->
  complete_stamped (status_tracker bp).
Proof.
  intros Hr Hne.
  destruct (batch_ready_facts bp Hr) as (_ & _ & _ & Hc & Hl & _).
  unfold complete_stamped, Status.is_complete. intros H. exfalso.
  destruct (StatusFacts.summary_fields (status_tracker bp))
    as (_ & _ & H3 & H4 & H5 & _ & H7).
  rewrite H3, H4, H5, H7, !Hc, Hl in H. apply Z.eqb_eq in H.
  change (String.eqb "pending" "completed") with false in H.
  change (String.eqb "pending" "failed") with false in H.
  change (String.eqb "pending" "cancelled") with false in H.
  cbn [Z.b2z] in H.
  destruct (jobs bp); [congruence|]. cbn [length] in H. lia.
Qed.

(** *** Whole runs *)

Lemma read_elapsed_time_run w :
  exists tc', read_elapsed_time env w = (Ok tt, mkWorld (proc w) (uuid_calls w) tc').
Proof.
  unfold read_elapsed_time. destruct w as [bp u tc]. cbn [proc uuid_calls time_calls].
  destruct (Status.s_start_time _); [destruct (Status.s_end_time _)|]; eauto.
  destruct (Qeq_bool _ _); eauto.
Qed.

Lemma log_final_summary_run w :
  exists tc', log_final_summary env w = (Ok tt, mkWorld (proc w) (uuid_calls w) tc').
Proof.
  destruct w as [bp u tc].
  unfold log_final_summary, bind, get_proc. cbn [proc uuid_calls].
  destruct (_cancelled bp); [unfold ret; eauto|].
  destruct (_paused bp); [unfold ret; eauto|].
  apply (read_elapsed_time_run (mkWorld bp u tc)).
Qed.

Lemma run_process_loop_fuel rest w :
  queue (proc w) = mkQueue rest (Z.of_nat (length rest)) ->
  run_process_loop env w = process_loop env (S (length rest)) w.
Proof.
  intros Hq. unfold run_process_loop, bind, get_proc. rewrite Hq.
  cbn [size _size]. now rewrite Nat2Z.id.
Qed.

(** A run without preview mode and without control calls drains the batch. *)
Lemma start_processing_drains w :
  batch_ready (proc w) = true ->
  preview_mode (config (proc w)) = false ->
  jobs (proc w) <> [] ->
  no_arrivals env (jobs (proc w)) = true ->
  exists t' tc',
    start_processing env w
    = (Ok tt,
       mkWorld (set_status_tracker t'
                  (set_queue (mkQueue [] 0)
                     (set_paused false (set_cancelled false (proc w)))))
         (uuid_calls w) tc') /\
    batch_moved (status_tracker (proc w)) t' (jobs (proc w))
      (fun x => final_state (render env x)).
Proof.
  intros Hr Hpm Hne Hna.
  destruct (batch_ready_facts _ Hr) as (Hq & Hnd & Hpend & _ & _ & Hproc & Hpp & Hpa).
  pose proof (batch_ready_stamped _ Hr Hne) as Hst.
  destruct w as [bp u tc]. cbn [proc uuid_calls time_calls] in *.
  set (bp1 := set_paused false (set_cancelled false (set_processing true bp))).
  destruct (process_loop_drains (jobs bp) (S (length (jobs bp))) (mkWorld bp1 u tc))
    as (t' & tc1 & Hloop & Hbm); auto.
  destruct (log_final_summary_run
              (mkWorld (set_status_tracker t' (set_queue (mkQueue [] 0) bp1)) u tc1))
    as (tc2 & Hlog).
  exists t', tc2. split; [|exact Hbm].
  unfold start_processing, bind at 1, get_proc at 1. cbn [proc].
  rewrite Hq. cbn [size _size].
  replace (Z.of_nat (length (jobs bp)) =? 0) with false
    by (symmetry; apply Z.eqb_neq; destruct (jobs bp); [congruence | cbn [length]; lia]).
  rewrite Hproc, Hpm. cbn [andb].
  do 3 run_modify.
  fold bp1. unfold try_finally.
  run_get.
  replace (preview_mode (config bp1)) with false by (symmetry; exact Hpm).
  cbn [andb]. unfold bind at 1.
  rewrite (run_process_loop_fuel (jobs bp)) by exact Hq.
  rewrite Hloop. cbn [proc uuid_calls time_calls]. rewrite Hlog.
  run_get.
  replace (preview_mode (config (set_status_tracker t' (set_queue (mkQueue [] 0) bp1))))
    with false by (symmetry; exact Hpm).
  cbn [andb negb]. unfold bind at 1, modify_proc at 1.
  cbn [proc uuid_calls time_calls try_except clear_cache ret].
  unfold try_except, clear_cache, ret.
  f_equal. f_equal. subst bp1. destruct bp. cbn in *. subst. reflexivity.
Qed.

(** *** Counting the outcomes *)

Lemma count_fin_render l :
  count_fin (fun x => final_state (render env x)) "failed" l = failures env l /\
  count_fin (fun x => final_state (render env x)) "completed" l
  = Z.of_nat (length l) - failures env l /\
  count_fin (fun x => final_state (render env x)) "pending" l = 0 /\
  count_fin (fun x => final_state (render env x)) "processing" l = 0 /\
  count_fin (fun x => final_state (render env x)) "cancelled" l = 0.
Proof.
  unfold count_fin, failures, final_state.
  induction l as [|x l (H1 & H2 & H3 & H4 & H5)]; cbn [filter length].
  - repeat split; reflexivity.
  - destruct (is_rendered (render env x)); cbn [negb String.eqb Ascii.eqb Bool.eqb length andb] in *;
      rewrite ?Nat2Z.inj_succ; repeat split; lia.
Qed.

(** The summary once every job of a ready batch has been rendered. *)
Lemma drained_summary bp t' :
  batch_ready bp = true -> jobs bp <> [] ->
  batch_moved (status_tracker bp) t' (jobs bp)
    (fun x => final_state (render env x)) ->
  let s := Status.get_summary t' in
  Status.failed s = failures env (jobs bp) /\
  Status.completed s = batch_size bp - failures env (jobs bp) /\
  Status.pending s = 0 /\ Status.processing s = 0 /\ Status.cancelled s = 0 /\
  Status.total s = batch_size bp /\
  Status.s_end_time s <> None /\
  (forall x, In x (jobs bp) -> is_terminal t' (Queue.id x) = true).
Proof.
  intros Hr Hne (B1 & B2 & B3 & B4 & B5).
  destruct (batch_ready_facts bp Hr) as (_ & _ & _ & Hc & Hl & _).
  destruct (StatusFacts.summary_fields t') as (S1 & S2 & S3 & S4 & S5 & S6 & S7).
  destruct (count_fin_render (jobs bp)) as (F1 & F2 & F3 & F4 & F5).
  assert (Hfail : 0 <= failures env (jobs bp) <= batch_size bp).
  { unfold failures, batch_size.
    pose proof (filter_length_le
      (fun x => negb (is_rendered (render env x))) (jobs bp)). lia. }
  cbv zeta.
  assert (E4 : Status.failed (Status.get_summary t') = failures env (jobs bp)).
  { rewrite S4, B3, Hc, F1. cbn. lia. }
  assert (E3 : Status.completed (Status.get_summary t')
               = batch_size bp - failures env (jobs bp)).
  { rewrite S3, B3, Hc, F2. cbn. unfold batch_size. lia. }
  assert (E5 : Status.cancelled (Status.get_summary t') = 0).
  { rewrite S5, B3, Hc, F5. cbn. lia. }
  assert (E7 : Status.total (Status.get_summary t') = batch_size bp).
  { rewrite S7, B4, Hl. reflexivity. }
  repeat split; auto.
  - rewrite S1, B3, Hc, F3. cbn. lia.
  - rewrite S2, B3, Hc, F4. cbn. lia.
  - rewrite S6. apply B5. unfold Status.is_complete.
    rewrite E3, E4, E5, E7. apply Z.eqb_eq. lia.
  - intros x Hx. unfold is_terminal. rewrite (B1 x Hx).
    unfold final_state. destruct (is_rendered (render env x)); reflexivity.
Qed.

(** *** Cancellation requested while the first job is in flight *)

Lemma apply_cancel bp :
  _processing bp = true -> _cancelled bp = false ->
  apply_requests [ReqCancel] bp = set_cancelled true bp.
Proof.
  intros Hp Hc. unfold apply_requests, apply_request, cancel_processing.
  cbn [fold_left]. now rewrite Hp, Hc.
Qed.

Lemma process_loop_cancel_after_first x rest fuel w :
  (S (length rest) < fuel)%nat ->
  queue (proc w) = mkQueue (x :: rest) (Z.of_nat (S (length rest))) ->
  _paused (proc w) = false -> _cancelled (proc w) = false ->
  _processing (proc w) = true ->
  NoDup (map Queue.id (x :: rest)) ->
  (forall y, In y (x :: rest) ->
     Status.state_of (status_tracker (proc w)) (Queue.id y) = Some "pending") ->
  arrivals env x = [ReqCancel] ->
  exists t1 t' tc',
    process_loop env fuel w
    = (Ok tt,
       mkWorld (set_status_tracker t'
                  (set_queue (mkQueue [] 0) (set_cancelled true (proc w))))
         (uuid_calls w) tc') /\
    tracker_moved (status_tracker (proc w)) t1 (Queue.id x) "pending"
      (final_state (render env x)) /\
    batch_moved t1 t' rest (fun _ => "cancelled").
Proof.
  intros Hf Hq Hp Hc Hproc Hnd Hpend Harr.
  destruct fuel as [|[|fuel]]; try lia.
  destruct (process_loop_step (S fuel) x rest w Hq Hp Hc (Hpend x (or_introl eq_refl)))
    as (t1 & tc1 & Hstep & Hmv).
  rewrite Hstep, Harr. clear Hstep.
  destruct w as [bp u tc]. cbn [proc uuid_calls time_calls] in *.
  rewrite apply_cancel by (cbn; assumption).
  cbn [map] in Hnd. inversion Hnd as [|? ? Hnin Hnd']; subst.
  assert (Hst1 : complete_stamped t1) by (destruct Hmv as (_ & _ & _ & _ & H); exact H).
  set (bp1 := set_status_tracker t1
                (set_cancelled true
                   (set_queue (mkQueue rest (Z.of_nat (length rest))) bp))).
  destruct rest as [|y rest].
  - exists t1, t1, tc1. split; [|split; [exact Hmv | now apply batch_moved_nil]].
    cbn [process_loop]. unfold bind, get_proc. cbn. reflexivity.
  - destruct (cancel_remaining_drains (y :: rest) (S (S (length rest)))
                (mkWorld bp1 u tc1)) as (t' & tc' & Hrun & Hbm).
    + cbn [length]. lia.
    + reflexivity.
    + exact Hnd'.
    + intros z Hz. cbn [bp1 proc status_tracker set_status_tracker].
      destruct Hmv as (_ & Hoth & _). rewrite Hoth; [apply Hpend; now right|].
      intros Heq. apply Hnin. rewrite <- Heq. now apply in_map.
    + exact Hst1.
    + exists t1, t', tc'. split; [|split; [exact Hmv | exact Hbm]].
      cbn [process_loop]. unfold bind at 1, get_proc at 1.
      cbn [proc bp1 queue set_status_tracker set_cancelled set_queue size _size
           _paused _cancelled].
      replace (Z.of_nat (length (y :: rest)) >? 0) with true
        by (symmetry; apply Z.gtb_lt; cbn [length]; lia).
      rewrite Hp. rewrite Nat2Z.id. exact Hrun.
Qed.

Lemma start_processing_cancel_after_first x rest w :
  batch_ready (proc w) = true ->
  preview_mode (config (proc w)) = false ->
  jobs (proc w) = x :: rest ->
  arrivals env x = [ReqCancel] ->
  exists t1 t' tc',
    start_processing env w
    = (Ok tt,
       mkWorld (set_status_tracker t'
                  (set_queue (mkQueue [] 0)
                     (set_paused false (set_cancelled true (proc w)))))
         (uuid_calls w) tc') /\
    tracker_moved (status_tracker (proc w)) t1 (Queue.id x) "pending"
      (final_state (render env x)) /\
    batch_moved t1 t' rest (fun _ => "cancelled").
Proof.
  intros Hr Hpm Hjobs Harr.
  destruct (batch_ready_facts _ Hr) as (Hq & Hnd & Hpend & _ & _ & Hproc & Hpp & Hpa).
  destruct w as [bp u tc]. cbn [proc uuid_calls time_calls] in *.
  rewrite Hjobs in Hq, Hnd, Hpend.
  set (bp1 := set_paused false (set_cancelled false (set_processing true bp))).
  destruct (process_loop_cancel_after_first x rest (S (S (length rest)))
              (mkWorld bp1 u tc))
    as (t1 & t' & tc1 & Hloop & Hmv & Hbm); auto.
  cbn [proc uuid_calls time_calls] in Hloop.
  destruct (log_final_summary_run
              (mkWorld (set_status_tracker t'
                          (set_queue (mkQueue [] 0) (set_cancelled true bp1))) u tc1))
    as (tc2 & Hlog).
  cbn [proc uuid_calls time_calls] in Hlog.
  exists t1, t', tc2. split; [|split; [exact Hmv | exact Hbm]].
  unfold start_processing, bind at 1, get_proc at 1. cbn [proc].
  rewrite Hq. cbn [size _size].
  replace (Z.of_nat (length (x :: rest)) =? 0) with false
    by (symmetry; apply Z.eqb_neq; cbn [length]; lia).
  rewrite Hproc, Hpm. cbn [andb].
  do 3 run_modify.
  fold bp1. unfold try_finally.
  run_get.
  replace (preview_mode (config bp1)) with false by (symmetry; exact Hpm).
  cbn [andb]. unfold bind at 1.
  rewrite (run_process_loop_fuel (x :: rest)) by exact Hq.
  cbn [length]. rewrite Hloop, Hlog.
  run_get.
  replace (preview_mode (config (set_status_tracker t'
             (set_queue (mkQueue [] 0) (set_cancelled true bp1)))))
    with false by (symmetry; exact Hpm).
  cbn [andb negb]. run_modify.
  unfold try_except, clear_cache, ret.
  f_equal. f_equal. subst bp1. destruct bp. cbn in *. subst. reflexivity.
Qed.

Lemma count_fin_const c s l :
  count_fin (fun _ => c) s l = Z.b2z (String.eqb c s) * Z.of_nat (length l).
Proof.
  unfold count_fin. induction l as [|x l IH]; cbn [filter length].
  - lia.
  - destruct (String.eqb c s); cbn [length Z.b2z] in *;
      rewrite ?Nat2Z.inj_succ; lia.
Qed.

(** *** Preview mode *)

Lemma try_get_status_run i w :
  exists o, try_get_status i w = (Ok o, w).
Proof.
  unfold try_get_status. destruct (Status.get_status _ _); eauto.
Qed.

(** The preview branch processes the head of the queue and records it. *)
Lemma process_preview_run x rest w :
  queue (proc w) = mkQueue (x :: rest) (Z.of_nat (S (length rest))) ->
  Status.state_of (status_tracker (proc w)) (Queue.id x) = Some "pending" ->
  arrivals env x = [] ->
  exists t1 tc1 pr,
    process_preview env w
    = (Ok tt,
       mkWorld (set_preview_processed true
                  (set_preview_result (Some pr)
                     (set_status_tracker t1
                        (set_queue (mkQueue rest (Z.of_nat (length rest))) (proc w)))))
         (uuid_calls w) tc1) /\
    tracker_moved (status_tracker (proc w)) t1 (Queue.id x) "pending"
      (final_state (render env x)).
Proof.
  intros Hq Hpend Harr. destruct w as [bp u tc]. cbn [proc uuid_calls time_calls] in *.
  destruct (process_single_image_run x
              (mkWorld (set_queue (mkQueue rest (Z.of_nat (length rest))) bp) u tc))
    as (r & t1 & tc1 & Hrun & Hh & _ & Hmv); [exact Hpend|].
  rewrite Harr in Hrun. cbn [apply_requests fold_left proc uuid_calls] in Hrun.
  set (w1 := mkWorld (set_status_tracker t1
                        (set_queue (mkQueue rest (Z.of_nat (length rest))) bp)) u tc1)
    in *.
  destruct (try_get_status_run (Queue.id x) w1) as (o & Hgs).
  unfold process_preview, bind at 1.
  rewrite (queue_dequeue_run x rest bp u tc Hq).
  unfold bind at 1, try_except at 1, bind at 1. rewrite Hrun.
  destruct Hh as [-> | (p & m & ->)].
  - unfold bind at 1. rewrite Hgs.
    eexists t1, tc1, _. split; [reflexivity | exact Hmv].
  - cbn [is_ImageProcessingError]. unfold bind at 1. rewrite Hgs.
    eexists t1, tc1, _. split; [reflexivity | exact Hmv].
Qed.

(** [start_processing] in preview mode: one job is run, the others stay
    queued, and the processing flag stays set. *)
Lemma start_processing_preview x rest w :
  batch_ready (proc w) = true ->
  preview_mode (config (proc w)) = true ->
  jobs (proc w) = x :: rest ->
  arrivals env x = [] ->
  exists t1 tc1 pr,
    start_processing env w
    = (Ok tt,
       mkWorld (set_preview_processed true
                  (set_preview_result (Some pr)
                     (set_status_tracker t1
                        (set_queue (mkQueue rest (Z.of_nat (length rest)))
                           (set_paused false
                              (set_cancelled false
                                 (set_processing true (proc w))))))))
         (uuid_calls w) tc1) /\
    tracker_moved (status_tracker (proc w)) t1 (Queue.id x) "pending"
      (final_state (render env x)).
Proof.
  intros Hr Hpm Hjobs Harr.
  destruct (batch_ready_facts _ Hr) as (Hq & Hnd & Hpend & _ & _ & Hproc & Hpp & Hpa).
  destruct w as [bp u tc]. cbn [proc uuid_calls time_calls] in *.
  rewrite Hjobs in Hq, Hnd, Hpend.
  set (bp1 := set_paused false (set_cancelled false (set_processing true bp))).
  destruct (process_preview_run x rest (mkWorld bp1 u tc))
    as (t1 & tc1 & pr & Hrun & Hmv); auto.
  { apply Hpend. now left. }
  cbn [proc uuid_calls time_calls] in Hrun.
  exists t1, tc1, pr. split; [|exact Hmv].
  unfold start_processing, bind at 1, get_proc at 1. cbn [proc].
  rewrite Hq. cbn [size _size].
  replace (Z.of_nat (length (x :: rest)) =? 0) with false
    by (symmetry; apply Z.eqb_neq; cbn [length]; lia).
  rewrite Hproc, Hpm, Hpp. cbn [andb].
  do 3 run_modify.
  fold bp1. unfold try_finally.
  run_get.
  replace (preview_mode (config bp1)) with true by (symmetry; exact Hpm).
  replace (_preview_processed bp1) with false by (symmetry; exact Hpp).
  cbn [andb negb]. rewrite Hrun.
  unfold bind at 1, get_proc at 1.
  cbn [proc config _preview_processed _preview_approved set_preview_processed
       set_preview_result set_status_tracker set_queue].
  replace (preview_mode (config bp1)) with true by (symmetry; exact Hpm).
  replace (_preview_approved bp1) with false by (symmetry; exact Hpa).
  cbn [andb negb]. reflexivity.
Qed.

(** Approval runs the main loop over what is left in the queue. *)
Lemma approve_preview_drains rest w :
  preview_mode (config (proc w)) = true ->
  _preview_processed (proc w) = true ->
  _preview_approved (proc w) = false ->
  queue (proc w) = mkQueue rest (Z.of_nat (length rest)) ->
  rest <> [] ->
  _paused (proc w) = false -> _cancelled (proc w) = false ->
  NoDup (map Queue.id rest) ->
  (forall x, In x rest ->
     Status.state_of (status_tracker (proc w)) (Queue.id x) = Some "pending") ->
  no_arrivals env rest = true ->
  complete_stamped (status_tracker (proc w)) ->
  exists t' tc',
    approve_preview env w
    = (Ok tt,
       mkWorld (set_processing false
                  (set_status_tracker t'
                     (set_queue (mkQueue [] 0)
                        (set_preview_approved true (proc w)))))
         (uuid_calls w) tc') /\
    batch_moved (status_tracker (proc w)) t' rest
      (fun x => final_state (render env x)).
Proof.
  intros Hpm Hpp Hpa Hq Hne Hp Hc Hnd Hpend Hna Hst.
  destruct w as [bp u tc]. cbn [proc uuid_calls time_calls] in *.
  set (bp1 := set_preview_approved true bp).
  destruct (process_loop_drains rest (S (length rest)) (mkWorld bp1 u tc))
    as (t' & tc1 & Hloop & Hbm); auto.
  cbn [proc uuid_calls time_calls] in Hloop.
  destruct (read_elapsed_time_run
              (mkWorld (set_status_tracker t' (set_queue (mkQueue [] 0) bp1)) u tc1))
    as (tc2 & Hlog).
  cbn [proc uuid_calls time_calls] in Hlog.
  exists t', tc2. split; [|exact Hbm].
  unfold approve_preview, bind at 1, get_proc at 1. cbn [proc].
  rewrite Hpm, Hpp, Hpa. cbn [negb].
  run_modify. fold bp1.
  unfold _continue_after_preview, bind at 1, get_proc at 1. cbn [proc].
  replace (size (queue bp1) =? 0) with false.
  2:{ symmetry. apply Z.eqb_neq. change (queue bp1) with (queue bp). rewrite Hq.
      cbn [size _size]. destruct rest; [congruence | cbn [length]; lia]. }
  unfold try_finally, bind at 1.
  rewrite (run_process_loop_fuel rest) by exact Hq.
  rewrite Hloop, Hlog.
  run_modify.
  reflexivity.
Qed.

(** *** The rounds allotted to the main loop are enough

    Processing a job does not touch the queue, so every round that goes on
    has shortened it by one: more rounds than [queue.size()] change
    nothing. *)

Lemma keeps_queue_ret {A} (a : A) : keeps_queue (ret a).
Proof. intros w r w' [= _ <-]. reflexivity. Qed.

Lemma keeps_queue_raise {A} e : keeps_queue (@raise A e).
Proof. intros w r w' [= _ <-]. reflexivity. Qed.

Lemma keeps_queue_bind {A B} (m : M A) (k : A -> M B) :
  keeps_queue m -> (forall a, keeps_queue (k a)) -> keeps_queue (bind m k).
Proof.
  intros Hm Hk w r w'. unfold bind.
  destruct (m w) as [[a|e] w1] eqn:E.
  - intros H. rewrite (Hk a _ _ _ H). eapply Hm; eauto.
  - intros [= _ <-]. eapply Hm; eauto.
Qed.

Lemma keeps_queue_try_except {A} (m : M A) h :
  keeps_queue m -> (forall e, keeps_queue (h e)) -> keeps_queue (try_except m h).
Proof.
  intros Hm Hh w r w'. unfold try_except.
  destruct (m w) as [[a|e] w1] eqn:E.
  - intros [= _ <-]. eapply Hm; eauto.
  - intros H. rewrite (Hh e _ _ _ H). eapply Hm; eauto.
Qed.

Lemma keeps_queue_try_finally {A} (m : M A) f :
  keeps_queue m -> keeps_queue f -> keeps_queue (try_finally m f).
Proof.
  intros Hm Hf w r w'. unfold try_finally.
  destruct (m w) as [r1 w1] eqn:E. destruct (f w1) as [[u|e] w2] eqn:E2.
  - intros [= _ <-]. rewrite (Hf _ _ _ E2). eapply Hm; eauto.
  - intros [= _ <-]. rewrite (Hf _ _ _ E2). eapply Hm; eauto.
Qed.

Lemma keeps_queue_update i s e o : keeps_queue (tracker_update_status env i s e o).
Proof.
  intros w r w'. unfold tracker_update_status.
  destruct (Status.update_status _ _ _ _ _ _); intros [= _ <-]; reflexivity.
Qed.

Lemma keeps_queue_deliver_all rs : keeps_queue (deliver_all rs).
Proof.
  intros w r w'. rewrite deliver_all_run. intros [= _ <-]. cbn [proc].
  apply apply_requests_frame.
Qed.

Lemma keeps_queue_process_single_image x :
  keeps_queue (process_single_image env x).
Proof.
  unfold process_single_image, run_pipeline, clear_cache.
  repeat first
    [ apply keeps_queue_bind; [|intros ?]
    | apply keeps_queue_try_finally
    | apply keeps_queue_try_except; [|intros ?]
    | apply keeps_queue_update
    | apply keeps_queue_deliver_all
    | apply keeps_queue_ret
    | apply keeps_queue_raise
    | match goal with |- keeps_queue (match ?o with _ => _ end) => destruct o end ].
Qed.

Lemma keeps_queue_loop_body x :
  keeps_queue
    (try_except (process_single_image env x) (loop_handler env x) ;;
     try_except trigger_gc_if_needed (fun _ => ret tt)).
Proof.
  unfold loop_handler, trigger_gc_if_needed.
  repeat first
    [ apply keeps_queue_process_single_image
    | apply keeps_queue_bind; [|intros ?]
    | apply keeps_queue_try_except; [|intros ?]
    | apply keeps_queue_update
    | apply keeps_queue_ret
    | progress cbv beta
    | match goal with |- keeps_queue (if ?b then _ else _) => destruct b end ].
Qed.

Lemma process_loop_S fuel w :
  process_loop env (S fuel) w
  = if size (queue (proc w)) >? 0 then
      if _paused (proc w) then (Ok tt, w)
      else if _cancelled (proc w)
      then cancel_remaining env (S (Z.to_nat (size (queue (proc w))))) w
      else
        match queue_dequeue w with
        | (Ok (Some it), w1) =>
            match (try_except (process_single_image env it) (loop_handler env it) ;;
                   try_except trigger_gc_if_needed (fun _ => ret tt)) w1 with
            | (Ok _, w2) => process_loop env fuel w2
            | (Raise e, w2) => (Raise e, w2)
            end
        | (Ok None, w1) => (Ok tt, w1)
        | (Raise e, w1) => (Raise e, w1)
        end
    else (Ok tt, w).
Proof.
  cbn [process_loop]. unfold bind at 1, get_proc at 1.
  destruct (size (queue (proc w)) >? 0); [|reflexivity].
  destruct (_paused (proc w)); [reflexivity|].
  destruct (_cancelled (proc w)); [reflexivity|].
  unfold bind at 1. destruct (queue_dequeue w) as [[[it|]|e] w1]; try reflexivity.
  unfold bind.
  destruct (try_except (process_single_image env it) (loop_handler env it) w1)
    as [[u|e] w2]; [|reflexivity].
  destruct (try_except trigger_gc_if_needed (fun _ => ret tt) w2)
    as [[u'|e] w3]; reflexivity.
Qed.

Lemma process_loop_fuel_enough : forall fuel w,
  (Z.to_nat (size (queue (proc w))) < fuel)%nat ->
  process_loop env fuel w
  = process_loop env (S (Z.to_nat (size (queue (proc w))))) w.
Proof.
  induction fuel as [fuel IH] using (well_founded_induction Wf_nat.lt_wf).
  intros w Hf. destruct fuel as [|fuel]; [lia|].
  set (n := Z.to_nat (size (queue (proc w)))) in *.
  rewrite !process_loop_S.
  destruct (size (queue (proc w)) >? 0) eqn:Epos; [|reflexivity].
  destruct (_paused (proc w)); [reflexivity|].
  destruct (_cancelled (proc w)); [reflexivity|].
  destruct (queue_dequeue w) as [[[it|]|e] w1] eqn:Edq; try reflexivity.
  assert (Hsz : size (queue (proc w1)) = size (queue (proc w)) - 1).
  { revert Edq. unfold queue_dequeue, dequeue.
    destruct (_size (queue (proc w)) =? 0); [discriminate|].
    destruct (_queue (queue (proc w))); [discriminate|].
    intros [= _ <-]. reflexivity. }
  destruct ((try_except (process_single_image env it) (loop_handler env it) ;;
             try_except trigger_gc_if_needed (fun _ => ret tt)) w1)
    as [[u|e] w2] eqn:E1; [|reflexivity].
  pose proof (keeps_queue_loop_body it w1 _ w2 E1) as Hq2.
  apply Z.gtb_lt in Epos.
  assert (Hn2 : Z.to_nat (size (queue (proc w2))) = (n - 1)%nat).
  { rewrite Hq2, Hsz. unfold n. lia. }
  assert (Hn : (0 < n)%nat) by (unfold n; lia).
  rewrite (IH fuel) by lia.
  rewrite (IH n) by lia.
  reflexivity.
Qed.

Lemma cancel_remaining_S fuel w :
  cancel_remaining env (S fuel) w
  = if size (queue (proc w)) >? 0 then
      match queue_dequeue w with
      | (Ok (Some it), w1) =>
          match tracker_update_status env (Queue.id it) Status.CANCELLED None None w1 with
          | (Ok _, w2) => cancel_remaining env fuel w2
          | (Raise e, w2) => (Raise e, w2)
          end
      | (Ok None, w1) => cancel_remaining env fuel w1
      | (Raise e, w1) => (Raise e, w1)
      end
    else (Ok tt, w).
Proof.
  cbn [cancel_remaining]. unfold bind at 1, get_proc at 1.
  destruct (size (queue (proc w)) >? 0); [|reflexivity].
  unfold bind at 1. destruct (queue_dequeue w) as [[[it|]|e] w1]; try reflexivity.
Qed.

Lemma cancel_remaining_fuel_enough : forall fuel w,
  (Z.to_nat (size (queue (proc w))) < fuel)%nat ->
  cancel_remaining env fuel w
  = cancel_remaining env (S (Z.to_nat (size (queue (proc w))))) w.
Proof.
  induction fuel as [fuel IH] using (well_founded_induction Wf_nat.lt_wf).
  intros w Hf. destruct fuel as [|fuel]; [lia|].
  set (n := Z.to_nat (size (queue (proc w)))) in *.
  rewrite !cancel_remaining_S.
  destruct (size (queue (proc w)) >? 0) eqn:Epos; [|reflexivity].
  apply Z.gtb_lt in Epos.
  assert (Hn : (0 < n)%nat) by (unfold n; lia).
  destruct (queue_dequeue w) as [[[it|]|e] w1] eqn:Edq; try reflexivity.
  - assert (Hsz : size (queue (proc w1)) = size (queue (proc w)) - 1).
    { revert Edq. unfold queue_dequeue, dequeue.
      destruct (_size (queue (proc w)) =? 0); [discriminate|].
      destruct (_queue (queue (proc w))); [discriminate|].
      intros [= _ <-]. reflexivity. }
    destruct (tracker_update_status env (Queue.id it) Status.CANCELLED None None w1)
      as [[u|e] w2] eqn:E1; [|reflexivity].
    pose proof (keeps_queue_update _ _ _ _ w1 _ w2 E1) as Hq2.
    assert (Hn2 : Z.to_nat (size (queue (proc w2))) = (n - 1)%nat).
    { rewrite Hq2, Hsz. unfold n. lia. }
    rewrite (IH fuel) by lia. rewrite (IH n) by lia. reflexivity.
  - (* [dequeue] returns [None] only on an empty queue *)
    exfalso. revert Edq. unfold queue_dequeue, dequeue.
    replace (_size (queue (proc w)) =? 0) with false
      by (symmetry; apply Z.eqb_neq; unfold size in Epos; lia).
    destruct (_queue (queue (proc w))); discriminate.
Qed.

(** *** [add_images] on a fresh processor leaves a ready batch *)

Lemma insert_pos_all_equal item l :
  Forall (fun y => priority y = priority item) l ->
  list_insert (insert_pos item l) item l = l ++ [item].
Proof.
  rewrite QueueFacts.list_insert_is_insert_sorted.
  induction 1 as [|y l Hy _ IH]; cbn [QueueSpec.insert_sorted app]; auto.
  replace (priority item >? priority y) with false
    by (rewrite Hy, Z.gtb_ltb; symmetry; apply Z.ltb_irrefl).
  now rewrite IH.
Qed.

Lemma dict_set_new {V} k (v : V) d :
  Status.dict_contains k d = false -> Status.dict_set k v d = d ++ [(k, v)].
Proof.
  induction d as [|[k' v'] d IH]; cbn; auto.
  destruct (String.eqb k k'); cbn; [discriminate|].
  intros H. now rewrite IH.
Qed.

Lemma dict_contains_In {V} k (d : Status.dict V) :
  Status.dict_contains k d = true <-> In k (map fst d).
Proof.
  unfold Status.dict_contains. rewrite existsb_exists, in_map_iff. split.
  - intros (kv & Hin & E). apply String.eqb_eq in E. subst. eauto.
  - intros (kv & E & Hin). exists kv. split; auto. subst. apply String.eqb_refl.
Qed.

Lemma NoDup_distinct l : NoDup l -> distinct l = true.
Proof.
  induction 1 as [|x l Hx _ IH]; cbn [distinct]; auto.
  rewrite IH, andb_true_r. apply negb_true_iff.
  destruct (Status.str_in x l) eqn:E; auto.
  apply str_in_In in E. contradiction.
Qed.

Lemma add_one_image_added cfg dev u k done p w :
  (forall i j, uuid4 env i = uuid4 env j -> i = j) ->
  (exists o o', create_output_path env p (output_dir cfg) "_colorized" = Ok o /\
                handle_filename_collision env o (overwrite cfg) = Ok o') ->
  added cfg dev env u k done w ->
  exists w', add_one_image env p w = (Ok tt, w') /\
             added cfg dev env u (S k) (done ++ [p]) w'.
Proof.
  intros Hinj (o & o' & Ho & Ho') (items & start & Hproc & Hu & Hlen & Hprio & Hids & Hdone).
  destruct w as [bp uc tc]. cbn [proc uuid_calls] in *. subst bp uc.
  set (item := mkItem (uuid4 env (u + k)) p o' None 0 (Some "line_art") None).
  assert (Hfresh : Status.dict_contains (uuid4 env (u + k))
                     (map (fun i => (i, Status.mkStatus i "pending" None None None None))
                          (map Queue.id items)) = false).
  { destruct (Status.dict_contains _ _) eqn:E; auto. exfalso.
    apply dict_contains_In in E. rewrite map_map in E. cbn [fst] in E.
    rewrite map_id, Hids in E. apply in_map_iff in E.
    destruct E as (i & Ei & Hi). apply Hinj in Ei. apply in_seq in Hi. lia. }
  unfold add_one_image, bind at 1, fresh_uuid. cbn [proc uuid_calls time_calls].
  unfold bind at 1, get_proc at 1. cbn [proc config].
  rewrite Ho, Ho'. fold item.
  unfold bind at 1, queue_enqueue, modify_proc. cbn [proc uuid_calls time_calls].
  unfold tracker_add_image. cbn [proc status_tracker set_queue uuid_calls time_calls].
  unfold Status.add_image. cbn [Status._statuses]. rewrite Hfresh.
  cbn [Status.ProcessingStatus_new Status.str_in Status.valid_states negb].
  eexists. split; [reflexivity|].
  exists (items ++ [item]). eexists.
  cbn [proc uuid_calls set_status_tracker set_queue queue config memory_manager
       _paused _cancelled _processing _preview_processed _preview_approved
       _preview_result Status._batch_end_time Status._statuses].
  unfold enqueue. cbn [_queue _size].
  rewrite insert_pos_all_equal by (cbn [priority item]; exact Hprio).
  rewrite dict_set_new by exact Hfresh.
  rewrite !length_app, !map_app, Hlen. cbn [length map].
  repeat split.
  - unfold set_status_tracker, set_queue.
    cbn [config queue memory_manager _paused _cancelled _processing
         _preview_processed _preview_approved _preview_result status_tracker].
    f_equal; try reflexivity. f_equal. lia.
  - lia.
  - lia.
  - apply Forall_app. split; auto.
  - rewrite Hids. replace (S k) with (k + 1)%nat by lia.
    rewrite seq_app, map_app. reflexivity.
  - now rewrite Hdone.
Qed.

Lemma add_images_loop_added cfg dev u paths : forall k done w v i,
  (forall a b, uuid4 env a = uuid4 env b -> a = b) ->
  (forall p, In p paths ->
     validate_image_file env p = true /\
     exists o o', create_output_path env p (output_dir cfg) "_colorized" = Ok o /\
                  handle_filename_collision env o (overwrite cfg) = Ok o') ->
  added cfg dev env u k done w ->
  exists w',
    add_images_loop env paths v i w = (Ok (v + Z.of_nat (length paths), i), w') /\
    added cfg dev env u (k + length paths) (done ++ paths) w'.
Proof.
  induction paths as [|p paths IH]; intros k done w v i Hinj Hok Hadd.
  - exists w. cbn [add_images_loop length]. unfold ret.
    rewrite Z.add_0_r, Nat.add_0_r, app_nil_r. auto.
  - destruct (Hok p (or_introl eq_refl)) as [Hval Hpath].
    destruct (add_one_image_added cfg dev u k done p w Hinj Hpath Hadd)
      as (w1 & Hrun & Hadd1).
    destruct (IH (S k) (done ++ [p]) w1 (v + 1) i Hinj) as (w' & Hloop & Hadd');
      [intros q Hq; apply Hok; now right | exact Hadd1 |].
    exists w'. cbn [add_images_loop]. rewrite Hval. cbn [negb].
    unfold bind at 1, try_except, bind at 1. rewrite Hrun. unfold ret at 1.
    rewrite Hloop. cbn [length]. split.
    + do 3 f_equal. lia.
    + rewrite <- app_assoc in Hadd'. cbn [app] in Hadd'.
      replace (k + S (length paths))%nat with (S k + length paths)%nat by lia.
      exact Hadd'.
Qed.

Lemma NoDup_map_injective {A B} (f : A -> B) l :
  (forall a b, f a = f b -> a = b) -> NoDup l -> NoDup (map f l).
Proof.
  intros Hinj. induction 1 as [|x l Hx _ IH]; cbn [map]; constructor; auto.
  intros Hin. apply in_map_iff in Hin. destruct Hin as (y & Ey & Hy).
  apply Hinj in Ey. now subst.
Qed.

Lemma added_batch_ready cfg dev u k done w :
  (forall a b, uuid4 env a = uuid4 env b -> a = b) ->
  added cfg dev env u k done w ->
  batch_ready (proc w) = true /\
  map Queue.input_path (jobs (proc w)) = done /\
  length (jobs (proc w)) = k /\
  config (proc w) = cfg.
Proof.
  intros Hinj (items & start & Hproc & Hu & Hlen & Hprio & Hids & Hdone).
  rewrite Hproc. unfold jobs. cbn [queue _queue config]. repeat split; auto.
  unfold batch_ready, batch_size, jobs.
  cbn [queue _queue _size status_tracker Status._statuses _processing
       _preview_processed _preview_approved negb].
  rewrite Z.eqb_refl, !length_map, Nat.eqb_refl, !andb_true_r. cbn [andb].
  apply andb_true_iff. split; [apply andb_true_iff; split|].
  - apply NoDup_distinct. rewrite Hids.
    apply NoDup_map_injective; [exact Hinj | apply seq_NoDup].
  - apply forallb_forall. intros x Hx. apply dict_contains_In.
    rewrite map_map. cbn [fst]. rewrite map_id. now apply in_map.
  - apply forallb_forall. intros [i st] Hin.
    apply in_map_iff in Hin. destruct Hin as (j & [= <- <-] & _). reflexivity.
Qed.

(** Adding valid images to a processor that was just constructed gives a
    ready batch holding one job per path, in the order of the paths. *)
Lemma add_images_ready cfg dev u t paths :
  paths <> [] ->
  (forall a b, uuid4 env a = uuid4 env b -> a = b) ->
  (forall p, In p paths ->
     validate_image_file env p = true /\
     exists o o', create_output_path env p (output_dir cfg) "_colorized" = Ok o /\
                  handle_filename_collision env o (overwrite cfg) = Ok o') ->
  exists w',
    add_images env paths (mkWorld (BatchProcessor_init cfg dev) u t) = (Ok tt, w') /\
    batch_ready (proc w') = true /\
    map Queue.input_path (jobs (proc w')) = paths /\
    config (proc w') = cfg.
Proof.
  intros Hne Hinj Hok.
  destruct (add_images_loop_added cfg dev u paths 0 []
              (mkWorld (BatchProcessor_init cfg dev) u t) 0 0 Hinj Hok)
    as (w' & Hloop & Hadd).
  { exists [], None. cbn. repeat split; auto. }
  destruct (added_batch_ready cfg dev u _ _ w' Hinj Hadd) as (Hr & Hin & _ & Hc).
  exists w'. split; [|auto].
  unfold add_images. destruct paths as [|p paths]; [congruence|].
  unfold bind. rewrite Hloop. cbn [fst].
  replace (0 + Z.of_nat (length (p :: paths)) =? 0) with false
    by (symmetry; apply Z.eqb_neq; cbn [length]; lia).
  reflexivity.
Qed.

(** *** Rejection *)

(** After a preview run and its rejection the processing flag is still
    set, so a further [start_processing] on the remaining queue returns at
    once without touching anything. *)
Lemma reject_preview_leaves_processing_set x rest w :
  batch_ready (proc w) = true ->
  preview_mode (config (proc w)) = true ->
  jobs (proc w) = x :: rest ->
  rest <> [] ->
  arrivals env x = [] ->
  exists w1 w2,
    start_processing env w = (Ok tt, w1) /\
    reject_preview w1 = (Ok tt, w2) /\
    is_waiting_for_preview_approval (proc w2) = false /\
    _preview_result (proc w2) = None /\
    jobs (proc w2) = rest /\
    _processing (proc w2) = true /\
    start_processing env w2 = (Ok tt, w2).
Proof.
  intros Hr Hpm Hjobs Hne Harr.
  destruct (start_processing_preview x rest w Hr Hpm Hjobs Harr)
    as (t1 & tc1 & pr & Hrun & _).
  destruct w as [bp u tc]. cbn [proc uuid_calls] in *.
  eexists _, _. split; [exact Hrun|].
  unfold reject_preview. run_get.
  cbn [config set_preview_processed set_preview_result set_status_tracker
       set_queue set_paused set_cancelled set_processing _preview_processed].
  rewrite Hpm. cbn [negb].
  do 2 run_modify. unfold modify_proc. cbn [proc uuid_calls time_calls].
  split; [reflexivity|].
  unfold is_waiting_for_preview_approval, jobs.
  cbn [proc _preview_processed _preview_approved _preview_result _processing
       queue _queue set_preview_processed set_preview_approved
       set_preview_result set_status_tracker set_queue set_paused
       set_cancelled set_processing andb].
  repeat split.
  unfold start_processing. run_get.
  cbn [queue size _size _processing set_preview_processed set_preview_approved
       set_preview_result set_status_tracker set_queue set_paused
       set_cancelled set_processing].
  replace (Z.of_nat (length rest) =? 0) with false
    by (symmetry; apply Z.eqb_neq; destruct rest; [congruence | cbn [length]; lia]).
  reflexivity.
Qed.

End Run.

(** *** The main properties of the processor *)

(** C3. On a ready batch of at least one job, without preview mode and
    without pause or cancel requests, if exactly one job fails to render
    then [start_processing] returns normally, one job is failed and all the
    others are completed, every job is in a terminal state and the batch
    end time is set. *)
Theorem C3_one_failure_does_not_abort :
  forall (env : Env) (w : World),
    batch_ready (proc w) = true ->
    preview_mode (config (proc w)) = false ->
    1 <= batch_size (proc w) ->
    no_arrivals env (jobs (proc w)) = true ->
    failures env (jobs (proc w)) = 1 ->
    exists w',
      start_processing env w = (Ok tt, w') /\
      let s := Status.get_summary (status_tracker (proc w')) in
      Status.failed s = 1 /\
      Status.completed s = batch_size (proc w) - 1 /\
      Status.pending s = 0 /\ Status.processing s = 0 /\
      Status.cancelled s = 0 /\
      Status.total s = batch_size (proc w) /\
      Status.s_end_time s <> None /\
      (forall x, In x (jobs (proc w)) ->
         is_terminal (status_tracker (proc w')) (Queue.id x) = true) /\
      size (queue (proc w')) = 0 /\
      _processing (proc w') = false.
Proof.
  intros env w Hr Hpm Hn Hna Hf.
  assert (Hne : jobs (proc w) <> []).
  { unfold batch_size in Hn. destruct (jobs (proc w)); [cbn in Hn; lia | discriminate]. }
  destruct (start_processing_drains env w Hr Hpm Hne Hna) as (t' & tc' & Hrun & Hbm).
  destruct (drained_summary env (proc w) t' Hr Hne Hbm)
    as (D1 & D2 & D3 & D4 & D5 & D6 & D7 & D8).
  destruct (batch_ready_facts (proc w) Hr) as (_ & _ & _ & _ & _ & Hproc & _).
  eexists. split; [exact Hrun|].
  cbn [proc status_tracker set_status_tracker queue set_queue size _size
       _processing set_paused set_cancelled].
  rewrite Hf in D1, D2. repeat split; auto.
Qed.

Lemma C3_one_failure_does_not_abort_witness :
  exists w',
    start_processing (demo_env "id-1" "none") (demo_world false) = (Ok tt, w') /\
    let s := Status.get_summary (status_tracker (proc w')) in
    Status.failed s = 1 /\
    Status.completed s = batch_size (proc (demo_world false)) - 1 /\
    Status.pending s = 0 /\ Status.processing s = 0 /\
    Status.cancelled s = 0 /\
    Status.total s = batch_size (proc (demo_world false)) /\
    Status.s_end_time s <> None /\
    (forall x, In x (jobs (proc (demo_world false))) ->
       is_terminal (status_tracker (proc w')) (Queue.id x) = true) /\
    size (queue (proc w')) = 0 /\
    _processing (proc w') = false.
Proof.
  apply (C3_one_failure_does_not_abort (demo_env "id-1" "none") (demo_world false));
    vm_compute; congruence.
Defined.

(** C5. On a ready batch of at least two jobs with preview mode on, all
    renders succeeding and no control call arriving: the first
    [start_processing] leaves exactly one job terminal and the others
    pending in the queue, waiting for approval; [approve_preview] then runs
    the rest, after which every job is terminal and the processor no longer
    waits for approval. *)
Theorem C5_preview_then_approve :
  forall (env : Env) (w : World) (x : ImageQueueItem) (rest : list ImageQueueItem),
    batch_ready (proc w) = true ->
    preview_mode (config (proc w)) = true ->
    jobs (proc w) = x :: rest ->
    2 <= batch_size (proc w) ->
    no_arrivals env (jobs (proc w)) = true ->
    failures env (jobs (proc w)) = 0 ->
    exists w1,
      start_processing env w = (Ok tt, w1) /\
      (let t := status_tracker (proc w1) in
       let s := Status.get_summary t in
       Status.completed s + Status.failed s + Status.cancelled s = 1 /\
       Status.pending s = batch_size (proc w) - 1 /\
       Status.processing s = 0 /\
       is_terminal t (Queue.id x) = true /\
       jobs (proc w1) = rest /\
       size (queue (proc w1)) = batch_size (proc w) - 1 /\
       (forall y, In y rest -> Status.state_of t (Queue.id y) = Some "pending") /\
       is_waiting_for_preview_approval (proc w1) = true) /\
      exists w2,
        approve_preview env w1 = (Ok tt, w2) /\
        (let t := status_tracker (proc w2) in
         let s := Status.get_summary t in
         Status.completed s = batch_size (proc w) /\
         Status.pending s = 0 /\ Status.processing s = 0 /\
         (forall y, In y (x :: rest) -> is_terminal t (Queue.id y) = true) /\
         jobs (proc w2) = [] /\
         is_waiting_for_preview_approval (proc w2) = false).
Proof.
  intros env w x rest Hr Hpm Hjobs Hn Hna Hf.
  destruct (batch_ready_facts (proc w) Hr) as (Hq & Hnd & Hpend & Hc & _ & Hproc & Hpp & Hpa).
  unfold batch_size in *. rewrite Hjobs in *.
  cbn [no_arrivals forallb] in Hna. apply andb_true_iff in Hna.
  destruct Hna as [Hax Hna].
  destruct (arrivals env x) as [|? ?] eqn:Harr; [clear Hax | discriminate].
  assert (Hrx : is_rendered (render env x) = true /\ failures env rest = 0).
  { unfold failures in *. cbn [filter] in Hf.
    destruct (is_rendered (render env x)); cbn [negb length] in Hf;
      [tauto | rewrite Nat2Z.inj_succ in Hf; lia]. }
  destruct Hrx as [Hrx Hfrest].
  assert (Hfin : final_state (render env x) = "completed")
    by (unfold final_state; now rewrite Hrx).
  destruct (start_processing_preview env x rest w Hr Hpm Hjobs Harr)
    as (t1 & tc1 & pr & Hrun & Hmv).
  rewrite Hfin in Hmv. destruct Hmv as (A1 & A2 & A3 & A4 & A5).
  cbn [map] in Hnd. inversion Hnd as [|? ? Hnin Hnd']; subst.
  assert (Hpend1 : forall y, In y rest -> Status.state_of t1 (Queue.id y) = Some "pending").
  { intros y Hy. rewrite A2; [apply Hpend; now right|].
    intros Heq. apply Hnin. rewrite <- Heq. now apply in_map. }
  assert (Hrest : rest <> []).
  { destruct rest; [cbn [length] in Hn; lia | discriminate]. }
  eexists. split; [exact Hrun|].
  destruct (StatusFacts.summary_fields t1) as (S1 & S2 & S3 & S4 & S5 & _).
  split.
  { unfold is_waiting_for_preview_approval, jobs, size.
    cbn [proc status_tracker set_status_tracker set_preview_processed
         set_preview_result jobs queue set_queue _queue size _size
         is_waiting_for_preview_approval _preview_processed _preview_approved
         set_paused set_cancelled set_processing].
    cbv zeta. rewrite S1, S2, S3, S4, S5, !A3, !Hc, Hpa.
    cbv [String.eqb Ascii.eqb Bool.eqb Z.b2z andb negb].
    cbn [length] in *. rewrite Nat2Z.inj_succ in *.
    repeat split; auto; try lia.
    unfold is_terminal. now rewrite A1. }
  match goal with
  | |- exists w2, approve_preview env ?w1 = _ /\ _ =>
      destruct (approve_preview_drains env rest w1) as (t2 & tc2 & Hrun2 & Hbm)
  end; auto.
  destruct Hbm as (B1 & B2 & B3 & B4 & B5).
  cbn [proc status_tracker set_status_tracker set_preview_processed
       set_preview_result] in B1, B2, B3, B4, B5.
  eexists. split; [exact Hrun2|].
  destruct (StatusFacts.summary_fields t2) as (T1 & T2 & T3 & T4 & T5 & _).
  destruct (count_fin_render env rest) as (F1 & F2 & F3 & F4 & F5).
  unfold is_waiting_for_preview_approval, jobs.
  cbn [proc status_tracker set_status_tracker set_processing jobs queue set_queue
       _queue is_waiting_for_preview_approval _preview_processed _preview_approved
       set_preview_approved set_preview_processed set_preview_result].
  cbv zeta. rewrite T1, T2, T3, !B3, !A3, !Hc, F2, F3, F4, Hfrest.
  cbv [String.eqb Ascii.eqb Bool.eqb Z.b2z andb negb].
  cbn [length] in *. rewrite Nat2Z.inj_succ in *.
  repeat split; auto; try lia.
  intros y [<- | Hy]; unfold is_terminal.
  - rewrite B2 by exact Hnin. now rewrite A1.
  - rewrite (B1 y Hy). unfold final_state.
    destruct (is_rendered (render env y)); reflexivity.
Qed.

Lemma C5_preview_then_approve_witness :
  exists w1,
    start_processing (demo_env "none" "none") (demo_world true) = (Ok tt, w1) /\
    (let t := status_tracker (proc w1) in
     let s := Status.get_summary t in
     Status.completed s + Status.failed s + Status.cancelled s = 1 /\
     Status.pending s = batch_size (proc (demo_world true)) - 1 /\
     Status.processing s = 0 /\
     is_terminal t "id-0" = true /\
     jobs (proc w1) = tl (jobs (proc (demo_world true))) /\
     size (queue (proc w1)) = batch_size (proc (demo_world true)) - 1 /\
     (forall y, In y (tl (jobs (proc (demo_world true)))) ->
        Status.state_of t (Queue.id y) = Some "pending") /\
     is_waiting_for_preview_approval (proc w1) = true) /\
    exists w2,
      approve_preview (demo_env "none" "none") w1 = (Ok tt, w2) /\
      (let t := status_tracker (proc w2) in
       let s := Status.get_summary t in
       Status.completed s = batch_size (proc (demo_world true)) /\
       Status.pending s = 0 /\ Status.processing s = 0 /\
       (forall y,
          In y (mkItem "id-0" "a.png" "out/a.png_colorized" None 0
                  (Some "line_art") None
                :: tl (jobs (proc (demo_world true)))) ->
          is_terminal t (Queue.id y) = true) /\
       jobs (proc w2) = [] /\
       is_waiting_for_preview_approval (proc w2) = false).
Proof.
  apply (C5_preview_then_approve (demo_env "none" "none") (demo_world true)
           (mkItem "id-0" "a.png" "out/a.png_colorized" None 0 (Some "line_art") None)
           (tl (jobs (proc (demo_world true)))));
    vm_compute; congruence.
Defined.

(** C6 fails on the code: [reject_preview] resets the three preview fields
    and leaves [_processing] as the preview run left it, that is set.  On
    the three-job batch, after the preview run and the rejection two jobs
    are still queued, the processor no longer waits for approval, yet
    [start_processing] returns at once and changes nothing. *)
Theorem C6_reject_leaves_processing_set :
  let env := demo_env "none" "none" in
  let w1 := snd (start_processing env (demo_world true)) in
  let w2 := snd (reject_preview w1) in
  fst (start_processing env (demo_world true)) = Ok tt /\
  is_waiting_for_preview_approval (proc w1) = true /\
  fst (reject_preview w1) = Ok tt /\
  is_waiting_for_preview_approval (proc w2) = false /\
  _preview_result (proc w2) = None /\
  size (queue (proc w2)) = 2 /\
  _processing (proc w2) = true /\
  start_processing env w2 = (Ok tt, w2) /\
  Status.pending (Status.get_summary (status_tracker (proc w2))) = 2.
Proof. vm_compute. repeat split; reflexivity. Qed.

(** C8. When processing is not active [pause_processing] and
    [cancel_processing] return the processor unchanged and log one warning;
    when the paused flag is not set [resume_processing] returns normally,
    leaves everything unchanged and logs one warning. *)
Theorem C8_control_calls_are_noops :
  forall (env : Env) (w : World),
    (_processing (proc w) = false ->
     pause_processing (proc w)
     = (proc w, [(WARNING, "Cannot pause: processing is not active")]) /\
     cancel_processing (proc w)
     = (proc w, [(WARNING, "Cannot cancel: processing is not active")])) /\
    (_paused (proc w) = false ->
     resume_processing env w
     = ((Ok tt, w), [(WARNING, "Cannot resume: processing is not paused")])).
Proof.
  intros env w. split.
  - intros H. unfold pause_processing, cancel_processing. now rewrite H.
  - intros H. unfold resume_processing. now rewrite H.
Qed.

Lemma C8_control_calls_are_noops_witness :
  (pause_processing (proc (demo_world false))
   = (proc (demo_world false), [(WARNING, "Cannot pause: processing is not active")]) /\
   cancel_processing (proc (demo_world false))
   = (proc (demo_world false), [(WARNING, "Cannot cancel: processing is not active")])) /\
  resume_processing (demo_env "none" "none") (demo_world false)
  = ((Ok tt, demo_world false), [(WARNING, "Cannot resume: processing is not paused")]).
Proof.
  destruct (C8_control_calls_are_noops (demo_env "none" "none") (demo_world false))
    as [H1 H2].
  split; [apply H1 | apply H2]; reflexivity.
Defined.

(** Paths that fail the file check are skipped without touching anything. *)
Lemma add_images_loop_all_invalid env paths : forall v i w,
  (forall p, In p paths -> validate_image_file env p = false) ->
  add_images_loop env paths v i w = (Ok (v, i + Z.of_nat (length paths)), w).
Proof.
  induction paths as [|p paths IH]; intros v i w H; cbn [add_images_loop length].
  - unfold ret. now rewrite Z.add_0_r.
  - rewrite (H p (or_introl eq_refl)). cbn [negb].
    rewrite IH by (intros q Hq; apply H; now right).
    do 3 f_equal. lia.
Qed.

(** C9. [add_images] raises [ValidationError] when given no path or only
    paths that fail the file check, and [start_processing] raises
    [BatchProcessingError] on an empty queue; in each case nothing at all
    has changed: queue, tracker, control flags and preview state are as
    they were. *)
Theorem C9_setup_errors_change_nothing :
  forall (env : Env) (w : World) (image_paths : list string),
    (forall p, In p image_paths -> validate_image_file env p = false) ->
    add_images env image_paths w
    = (Raise (ValidationError (no_valid_image_message image_paths)), w) /\
    (size (queue (proc w)) = 0 ->
     start_processing env w
     = (Raise (BatchProcessingError "Cannot start processing: queue is empty"), w)).
Proof.
  intros env w paths H. split.
  - destruct paths as [|p paths].
    + reflexivity.
    + unfold add_images, bind.
      rewrite add_images_loop_all_invalid by exact H.
      cbn [fst snd Z.eqb]. reflexivity.
  - intros Hs. unfold start_processing, bind, get_proc. now rewrite Hs.
Qed.

Lemma C9_setup_errors_change_nothing_witness :
  add_images rejecting_env ["notes.txt"; "missing.png"] fresh_world
  = (Raise (ValidationError "No valid images added. 2 images were invalid."),
     fresh_world) /\
  (size (queue (proc fresh_world)) = 0 ->
   start_processing rejecting_env fresh_world
   = (Raise (BatchProcessingError "Cannot start processing: queue is empty"),
      fresh_world)).
Proof.
  apply (C9_setup_errors_change_nothing rejecting_env fresh_world
           ["notes.txt"; "missing.png"]).
  intros p _. reflexivity.
Defined.

End ProcessorFacts.

(** * Further properties of the queue *)

Module QueueMore.
Import Queue QueueSpec QueueCalls.

Lemma insert_sorted_split item l :
  StronglySorted prio_ge l ->
  exists front back,
    l = front ++ back /\
    insert_sorted item l = front ++ item :: back /\
    Forall (fun y => priority item <= priority y) front /\
    Forall (fun y => priority y < priority item) back.
Proof.
  induction l as [|y l IH]; intros Hs.
  - exists [], []. repeat split; constructor.
  - inversion Hs as [|? ? Hs' Hall]; subst. cbn [insert_sorted].
    destruct (priority item >? priority y) eqn:E.
    + exists [], (y :: l). repeat split; [constructor|].
      constructor; [lia|].
      eapply Forall_impl; [|exact Hall]. unfold prio_ge. intros; lia.
    + destruct (IH Hs') as (front & back & H1 & H2 & H3 & H4).
      exists (y :: front), back. cbn [app]. rewrite <- H1, H2.
      repeat split; auto. constructor; [lia | exact H3].
Qed.

Lemma run_call_inv q c :
  size_ok q -> StronglySorted prio_ge (_queue q) ->
  exists q', run_call q c = Ok q' /\
             size_ok q' /\ StronglySorted prio_ge (_queue q').
Proof.
  intros Hsz Hs. destruct c as [item| |]; cbn [run_call].
  - eexists; split; [reflexivity|]. split.
    + now apply QueueFacts.enqueue_size_ok.
    + rewrite QueueFacts.enqueue_queue. now apply QueueFacts.insert_sorted_sorted.
  - unfold dequeue. destruct q as [l sz]. unfold size_ok in Hsz. cbn [_queue _size] in *.
    destruct (sz =? 0) eqn:E.
    + eexists; split; [reflexivity|]. split; assumption.
    + destruct l as [|x l]; [cbn in Hsz; lia|].
      eexists; split; [reflexivity|]. split.
      * unfold size_ok. cbn [_queue _size length] in *. lia.
      * cbn [_queue]. now inversion Hs.
  - eexists; split; [reflexivity|]. split; [reflexivity | constructor].
Qed.

Lemma run_calls_inv cs : forall q,
  size_ok q -> StronglySorted prio_ge (_queue q) ->
  exists q', run_calls q cs = Ok q' /\
             size_ok q' /\ StronglySorted prio_ge (_queue q').
Proof.
  induction cs as [|c cs IH]; intros q Hsz Hs; cbn [run_calls].
  - eauto.
  - destruct (run_call_inv q c Hsz Hs) as (q1 & -> & Hsz1 & Hs1). now apply IH.
Qed.

(** Whatever calls are made on a fresh queue, none raises, [size()] is the
    number of items held, [bool(queue)] tells whether there is one, and the
    items are held in non-increasing priority. *)
Theorem queue_calls_keep_order_and_size :
  forall cs : list call,
    exists q,
      run_calls ImageQueue_init cs = Ok q /\
      size q = Z.of_nat (length (iter q)) /\
      len q = size q /\
      (bool_of q = true <-> iter q <> []) /\
      StronglySorted prio_ge (iter q).
Proof.
  intros cs.
  destruct (run_calls_inv cs ImageQueue_init) as (q & Hrun & Hsz & Hs);
    [reflexivity | constructor |].
  exists q. unfold size, len, iter, bool_of. unfold size_ok in Hsz.
  repeat split; auto.
  - intros H Hnil. apply Z.gtb_lt in H. rewrite Hsz, Hnil in H. cbn in H. lia.
  - intros Hne. apply Z.gtb_lt. rewrite Hsz.
    destruct (_queue q); [congruence | cbn [length]; lia].
Qed.

(** On a queue whose size field is right, [peek] returns what the next
    [dequeue] returns; on an empty queue both return [None] and nothing
    changes, otherwise [dequeue] removes exactly the first item and
    [size()] goes down by one. *)
Theorem peek_agrees_with_dequeue :
  forall q : ImageQueue,
    size_ok q ->
    exists r q',
      dequeue q = Ok (r, q') /\
      peek q = Ok r /\
      size_ok q' /\
      match r with
      | None => q' = q /\ iter q = [] /\ size q = 0
      | Some x => iter q = x :: iter q' /\ size q' = size q - 1
      end.
Proof.
  intros [l sz] Hsz. unfold size_ok in Hsz. cbn [_queue _size] in Hsz.
  unfold dequeue, peek, iter, size. cbn [_queue _size].
  destruct (sz =? 0) eqn:E.
  - exists None, (mkQueue l sz). apply Z.eqb_eq in E.
    repeat split; auto. destruct l; [reflexivity | cbn [length] in Hsz; lia].
  - destruct l as [|x l]; [cbn in Hsz; apply Z.eqb_neq in E; lia|].
    exists (Some x), (mkQueue l (sz - 1)).
    repeat split. unfold size_ok. cbn [_queue _size length] in *. lia.
Qed.

Lemma peek_agrees_with_dequeue_witness :
  exists r q',
    dequeue (enqueue_all ImageQueue_init [item_A; item_B; item_C]) = Ok (r, q') /\
    peek (enqueue_all ImageQueue_init [item_A; item_B; item_C]) = Ok r /\
    size_ok q' /\
    match r with
    | None => q' = enqueue_all ImageQueue_init [item_A; item_B; item_C] /\
              iter (enqueue_all ImageQueue_init [item_A; item_B; item_C]) = [] /\
              size (enqueue_all ImageQueue_init [item_A; item_B; item_C]) = 0
    | Some x => iter (enqueue_all ImageQueue_init [item_A; item_B; item_C])
                = x :: iter q' /\
                size q' = size (enqueue_all ImageQueue_init [item_A; item_B; item_C]) - 1
    end.
Proof.
  apply (peek_agrees_with_dequeue (enqueue_all ImageQueue_init [item_A; item_B; item_C])).
  reflexivity.
Defined.

(** After any calls on a fresh queue, the item [dequeue] returns has a
    priority at least as high as every item left in the queue. *)
Theorem dequeue_returns_highest_priority :
  forall (cs : list call) (q q' : ImageQueue) (x : ImageQueueItem),
    run_calls ImageQueue_init cs = Ok q ->
    dequeue q = Ok (Some x, q') ->
    Forall (fun y => priority y <= priority x) (iter q').
Proof.
  intros cs q q' x Hrun Hdq.
  destruct (run_calls_inv cs ImageQueue_init) as (q0 & Hrun0 & Hsz & Hs);
    [reflexivity | constructor |].
  rewrite Hrun in Hrun0. injection Hrun0 as <-.
  revert Hdq. unfold dequeue, iter.
  destruct (_size q =? 0); [discriminate|].
  destruct (_queue q) as [|y l] eqn:El; [discriminate|].
  intros [= -> <-]. cbn [_queue]. now inversion Hs.
Qed.

Lemma dequeue_returns_highest_priority_witness :
  Forall (fun y => priority y <= priority item_B)
         (iter (mkQueue [item_A; item_C] 2)).
Proof.
  apply (dequeue_returns_highest_priority
           [Call_enqueue item_A; Call_dequeue; Call_enqueue item_A;
            Call_enqueue item_B; Call_enqueue item_C]
           (mkQueue [item_B; item_A; item_C] 3)); reflexivity.
Defined.

(** [enqueue] on a queue in non-increasing priority puts the new item
    behind every item whose priority is at least its own and ahead of every
    item of lower priority; the items already queued keep their order. *)
Theorem enqueue_goes_behind_equal_priority :
  forall (q : ImageQueue) (item : ImageQueueItem),
    StronglySorted prio_ge (iter q) ->
    exists front back,
      iter q = front ++ back /\
      iter (enqueue q item) = front ++ item :: back /\
      Forall (fun y => priority item <= priority y) front /\
      Forall (fun y => priority y < priority item) back /\
      size (enqueue q item) = size q + 1.
Proof.
  intros q item Hs. unfold iter in *.
  destruct (insert_sorted_split item (_queue q) Hs) as (front & back & H1 & H2 & H3 & H4).
  exists front, back. rewrite QueueFacts.enqueue_queue. repeat split; auto.
Qed.

Lemma enqueue_goes_behind_equal_priority_witness :
  exists front back,
    iter (mkQueue [item_B; item_A] 2) = front ++ back /\
    iter (enqueue (mkQueue [item_B; item_A] 2) item_C) = front ++ item_C :: back /\
    Forall (fun y => priority item_C <= priority y) front /\
    Forall (fun y => priority y < priority item_C) back /\
    size (enqueue (mkQueue [item_B; item_A] 2) item_C)
    = size (mkQueue [item_B; item_A] 2) + 1.
Proof.
  apply (enqueue_goes_behind_equal_priority (mkQueue [item_B; item_A] 2) item_C).
  repeat constructor; unfold prio_ge; cbn; lia.
Defined.

End QueueMore.

(** * Further properties of the status tracker *)

Module StatusMore.
Import Status StatusSpec StatusCalls.

(** *** The dictionary *)

Lemma dict_get_In {V} k (v : V) d : dict_get k d = Some v -> In (k, v) d.
Proof.
  induction d as [|[k' v'] d IH]; cbn [dict_get]; [discriminate|].
  destruct (String.eqb k k') eqn:E.
  - intros [= ->]. apply String.eqb_eq in E. subst. now left.
  - intros H. right. auto.
Qed.

Lemma In_dict_get {V} k (v : V) d :
  NoDup (map fst d) -> In (k, v) d -> dict_get k d = Some v.
Proof.
  induction d as [|[k' v'] d IH]; cbn [map fst dict_get In]; [tauto|].
  intros Hnd [H | H]; inversion Hnd as [|? ? Hnin Hnd']; subst.
  - injection H as -> ->. now rewrite String.eqb_refl.
  - destruct (String.eqb k k') eqn:E; [|auto].
    apply String.eqb_eq in E. subst k'. exfalso. apply Hnin.
    change k with (fst (k, v)). now apply in_map.
Qed.

Lemma dict_set_keys {V} k (v : V) d :
  dict_contains k d = true -> map fst (dict_set k v d) = map fst d.
Proof.
  induction d as [|[k' v'] d IH]; cbn; [discriminate|].
  destruct (String.eqb k k'); cbn; [reflexivity|]. intros H. now rewrite IH.
Qed.

Lemma dict_set_Forall {V} (P : string * V -> Prop) k v d :
  Forall P d -> P (k, v) -> Forall P (dict_set k v d).
Proof.
  intros Hd Hv. induction Hd as [|[k' v'] d Hx Hd IH]; cbn [dict_set].
  - repeat constructor. exact Hv.
  - destruct (String.eqb k k') eqn:E; constructor; auto.
    apply String.eqb_eq in E. now subst.
Qed.

Lemma dict_contains_get {V} k (d : dict V) :
  dict_contains k d = false <-> dict_get k d = None.
Proof.
  induction d as [|[k' v'] d IH]; cbn; [tauto|].
  destruct (String.eqb k k'); cbn; [split; discriminate | exact IH].
Qed.

(** *** A property of every stored status is kept by all calls *)

Lemma run_call_Forall (P : string * ProcessingStatus -> Prop) :
  (forall i, P (i, new_status i)) ->
  (forall i st s e o now,
     P (i, st) -> str_in s valid_states = true ->
     P (i, apply_update st s e o now)) ->
  forall t c t',
    Forall P (_statuses t) -> run_call t c = Ok t' -> Forall P (_statuses t').
Proof.
  intros Hnew Hupd t c t' Hall. destruct c as [i now | i s e o now |]; cbn [run_call].
  - unfold add_image, ProcessingStatus_new.
    destruct (dict_contains i (_statuses t)); [discriminate|].
    cbn. intros [= <-]. cbn [_statuses].
    apply dict_set_Forall; [exact Hall | apply Hnew].
  - unfold update_status.
    destruct (dict_get i (_statuses t)) as [st|] eqn:Eg; [|discriminate].
    destruct (str_in s valid_states) eqn:Es; cbn [negb]; [|discriminate].
    intros [= <-]. cbn [_statuses]. apply dict_set_Forall; [exact Hall|].
    apply Hupd; [|exact Es]. rewrite Forall_forall in Hall. apply Hall.
    now apply dict_get_In.
  - intros [= <-]. constructor.
Qed.

Lemma run_calls_Forall (P : string * ProcessingStatus -> Prop) :
  (forall i, P (i, new_status i)) ->
  (forall i st s e o now,
     P (i, st) -> str_in s valid_states = true ->
     P (i, apply_update st s e o now)) ->
  forall cs t, Forall P (_statuses t) -> Forall P (_statuses (run_calls t cs)).
Proof.
  intros Hnew Hupd. induction cs as [|c cs IH]; intros t Hall; cbn [run_calls]; auto.
  destruct (run_call t c) as [t'|e] eqn:E; auto.
  apply IH. eapply run_call_Forall; eauto.
Qed.

Lemma run_call_keys t c t' :
  NoDup (map fst (_statuses t)) -> run_call t c = Ok t' ->
  NoDup (map fst (_statuses t')).
Proof.
  intros Hnd. destruct c as [i now | i s e o now |]; cbn [run_call].
  - unfold add_image, ProcessingStatus_new.
    destruct (dict_contains i (_statuses t)) eqn:Ec; [discriminate|].
    cbn. intros [= <-]. cbn [_statuses].
    rewrite ProcessorFacts.dict_set_new by exact Ec.
    rewrite map_app. cbn [map fst].
    apply NoDup_app; [exact Hnd | repeat constructor; cbn; tauto |].
    intros x Hx [<- | []]. apply ProcessorFacts.dict_contains_In in Hx. congruence.
  - unfold update_status.
    destruct (dict_get i (_statuses t)) as [st|] eqn:Eg; [|discriminate].
    destruct (str_in s valid_states); cbn [negb]; [|discriminate].
    intros [= <-]. cbn [_statuses].
    rewrite dict_set_keys; [exact Hnd | eapply StatusFacts.dict_get_contains; eauto].
  - intros [= <-]. constructor.
Qed.

Lemma run_calls_keys cs : forall t,
  NoDup (map fst (_statuses t)) -> NoDup (map fst (_statuses (run_calls t cs))).
Proof.
  induction cs as [|c cs IH]; intros t Hnd; cbn [run_calls]; auto.
  destruct (run_call t c) as [t'|e] eqn:E; auto.
  apply IH. eapply run_call_keys; eauto.
Qed.

Lemma reachable_keys_ok cs : keys_ok (_statuses (run_calls StatusTracker_init cs)).
Proof.
  split.
  - apply run_calls_keys. constructor.
  - apply (run_calls_Forall (fun kv => id (snd kv) = fst kv)).
    + reflexivity.
    + intros i st s e o now H _. exact H.
    + constructor.
Qed.

(** On a tracker reached through any calls, every tracked id is held once,
    and [get_status] returns a status that carries the id asked for and is
    the one listed under that id. *)
Theorem tracker_keys_distinct :
  forall cs : list call,
    let t := run_calls StatusTracker_init cs in
    NoDup (map fst (_statuses t)) /\
    len t = Z.of_nat (length (map fst (_statuses t))) /\
    (forall i st, get_status t i = Ok st <-> In (i, st) (_statuses t)) /\
    (forall i st, get_status t i = Ok st -> id st = i).
Proof.
  intros cs t. destruct (reachable_keys_ok cs) as [Hnd Hid]. fold t in Hnd, Hid.
  assert (Hget : forall i st, get_status t i = Ok st <-> In (i, st) (_statuses t)).
  { intros i st. unfold get_status. split.
    - destruct (dict_get i (_statuses t)) eqn:E; [|discriminate].
      intros [= ->]. now apply dict_get_In.
    - intros Hin. now rewrite (In_dict_get i st _ Hnd Hin). }
  repeat split; auto.
  - unfold len. now rewrite length_map.
  - apply Hget.
  - apply Hget.
  - intros i st H. apply Hget in H. rewrite Forall_forall in Hid.
    apply (Hid (i, st) H).
Qed.

(** *** Adding and updating one job *)

(** [add_image] on an id that is not tracked stores a pending status with
    no times, error or output path under that id, leaves every other job
    as it was, raises the number of tracked jobs and the pending count by
    one, and the batch start time is set afterwards.  On a tracked id it
    raises [ValueError]. *)
Theorem add_image_tracks_pending :
  forall (t : StatusTracker) (i : string) (now : timestamp),
    (dict_get i (_statuses t) = None ->
     exists t',
       add_image t i now = Ok t' /\
       get_status t' i = Ok (mkStatus i "pending" None None None None) /\
       (forall j, j <> i -> get_status t' j = get_status t j) /\
       len t' = len t + 1 /\
       pending (get_summary t') = pending (get_summary t) + 1 /\
       _batch_start_time t' <> None /\
       _batch_end_time t' = _batch_end_time t) /\
    (dict_get i (_statuses t) <> None ->
     exists msg, add_image t i now = Raise (ValueError msg)).
Proof.
  intros t i now. split.
  - intros Hnone. apply dict_contains_get in Hnone.
    unfold add_image, ProcessingStatus_new. rewrite Hnone. cbn.
    eexists. split; [reflexivity|].
    unfold get_status, len. cbn [_statuses _batch_start_time _batch_end_time].
    rewrite ProcessorFacts.dict_set_new by exact Hnone.
    repeat split.
    + replace (dict_get i (_statuses t ++ [(i, mkStatus i "pending" None None None None)]))
        with (Some (mkStatus i "pending" None None None None)); [reflexivity|].
      symmetry. clear - Hnone. induction (_statuses t) as [|[k v] d IH]; cbn in *.
      * now rewrite String.eqb_refl.
      * destruct (String.eqb i k); [discriminate | auto].
    + intros j Hj.
      replace (dict_get j (_statuses t ++ [(i, mkStatus i "pending" None None None None)]))
        with (dict_get j (_statuses t)); [reflexivity|].
      clear - Hj. induction (_statuses t) as [|[k v] d IH]; cbn.
      * destruct (String.eqb j i) eqn:E; [|reflexivity].
        apply String.eqb_eq in E. contradiction.
      * destruct (String.eqb j k); auto.
    + rewrite length_app. cbn [length]. lia.
    + destruct (StatusFacts.summary_fields t) as (S1 & _).
      match goal with |- pending (get_summary ?T) = _ =>
        destruct (StatusFacts.summary_fields T) as (S1' & _); rewrite S1' end.
      rewrite S1. unfold count_state. cbn [_statuses].
      rewrite filter_app, length_app. cbn. lia.
    + destruct (_batch_start_time t); discriminate.
  - intros Hsome. unfold add_image.
    destruct (dict_contains i (_statuses t)) eqn:E; [eauto|].
    apply dict_contains_get in E. contradiction.
Qed.

Lemma add_image_tracks_pending_witness :
  (exists t',
     add_image one_done "img-2" 9%Q = Ok t' /\
     get_status t' "img-2" = Ok (mkStatus "img-2" "pending" None None None None) /\
     (forall j, j <> "img-2" -> get_status t' j = get_status one_done j) /\
     len t' = len one_done + 1 /\
     pending (get_summary t') = pending (get_summary one_done) + 1 /\
     _batch_start_time t' <> None /\
     _batch_end_time t' = _batch_end_time one_done) /\
  (exists msg, add_image one_done "img-1" 9%Q = Raise (ValueError msg)).
Proof.
  split.
  - apply (proj1 (add_image_tracks_pending one_done "img-2" 9%Q)). reflexivity.
  - apply (proj2 (add_image_tracks_pending one_done "img-1" 9%Q)). discriminate.
Defined.

(** [update_status] succeeds exactly when the id is tracked and the state
    is one of the five valid values; an id that is not tracked gives
    [KeyError] whatever the state, and a tracked id with another state gives
    [ValueError]. *)
Theorem update_status_succeeds_iff :
  forall (t : StatusTracker) (i s : string) (e o : option string) (now : timestamp),
    ((exists t', update_status t i s e o now = Ok t') <->
     dict_contains i (_statuses t) = true /\ str_in s valid_states = true) /\
    (dict_contains i (_statuses t) = false ->
     update_status t i s e o now
     = Raise (KeyError ("Image " ++ i ++ " is not being tracked"))) /\
    (dict_contains i (_statuses t) = true -> str_in s valid_states = false ->
     exists msg, update_status t i s e o now = Raise (ValueError msg)).
Proof.
  intros t i s e o now. unfold update_status.
  destruct (dict_get i (_statuses t)) as [st|] eqn:Eg.
  - pose proof (StatusFacts.dict_get_contains _ _ _ Eg) as Hc. rewrite Hc.
    destruct (str_in s valid_states); cbn [negb].
    + split; [split; [auto | eauto] | split; discriminate].
    + split; [split|split].
      * intros [t' H]. discriminate.
      * intros [_ H]. discriminate.
      * discriminate.
      * eauto.
  - apply dict_contains_get in Eg. rewrite Eg.
    split; [split|split].
    + intros [t' H]. discriminate.
    + intros [H _]. discriminate.
    + reflexivity.
    + discriminate.
Qed.

Lemma update_status_succeeds_iff_witness :
  ((exists t', update_status one_done "img-1" "failed" None None 5%Q = Ok t') <->
   dict_contains "img-1" (_statuses one_done) = true /\
   str_in "failed" valid_states = true) /\
  update_status one_done "img-7" "done" None None 5%Q
  = Raise (KeyError "Image img-7 is not being tracked") /\
  (exists msg, update_status one_done "img-1" "done" None None 5%Q
               = Raise (ValueError msg)).
Proof.
  split; [|split].
  - apply (update_status_succeeds_iff one_done "img-1" "failed" None None 5%Q).
  - apply (update_status_succeeds_iff one_done "img-7" "done" None None 5%Q).
    reflexivity.
  - apply (update_status_succeeds_iff one_done "img-1" "done" None None 5%Q);
      reflexivity.
Defined.

(** A successful [update_status] changes the status of the named job only:
    the tracked ids and their order, every other status, and the batch start
    time are as before; a batch end time that was set is kept; the job keeps
    its id, and its error message and output path are replaced only by the
    arguments that were given. *)
Theorem update_status_touches_one_job :
  forall (t t' : StatusTracker) (i s : string) (e o : option string)
         (now : timestamp) (st : ProcessingStatus),
    get_status t i = Ok st ->
    update_status t i s e o now = Ok t' ->
    map fst (_statuses t') = map fst (_statuses t) /\
    len t' = len t /\
    (forall j, j <> i -> get_status t' j = get_status t j) /\
    _batch_start_time t' = _batch_start_time t /\
    (forall x, _batch_end_time t = Some x -> _batch_end_time t' = Some x) /\
    exists st',
      get_status t' i = Ok st' /\
      id st' = id st /\
      (e = None -> error_message st' = error_message st) /\
      (o = None -> output_path st' = output_path st) /\
      (forall m, e = Some m -> error_message st' = Some m) /\
      (forall p, o = Some p -> output_path st' = Some p).
Proof.
  intros t t' i s e o now st. unfold get_status, update_status, len.
  destruct (dict_get i (_statuses t)) as [st0|] eqn:Eg; [|discriminate].
  intros [= ->].
  destruct (str_in s valid_states); cbn [negb]; [|discriminate].
  intros [= <-]. cbn [_statuses _batch_start_time _batch_end_time].
  pose proof (StatusFacts.dict_get_contains _ _ _ Eg) as Hc.
  repeat split.
  - now apply dict_set_keys.
  - now rewrite StatusFacts.dict_set_length.
  - intros j Hj. now rewrite StatusFacts.dict_get_set_other.
  - intros x Hx. rewrite Hx. now destruct (is_complete _).
  - exists (apply_update st s e o now).
    rewrite StatusFacts.dict_get_set_same by exact Hc.
    unfold apply_update. cbn [id error_message output_path].
    repeat split; intros; subst; reflexivity.
Qed.

Lemma update_status_touches_one_job_witness :
  exists t',
    update_status one_done "img-1" "failed" (Some "late") None 5%Q = Ok t' /\
    map fst (_statuses t') = map fst (_statuses one_done) /\
    len t' = len one_done /\
    (forall j, j <> "img-1" -> get_status t' j = get_status one_done j) /\
    _batch_start_time t' = _batch_start_time one_done /\
    (forall x, _batch_end_time one_done = Some x -> _batch_end_time t' = Some x) /\
    exists st',
      get_status t' "img-1" = Ok st' /\
      id st' = "img-1" /\
      (Some "late" = None -> error_message st' = None) /\
      (@None string = None -> output_path st' = Some "out/img-1.png") /\
      (forall m, Some "late" = Some m -> error_message st' = Some m) /\
      (forall p, @None string = Some p -> output_path st' = Some p).
Proof.
  eexists. split; [reflexivity|].
  apply (update_status_touches_one_job one_done _ "img-1" "failed"
           (Some "late") None 5%Q
           (mkStatus "img-1" "completed" (Some 2%Q) (Some 3%Q) None
              (Some "out/img-1.png"))); reflexivity.
Defined.

(** *** The batch times *)

Lemma run_call_times t c t' :
  is_clear c = false -> run_call t c = Ok t' ->
  (forall s, _batch_start_time t = Some s -> _batch_start_time t' = Some s) /\
  (forall x, _batch_end_time t = Some x -> _batch_end_time t' = Some x).
Proof.
  destruct c as [i now | i s e o now |]; cbn [run_call is_clear]; intros Hc;
    [| |discriminate].
  - unfold add_image, ProcessingStatus_new.
    destruct (dict_contains i (_statuses t)); [discriminate|].
    cbn. intros [= <-]. cbn. split; [|auto].
    intros s Hs. now rewrite Hs.
  - unfold update_status.
    destruct (dict_get i (_statuses t)) as [st|]; [|discriminate].
    destruct (str_in s valid_states); cbn [negb]; [|discriminate].
    intros [= <-]. cbn [_batch_start_time _batch_end_time]. split; [auto|].
    intros x Hx. rewrite Hx. now destruct (is_complete _).
Qed.

Lemma summary_start_time t :
  s_start_time (get_summary t) = _batch_start_time t.
Proof.
  unfold get_summary.
  assert (H : forall l s, s_start_time (fold_left count_status l s) = s_start_time s).
  { induction l as [|st l IH]; intros s; cbn [fold_left]; auto.
    rewrite IH. apply StatusFacts.count_status_fields. }
  now rewrite H.
Qed.

Lemma summary_end_time t : s_end_time (get_summary t) = _batch_end_time t.
Proof. apply StatusFacts.summary_fields. Qed.

(** Over any calls other than [clear], a batch start time that is set and
    a batch end time that is set are never changed, and so are the two
    times [get_summary] reports. *)
Theorem batch_times_set_once :
  forall (cs : list call) (t : StatusTracker),
    existsb is_clear cs = false ->
    (forall s, _batch_start_time t = Some s ->
               s_start_time (get_summary (run_calls t cs)) = Some s) /\
    (forall x, _batch_end_time t = Some x ->
               s_end_time (get_summary (run_calls t cs)) = Some x).
Proof.
  intros cs t Hc. rewrite summary_start_time, summary_end_time.
  revert t Hc. induction cs as [|c cs IH]; intros t Hc; cbn [run_calls]; [auto|].
  cbn [existsb] in Hc. apply orb_false_iff in Hc. destruct Hc as [Hc Hcs].
  destruct (run_call t c) as [t1|e] eqn:E; [|auto].
  destruct (run_call_times t c t1 Hc E) as [H1 H2].
  destruct (IH t1 Hcs) as [G1 G2]. split; auto.
Qed.

Lemma batch_times_set_once_witness :
  (forall s, _batch_start_time one_done = Some s ->
     s_start_time (get_summary
       (run_calls one_done
          [Call_add_image "img-2" 7%Q;
           Call_update_status "img-2" "cancelled" None None 8%Q])) = Some s) /\
  (forall x, _batch_end_time one_done = Some x ->
     s_end_time (get_summary
       (run_calls one_done
          [Call_add_image "img-2" 7%Q;
           Call_update_status "img-2" "cancelled" None None 8%Q])) = Some x).
Proof.
  apply (batch_times_set_once
           [Call_add_image "img-2" 7%Q;
            Call_update_status "img-2" "cancelled" None None 8%Q] one_done).
  reflexivity.
Defined.

(** *** What holds of every tracker a client can reach *)

(** On a tracker reached through any calls, the state of every status is
    one of the five valid values, and a status in a terminal state has its
    end time set. *)
Theorem terminal_jobs_have_end_time :
  forall (cs : list call) (i : string) (st : ProcessingStatus),
    get_status (run_calls StatusTracker_init cs) i = Ok st ->
    str_in (state st) valid_states = true /\
    (is_terminal_state st = true -> end_time st <> None).
Proof.
  intros cs i st. unfold get_status.
  destruct (dict_get i _) as [st0|] eqn:Eg; [|discriminate].
  intros [= ->].
  assert (H : Forall
                (fun kv => str_in (state (snd kv)) valid_states = true /\
                           (is_terminal_state (snd kv) = true ->
                            end_time (snd kv) <> None))
                (_statuses (run_calls StatusTracker_init cs))).
  { apply run_calls_Forall.
    - intros j. split; [reflexivity | discriminate].
    - intros j st0 s e o now _ Hs. cbn [snd]. split; [exact Hs|].
      unfold is_terminal_state, apply_update. cbn [state end_time].
      intros ->. destruct (end_time st0); discriminate.
    - constructor. }
  rewrite Forall_forall in H. apply (H (i, st) (dict_get_In _ _ _ Eg)).
Qed.

Lemma terminal_jobs_have_end_time_witness :
  str_in "completed" valid_states = true /\
  (is_terminal_state
     (mkStatus "img-1" "completed" (Some 2%Q) (Some 3%Q) None (Some "out/img-1.png"))
   = true -> Some 3%Q <> None).
Proof.
  apply (terminal_jobs_have_end_time completed_job_calls "img-1"
           (mkStatus "img-1" "completed" (Some 2%Q) (Some 3%Q) None
              (Some "out/img-1.png"))).
  reflexivity.
Defined.

Lemma filter_keys_NoDup {V} (f : string * V -> bool) (d : dict V) :
  NoDup (map fst d) -> NoDup (map fst (filter f d)).
Proof.
  induction d as [|kv d IH]; cbn [map filter]; intros Hnd; [constructor|].
  inversion Hnd as [|? ? Hnin Hnd']; subst.
  destruct (f kv); cbn [map]; [constructor|]; auto.
  intros Hin. apply Hnin. apply in_map_iff in Hin.
  destruct Hin as (x & Ex & Hx). apply filter_In in Hx.
  rewrite <- Ex. apply in_map. tauto.
Qed.

(** On a tracker reached through any calls, [get_images_by_state] lists,
    without repetition, exactly the ids whose status has the given state,
    and for each of the five states the length of that list is the count
    [get_summary] reports. *)
Theorem images_by_state_match_summary :
  forall cs : list call,
    let t := run_calls StatusTracker_init cs in
    let n s := Z.of_nat (length (get_images_by_state t s)) in
    (forall s, NoDup (get_images_by_state t s)) /\
    (forall i s, In i (get_images_by_state t s) <->
                 exists st, get_status t i = Ok st /\ state st = s) /\
    n "pending" = pending (get_summary t) /\
    n "processing" = processing (get_summary t) /\
    n "completed" = completed (get_summary t) /\
    n "failed" = failed (get_summary t) /\
    n "cancelled" = cancelled (get_summary t).
Proof.
  intros cs t n. destruct (reachable_keys_ok cs) as [Hnd _]. fold t in Hnd.
  split; [|split].
  - intros s. unfold get_images_by_state. now apply filter_keys_NoDup.
  - intros i s. unfold get_images_by_state, get_status. rewrite in_map_iff. split.
    + intros ([k st] & Ek & Hin). cbn [fst] in Ek. subst k.
      apply filter_In in Hin. destruct Hin as [Hin Hs]. cbn [snd] in Hs.
      exists st. rewrite (In_dict_get i st _ Hnd Hin).
      split; [reflexivity | now apply String.eqb_eq].
    + intros (st & Hget & Hs).
      destruct (dict_get i (_statuses t)) as [st0|] eqn:Eg; [|discriminate].
      injection Hget as ->. exists (i, st). split; [reflexivity|].
      apply filter_In. split; [now apply dict_get_In|].
      cbn [snd]. now apply String.eqb_eq.
  - destruct (StatusFacts.summary_fields t) as (S1 & S2 & S3 & S4 & S5 & _).
    unfold n, get_images_by_state. rewrite !length_map.
    rewrite S1, S2, S3, S4, S5. unfold count_state. repeat split.
Qed.

Lemma filter_length_zero {A} (f : A -> bool) l :
  length (filter f l) = 0%nat <-> Forall (fun x => f x = false) l.
Proof.
  induction l as [|x l IH]; cbn [filter]; [split; constructor|].
  destruct (f x) eqn:E; cbn [length].
  - split; [discriminate|]. intros H. inversion H. congruence.
  - rewrite IH. split; [now constructor | intros H; now inversion H].
Qed.

Lemma reachable_valid cs : states_valid (_statuses (run_calls StatusTracker_init cs)).
Proof. apply StatusFacts.run_calls_valid. constructor. Qed.

Lemma complete_iff_counts t :
  states_valid (_statuses t) ->
  is_complete (get_summary t) = true <->
  count_state "pending" t = 0 /\ count_state "processing" t = 0.
Proof.
  intros Hv. destruct (StatusFacts.get_summary_sum t Hv) as [Hsum _].
  destruct (StatusFacts.summary_fields t) as (S1 & S2 & _).
  unfold is_complete, count_sum in *. rewrite Z.eqb_eq, <- S1, <- S2.
  assert (0 <= pending (get_summary t)) by (rewrite S1; unfold count_state; lia).
  assert (0 <= processing (get_summary t)) by (rewrite S2; unfold count_state; lia).
  lia.
Qed.

(** On a tracker reached through any calls, the summary is complete
    exactly when no job is pending or processing, that is when every
    tracked status is in a terminal state. *)
Theorem complete_iff_all_terminal :
  forall cs : list call,
    let t := run_calls StatusTracker_init cs in
    (is_complete (get_summary t) = true <->
     pending (get_summary t) = 0 /\ processing (get_summary t) = 0) /\
    (is_complete (get_summary t) = true <->
     forall i st, get_status t i = Ok st -> is_terminal_state st = true).
Proof.
  intros cs t. pose proof (reachable_valid cs) as Hv. fold t in Hv.
  destruct (reachable_keys_ok cs) as [Hnd _]. fold t in Hnd.
  destruct (StatusFacts.summary_fields t) as (S1 & S2 & _).
  rewrite S1, S2. split; [now apply complete_iff_counts|].
  rewrite (complete_iff_counts t Hv). unfold count_state.
  change 0 with (Z.of_nat 0). rewrite !Nat2Z.inj_iff, !filter_length_zero.
  unfold states_valid in Hv. rewrite !Forall_forall in *. split.
  - intros [Hp Hq] i st Hget. unfold get_status in Hget.
    destruct (dict_get i (_statuses t)) as [st0|] eqn:Eg; [|discriminate].
    injection Hget as ->. apply dict_get_In in Eg.
    specialize (Hp _ Eg). specialize (Hq _ Eg). specialize (Hv _ Eg).
    cbn [snd] in *. unfold is_terminal_state.
    revert Hv. unfold str_in, valid_states. cbn [map existsb value].
    rewrite (String.eqb_sym (state st) "pending") in Hp.
    rewrite (String.eqb_sym (state st) "processing") in Hq.
    rewrite (String.eqb_sym (state st) "pending"), Hp.
    rewrite (String.eqb_sym (state st) "processing"), Hq.
    cbn [orb]. rewrite !(String.eqb_sym (state st)). auto.
  - intros H. split; intros [i st] Hin; cbn [snd];
      pose proof (H i st) as Ht; unfold get_status in Ht;
      rewrite (In_dict_get i st _ Hnd Hin) in Ht; specialize (Ht eq_refl);
      unfold is_terminal_state in Ht;
      destruct (String.eqb (state st) _) eqn:E; auto;
      apply String.eqb_eq in E; rewrite E in Ht; discriminate.
Qed.

(** *** The batch end time of a finished batch *)

Lemma update_status_stamped t i s e o now t' :
  update_status t i s e o now = Ok t' ->
  complete_stamped t' /\ _statuses t <> [] /\
  _batch_start_time t' = _batch_start_time t.
Proof.
  unfold update_status.
  destruct (dict_get i (_statuses t)) as [st|] eqn:Eg; [|discriminate].
  destruct (str_in s valid_states); cbn [negb]; [|discriminate].
  intros [= <-]. split; [|split].
  - unfold complete_stamped. cbn [_statuses _batch_end_time _batch_start_time].
    match goal with
    | |- context [if is_complete (get_summary ?T1) then _ else _] =>
        intros Hcomp;
        match type of Hcomp with
        | is_complete (get_summary ?T2) = true =>
            rewrite (StatusFacts.is_complete_statuses T2 T1 eq_refl) in Hcomp
        end;
        rewrite Hcomp
    end.
    destruct (_batch_end_time t); discriminate.
  - destruct (_statuses t); [discriminate | congruence].
  - reflexivity.
Qed.

Lemma add_image_not_complete t i now t' :
  states_valid (_statuses t) -> add_image t i now = Ok t' ->
  is_complete (get_summary t') = false /\ _batch_start_time t' <> None.
Proof.
  intros Hv. unfold add_image, ProcessingStatus_new.
  destruct (dict_contains i (_statuses t)) eqn:Ec; [discriminate|].
  cbn. intros [= <-]. split; [|cbn; destruct (_batch_start_time t); discriminate].
  destruct (StatusFacts.get_summary_sum t Hv) as [Hsum _].
  destruct (StatusFacts.summary_fields t) as (S1 & S2 & S3 & S4 & S5 & _ & S7).
  match goal with |- is_complete (get_summary ?T) = _ =>
    destruct (StatusFacts.summary_fields T) as (_ & _ & T3 & T4 & T5 & _ & T7) end.
  unfold is_complete. rewrite T3, T4, T5, T7.
  unfold count_sum in Hsum. rewrite S1, S2, S3, S4, S5, S7 in Hsum.
  unfold count_state in *. cbn [_statuses].
  rewrite ProcessorFacts.dict_set_new by exact Ec.
  rewrite !filter_app, !length_app. cbn. apply Z.eqb_neq. lia.
Qed.

Lemma run_calls_stamped cs : forall t,
  states_valid (_statuses t) ->
  (_statuses t <> [] -> _batch_start_time t <> None /\ complete_stamped t) ->
  _statuses (run_calls t cs) <> [] ->
  _batch_start_time (run_calls t cs) <> None /\ complete_stamped (run_calls t cs).
Proof.
  induction cs as [|c cs IH]; intros t Hv HJ; cbn [run_calls]; [exact HJ|].
  destruct (run_call t c) as [t1|e] eqn:E; [|now apply IH].
  apply IH; [eapply StatusFacts.run_call_valid; eauto|].
  intros Hne. destruct c as [i now | i s e o now |]; cbn [run_call] in E.
  - destruct (add_image_not_complete t i now t1 Hv E) as [Hc Hs].
    split; [exact Hs|]. unfold complete_stamped. congruence.
  - destruct (update_status_stamped t i s e o now t1 E) as (H1 & H2 & H3).
    split; [|exact H1]. rewrite H3. now apply HJ.
  - injection E as <-. cbn in Hne. congruence.
Qed.

(** On a tracker reached through any calls that tracks at least one job,
    the batch start time is set, and if the summary is complete the batch
    end time is set. *)
Theorem complete_batch_has_end_time :
  forall cs : list call,
    let t := run_calls StatusTracker_init cs in
    0 < len t ->
    s_start_time (get_summary t) <> None /\
    (is_complete (get_summary t) = true -> s_end_time (get_summary t) <> None).
Proof.
  intros cs t Hlen. rewrite summary_start_time, summary_end_time.
  apply (run_calls_stamped cs StatusTracker_init).
  - constructor.
  - cbn. congruence.
  - fold t. unfold len in Hlen. destruct (_statuses t); [cbn in Hlen; lia | discriminate].
Qed.

Lemma complete_batch_has_end_time_witness :
  s_start_time (get_summary one_done) <> None /\
  (is_complete (get_summary one_done) = true ->
   s_end_time (get_summary one_done) <> None).
Proof.
  apply (complete_batch_has_end_time completed_job_calls). reflexivity.
Defined.

End StatusMore.

(** * Properties of the output path helpers *)

Module FileHandlerFacts.
Import FileHandler FileHandlerSpec.

Section WithFileSystem.
Variable fs : FileSystem.

(** The loop started at [counter] with the rounds that remain up to 10000:
    it returns the first free numbered variant, or raises when there is
    none. *)
Lemma collision_loop_spec path : forall fuel counter,
  1 <= counter <= 10000 ->
  Z.of_nat fuel = 10001 - counter ->
  (forall j, 1 <= j < counter -> path_exists fs (numbered_variant fs path j) = true) ->
  (exists k,
     collision_loop fs path fuel counter = Some (Ok (numbered_variant fs path k)) /\
     1 <= k <= 10000 /\
     path_exists fs (numbered_variant fs path k) = false /\
     (forall j, 1 <= j < k -> path_exists fs (numbered_variant fs path j) = true)) \/
  (collision_loop fs path fuel counter
   = Some (Raise (ResourceError ("Too many file collisions for: " ++ path))) /\
   (forall j, 1 <= j <= 10000 -> path_exists fs (numbered_variant fs path j) = true)).
Proof.
  induction fuel as [|fuel IH]; intros counter Hc Hf Hbelow; [lia|].
  cbn [collision_loop].
  destruct (path_exists fs (numbered_variant fs path counter)) eqn:Ex; cbn [negb].
  - assert (Hbelow' : forall j, 1 <= j < counter + 1 ->
                        path_exists fs (numbered_variant fs path j) = true).
    { intros j Hj. destruct (Z.eq_dec j counter) as [->|]; [exact Ex|].
      apply Hbelow. lia. }
    destruct (counter + 1 >? 10000) eqn:E.
    + right. split; [reflexivity|]. apply Z.gtb_lt in E.
      intros j Hj. apply Hbelow'. lia.
    + assert (counter + 1 <= 10000) by (rewrite Z.gtb_ltb in E; apply Z.ltb_ge in E; lia).
      apply IH; [lia | lia | exact Hbelow'].
  - left. exists counter. repeat split; auto; lia.
Qed.

End WithFileSystem.

(** With [overwrite] off, [handle_filename_collision] returns a path at
    which no file exists or raises [ResourceError]; it never runs out of
    rounds, and it returns the path it was given when no file exists there
    or [overwrite] is on. *)
Theorem collision_never_returns_existing_path :
  forall (fs : FileSystem) (path : string) (overwrite : bool),
    exists r,
      handle_filename_collision fs path overwrite = Some r /\
      (forall p, r = Ok p -> overwrite = false -> path_exists fs p = false) /\
      (forall e, r = Raise e -> exists msg, e = ResourceError msg) /\
      (path_exists fs path = false \/ overwrite = true -> r = Ok path).
Proof.
  intros fs path overwrite. unfold handle_filename_collision.
  destruct (path_exists fs path) eqn:Ex; cbn [negb].
  - destruct overwrite.
    + exists (Ok path). split; [reflexivity|].
      split; [discriminate|]. split; [discriminate | reflexivity].
    + destruct (collision_loop_spec fs path (Z.to_nat 10000) 1)
        as [(k & -> & Hk & Hfree & _) | [-> _]]; try lia.
      * eexists. split; [reflexivity|]. split; [|split].
        -- intros p [= <-] _. exact Hfree.
        -- discriminate.
        -- intros [H | H]; discriminate.
      * eexists. split; [reflexivity|]. split; [|split].
        -- discriminate.
        -- intros e [= <-]. eauto.
        -- intros [H | H]; discriminate.
  - exists (Ok path). split; [reflexivity|]. split; [|split].
    + intros p [= <-] _. exact Ex.
    + discriminate.
    + reflexivity.
Qed.

(** When a file exists at the path and [overwrite] is off, the result is
    the numbered variant [stem_k.ext] with the least [k] from 1 to 10000 at
    which no file exists, and [ResourceError] is raised exactly when all
    10000 variants exist. *)
Theorem collision_picks_first_free_number :
  forall (fs : FileSystem) (path : string),
    path_exists fs path = true ->
    (exists k,
       handle_filename_collision fs path false
       = Some (Ok (numbered_variant fs path k)) /\
       1 <= k <= 10000 /\
       path_exists fs (numbered_variant fs path k) = false /\
       (forall j, 1 <= j < k -> path_exists fs (numbered_variant fs path j) = true)) \/
    (handle_filename_collision fs path false
     = Some (Raise (ResourceError ("Too many file collisions for: " ++ path))) /\
     (forall j, 1 <= j <= 10000 -> path_exists fs (numbered_variant fs path j) = true)).
Proof.
  intros fs path Ex. unfold handle_filename_collision. rewrite Ex. cbn [negb].
  apply collision_loop_spec; try lia.
Qed.

Lemma collision_picks_first_free_number_witness :
  let fs := demo_fs ["out/page1_colorized.png"; "out/page1_colorized_1.png";
                     "out/page1_colorized_2.png"] in
  (exists k,
     handle_filename_collision fs "out/page1_colorized.png" false
     = Some (Ok (numbered_variant fs "out/page1_colorized.png" k)) /\
     1 <= k <= 10000 /\
     path_exists fs (numbered_variant fs "out/page1_colorized.png" k) = false /\
     (forall j, 1 <= j < k ->
        path_exists fs (numbered_variant fs "out/page1_colorized.png" j) = true)) \/
  (handle_filename_collision fs "out/page1_colorized.png" false
   = Some (Raise (ResourceError
                    "Too many file collisions for: out/page1_colorized.png")) /\
   (forall j, 1 <= j <= 10000 ->
      path_exists fs (numbered_variant fs "out/page1_colorized.png" j) = true)).
Proof.
  intros fs.
  apply (collision_picks_first_free_number fs "out/page1_colorized.png").
  reflexivity.
Defined.

End FileHandlerFacts.

(** * A further property of the memory estimate *)

Module MemoryMore.
Import Memory MemorySpec.

(** For an image of at least one pixel whose doubled size is still in the
    range where the float product is exact, the estimate is positive, lies
    between 90 and 91.125 bytes per pixel, and doubling both dimensions
    multiplies it by four up to 216 bytes. *)
Theorem estimate_scales_with_area :
  forall (mm : MemoryManager) (width height : Z),
    1 <= width -> 1 <= height ->
    exact_estimate (2 * width) (2 * height) < 2 ^ 53 ->
    exists e1 e4,
      estimate_memory_required mm (width, height) = Ok e1 /\
      estimate_memory_required mm (2 * width, 2 * height) = Ok e4 /\
      90 <= e1 /\
      720 * (width * height) <= 8 * e1 <= 729 * (width * height) /\
      4 * e1 <= e4 <= 4 * e1 + 216.
Proof.
  intros mm w h Hw Hh Hr.
  assert (Hp : 1 <= w * h) by nia.
  assert (H4 : 2 * w * (2 * h) = 4 * (w * h)) by ring.
  destruct (MemoryFacts.exact_estimate_mono w h (2 * w) (2 * h)) as [_ Hle]; [nia|].
  exists (exact_estimate w h), (exact_estimate (2 * w) (2 * h)).
  split; [apply MemoryFacts.estimate_exact; lia|].
  split; [apply MemoryFacts.estimate_exact; lia|].
  unfold exact_estimate in *. rewrite H4 in Hr |- *.
  clear Hle H4. set (p := w * h) in *. clearbody p.
  pose proof (Z.div_mod p 64 ltac:(lia)) as D1.
  pose proof (Z.mod_pos_bound p 64 ltac:(lia)) as B1.
  pose proof (Z.div_mod (4 * p) 64 ltac:(lia)) as D2.
  pose proof (Z.mod_pos_bound (4 * p) 64 ltac:(lia)) as B2.
  lia.
Qed.

Lemma estimate_scales_with_area_witness :
  exists e1 e4,
    estimate_memory_required (mkMemoryManager cpu (8 # 10)) (512, 512) = Ok e1 /\
    estimate_memory_required (mkMemoryManager cpu (8 # 10)) (2 * 512, 2 * 512) = Ok e4 /\
    90 <= e1 /\
    720 * (512 * 512) <= 8 * e1 <= 729 * (512 * 512) /\
    4 * e1 <= e4 <= 4 * e1 + 216.
Proof.
  apply (estimate_scales_with_area (mkMemoryManager cpu (8 # 10)) 512 512);
    [lia | lia | vm_compute; reflexivity].
Defined.

End MemoryMore.

(** * Further properties of the processor *)

Module ProcessorMore.
Import Queue Processor ProcessorSpec.
Import StatusSpec ProcessorMoreSpec ProcessorFacts.

(** *** What the control calls do to the two flags *)

Lemma apply_request_flags r bp :
  _processing bp = true ->
  apply_request bp r
  = set_paused (_paused bp || is_pause r)
      (set_cancelled (_cancelled bp || is_cancel r) bp).
Proof.
  destruct bp as [c q t m pa ca pr pp pap prr]. cbn [_processing]. intros ->.
  destruct r; unfold apply_request, pause_processing, cancel_processing;
    cbn; destruct pa, ca; reflexivity.
Qed.

Lemma apply_requests_flags rs : forall bp,
  _processing bp = true ->
  apply_requests rs bp
  = set_paused (_paused bp || existsb is_pause rs)
      (set_cancelled (_cancelled bp || existsb is_cancel rs) bp).
Proof.
  unfold apply_requests.
  induction rs as [|r rs IH]; intros bp Hp; cbn [fold_left existsb].
  - rewrite !orb_false_r. now destruct bp.
  - rewrite IH by (destruct (apply_request_frame r bp) as (_ & _ & _ & H & _); congruence).
    rewrite apply_request_flags by exact Hp.
    destruct bp as [c q t m pa ca pr pp pap prr]. cbn. now rewrite !orb_assoc.
Qed.

Section Run.
Variable env : Env.

(** *** Moving the jobs of two lists in turn *)

Lemma batch_moved_app t t1 t2 l1 l2 fin :
  (forall x, In x l1 -> ~ In (Queue.id x) (map Queue.id l2)) ->
  batch_moved t t1 l1 fin -> batch_moved t1 t2 l2 fin ->
  batch_moved t t2 (l1 ++ l2) fin.
Proof.
  intros Hdis (A1 & A2 & A3 & A4 & A5) (B1 & B2 & B3 & B4 & B5).
  unfold batch_moved. split; [|split; [|split; [|split]]].
  - intros x Hx. apply in_app_or in Hx. destruct Hx as [Hx | Hx]; [|auto].
    rewrite B2 by (apply Hdis; exact Hx). auto.
  - intros j Hj. rewrite map_app, in_app_iff in Hj.
    rewrite B2, A2; tauto.
  - intros s. rewrite B3, A3. unfold count_fin.
    rewrite filter_app, !length_app. lia.
  - congruence.
  - exact B5.
Qed.

Lemma batch_moved_one t t1 x fin :
  tracker_moved t t1 (Queue.id x) "pending" (fin x) ->
  batch_moved t t1 [x] fin.
Proof.
  intros H. eapply batch_moved_cons; [intros [] | exact H |].
  apply batch_moved_nil. destruct H as (_ & _ & _ & _ & H). exact H.
Qed.

(** *** The main loop over a prefix of the queue *)

(** While no control call arrives, the loop takes the jobs at the head of
    the queue one after the other to the state their rendering decides. *)
Lemma process_loop_prefix before : forall tail fuel w,
  queue (proc w) = mkQueue (before ++ tail) (Z.of_nat (length (before ++ tail))) ->
  _paused (proc w) = false -> _cancelled (proc w) = false ->
  NoDup (map Queue.id (before ++ tail)) ->
  (forall x, In x (before ++ tail) ->
     Status.state_of (status_tracker (proc w)) (Queue.id x) = Some "pending") ->
  no_arrivals env before = true ->
  complete_stamped (status_tracker (proc w)) ->
  exists t1 tc1,
    process_loop env (length before + fuel) w
    = process_loop env fuel
        (mkWorld (set_status_tracker t1
                    (set_queue (mkQueue tail (Z.of_nat (length tail))) (proc w)))
           (uuid_calls w) tc1) /\
    batch_moved (status_tracker (proc w)) t1 before (rendered_state env) /\
    (forall x, In x tail -> Status.state_of t1 (Queue.id x) = Some "pending").
Proof.
  induction before as [|x before IH]; intros tail fuel w Hq Hp Hc Hnd Hpend Hna Hst.
  - exists (status_tracker (proc w)), (time_calls w). cbn [app length Nat.add] in *.
    split; [|split; [now apply batch_moved_nil | exact Hpend]].
    f_equal. destruct w as [bp u tc]. cbn [proc uuid_calls time_calls] in *.
    f_equal. destruct bp. cbn in *. now subst.
  - cbn [app length Nat.add map] in *.
    cbn [no_arrivals forallb] in Hna. apply andb_true_iff in Hna.
    destruct Hna as [Hax Hna].
    destruct (arrivals env x) as [|? ?] eqn:Earr; [|discriminate].
    inversion Hnd as [|? ? Hnin Hnd']; subst.
    destruct (process_loop_step env (length before + fuel) x (before ++ tail) w
                Hq Hp Hc (Hpend x (or_introl eq_refl)))
      as (t1 & tc1 & Hstep & Hmv).
    rewrite Hstep, Earr. cbn [apply_requests fold_left].
    set (w1 := mkWorld _ _ _).
    assert (Hpend1 : forall y, In y (before ++ tail) ->
              Status.state_of t1 (Queue.id y) = Some "pending").
    { intros y Hy. destruct Hmv as (_ & Hoth & _).
      rewrite Hoth; [apply Hpend; now right|].
      intros Heq. apply Hnin. rewrite <- Heq. now apply in_map. }
    destruct (IH tail fuel w1) as (t2 & tc2 & Hrun & Hbm & Hpend2); auto.
    { destruct Hmv as (_ & _ & _ & _ & H). exact H. }
    exists t2, tc2. split; [|split; [|exact Hpend2]].
    + rewrite Hrun. reflexivity.
    + eapply batch_moved_cons; eauto.
      intros Hin. apply Hnin. rewrite map_app. apply in_or_app. now left.
Qed.

(** A pause request among the requests that arrive while the job at the
    head of the queue is in flight: the job is finished, the loop stops,
    and the rest of the queue is left as it is, whether or not a cancel
    request came with it. *)
Lemma process_loop_pause_at_head x rest fuel w :
  (S (length rest) < fuel)%nat ->
  queue (proc w) = mkQueue (x :: rest) (Z.of_nat (S (length rest))) ->
  _paused (proc w) = false -> _cancelled (proc w) = false ->
  _processing (proc w) = true ->
  Status.state_of (status_tracker (proc w)) (Queue.id x) = Some "pending" ->
  existsb is_pause (arrivals env x) = true ->
  exists t1 tc1,
    process_loop env fuel w
    = (Ok tt,
       mkWorld (set_status_tracker t1
                  (set_queue (mkQueue rest (Z.of_nat (length rest)))
                     (set_paused true
                        (set_cancelled (existsb is_cancel (arrivals env x))
                           (proc w)))))
         (uuid_calls w) tc1) /\
    tracker_moved (status_tracker (proc w)) t1 (Queue.id x) "pending"
      (rendered_state env x).
Proof.
  intros Hf Hq Hp Hc Hproc Hpend Harr.
  destruct fuel as [|[|fuel]]; try lia.
  destruct (process_loop_step env (S fuel) x rest w Hq Hp Hc Hpend)
    as (t1 & tc1 & Hstep & Hmv).
  exists t1, tc1. split; [|exact Hmv].
  rewrite Hstep. clear Hstep.
  destruct w as [bp u tc]. cbn [proc uuid_calls time_calls] in *.
  rewrite apply_requests_flags by exact Hproc.
  cbn [set_queue _paused _cancelled].
  rewrite Hp, Hc, Harr. cbn [orb].
  rewrite process_loop_S. cbn [proc].
  destruct bp as [c q t m pa ca pr pp pap prr]. cbn in *. subst.
  destruct (Z.of_nat (length rest) >? 0); reflexivity.
Qed.

(** *** Entering and leaving the loop in [start_processing] *)

(** Without preview mode, [start_processing] on an idle processor with a
    queue that is not empty sets the flags, runs the loop and clears the
    processing flag. *)
Lemma start_processing_loop_result w l w1 :
  idle_with (proc w) l -> l <> [] ->
  process_loop env (S (length l))
    (mkWorld (set_paused false (set_cancelled false (set_processing true (proc w))))
       (uuid_calls w) (time_calls w)) = (Ok tt, w1) ->
  config (proc w1) = config (proc w) ->
  exists tc2,
    start_processing env w
    = (Ok tt, mkWorld (set_processing false (proc w1)) (uuid_calls w1) tc2).
Proof.
  intros (Hq & Hproc & Hpm & _) Hne Hloop Hcfg.
  destruct w as [bp u tc]. cbn [proc uuid_calls time_calls] in *.
  destruct (log_final_summary_run env w1) as (tc2 & Hlog).
  exists tc2.
  unfold start_processing, bind at 1, get_proc at 1. cbn [proc].
  rewrite Hq. cbn [size _size].
  replace (Z.of_nat (length l) =? 0) with false
    by (symmetry; apply Z.eqb_neq; destruct l; [congruence | cbn [length]; lia]).
  rewrite Hproc, Hpm. cbn [andb].
  do 3 run_modify.
  set (bp1 := set_paused false (set_cancelled false (set_processing true bp))) in *.
  unfold try_finally.
  run_get.
  replace (preview_mode (config bp1)) with false by (symmetry; exact Hpm).
  cbn [andb]. unfold bind at 1.
  rewrite (run_process_loop_fuel env l) by exact Hq.
  rewrite Hloop, Hlog.
  run_get. rewrite Hcfg, Hpm.
  cbn [andb negb]. run_modify.
  unfold try_except, clear_cache, ret. reflexivity.
Qed.

Lemma batch_ready_idle bp :
  batch_ready bp = true -> preview_mode (config bp) = false -> jobs bp <> [] ->
  idle_with bp (jobs bp).
Proof.
  intros Hr Hpm Hne.
  destruct (batch_ready_facts bp Hr) as (Hq & Hnd & Hpend & _ & _ & Hproc & _).
  pose proof (batch_ready_stamped bp Hr Hne). unfold idle_with. auto 10.
Qed.

Lemma NoDup_app_disjoint (l1 l2 : list ImageQueueItem) :
  NoDup (map Queue.id (l1 ++ l2)) ->
  forall x, In x l1 -> ~ In (Queue.id x) (map Queue.id l2).
Proof.
  rewrite map_app. induction l1 as [|y l1 IH]; cbn [map app]; intros Hnd x [].
  - subst y. inversion Hnd as [|? ? Hnin _]; subst.
    intros Hin. apply Hnin. apply in_or_app. now right.
  - inversion Hnd; subst. now apply IH.
Qed.

(** A run in which nothing arrives takes every queued job to the state its
    rendering decides. *)
Lemma start_processing_idle_drains w l :
  idle_with (proc w) l -> l <> [] -> no_arrivals env l = true ->
  exists t' w1,
    start_processing env w = (Ok tt, w1) /\
    proc w1 = set_status_tracker t'
                (set_queue (mkQueue [] 0)
                   (set_paused false (set_cancelled false (proc w)))) /\
    uuid_calls w1 = uuid_calls w /\
    batch_moved (status_tracker (proc w)) t' l (rendered_state env).
Proof.
  intros Hidle Hne Hna. pose proof Hidle as (Hq & Hproc & Hpm & Hnd & Hpend & Hst).
  destruct w as [bp u tc]. cbn [proc uuid_calls time_calls] in *.
  set (bp1 := set_paused false (set_cancelled false (set_processing true bp))).
  destruct (process_loop_drains env l (S (length l)) (mkWorld bp1 u tc))
    as (t' & tc1 & Hloop & Hbm); auto.
  destruct (start_processing_loop_result (mkWorld bp u tc) l _ Hidle Hne Hloop eq_refl)
    as (tc2 & Hrun).
  exists t'. eexists. split; [exact Hrun|].
  cbn [proc uuid_calls]. split; [|split; [reflexivity | exact Hbm]].
  destruct bp. cbn in *. now subst.
Qed.

(** A pause request arriving, alone or with others, while the job [x] is
    in flight, after the jobs [before] ran undisturbed. *)
Lemma start_processing_pause_at w before x rest :
  idle_with (proc w) (before ++ x :: rest) ->
  no_arrivals env before = true ->
  existsb is_pause (arrivals env x) = true ->
  exists t1 w1,
    start_processing env w = (Ok tt, w1) /\
    proc w1 = set_status_tracker t1
                (set_queue (mkQueue rest (Z.of_nat (length rest)))
                   (set_paused true
                      (set_cancelled (existsb is_cancel (arrivals env x))
                         (proc w)))) /\
    uuid_calls w1 = uuid_calls w /\
    batch_moved (status_tracker (proc w)) t1 (before ++ [x]) (rendered_state env) /\
    (forall y, In y rest -> Status.state_of t1 (Queue.id y) = Some "pending").
Proof.
  intros Hidle Hna Harr. pose proof Hidle as (Hq & Hproc & Hpm & Hnd & Hpend & Hst).
  destruct w as [bp u tc]. cbn [proc uuid_calls time_calls] in *.
  set (bp1 := set_paused false (set_cancelled false (set_processing true bp))).
  destruct (process_loop_prefix before (x :: rest) (S (S (length rest)))
              (mkWorld bp1 u tc))
    as (t1 & tc1 & Hpre & Hbm & Hpend1); auto.
  cbn [proc uuid_calls time_calls] in Hpre.
  set (wm := mkWorld (set_status_tracker t1
                        (set_queue (mkQueue (x :: rest) (Z.of_nat (length (x :: rest))))
                           bp1)) u tc1) in *.
  destruct (process_loop_pause_at_head x rest (S (S (length rest))) wm)
    as (t2 & tc2 & Hloop & Hmv); auto.
  { apply Hpend1. now left. }
  rewrite <- Hpre in Hloop.
  replace (length before + S (S (length rest)))%nat
    with (S (length (before ++ x :: rest))) in Hloop
    by (rewrite length_app; cbn [length]; lia).
  destruct (start_processing_loop_result (mkWorld bp u tc) _ _ Hidle
              ltac:(now destruct before) Hloop eq_refl) as (tc3 & Hrun).
  exists t2. eexists. split; [exact Hrun|].
  cbn [proc uuid_calls wm]. split; [|split; [reflexivity | split]].
  - destruct bp. cbn in *. now subst.
  - eapply batch_moved_app; [|exact Hbm | now apply batch_moved_one].
    intros y Hy Hin. apply (NoDup_app_disjoint before (x :: rest) Hnd y Hy).
    cbn [map In] in *. destruct Hin as [H | []]. now left.
  - intros y Hy. destruct Hmv as (_ & Hoth & _). cbn [wm proc status_tracker set_status_tracker] in Hoth.
    rewrite Hoth; [apply Hpend1; now right|].
    intros Heq. rewrite map_app in Hnd. apply NoDup_app_remove_l in Hnd.
    cbn [map] in Hnd.
    inversion Hnd as [|? ? Hnin _]; subst. apply Hnin. rewrite <- Heq. now apply in_map.
Qed.

(** A cancel request arriving while the job [x] is in flight, after the
    jobs [before] ran undisturbed. *)
Lemma start_processing_cancel_at w before x rest :
  idle_with (proc w) (before ++ x :: rest) ->
  no_arrivals env before = true ->
  arrivals env x = [ReqCancel] ->
  exists t1 t' w1,
    start_processing env w = (Ok tt, w1) /\
    proc w1 = set_status_tracker t'
                (set_queue (mkQueue [] 0)
                   (set_paused false (set_cancelled true (proc w)))) /\
    uuid_calls w1 = uuid_calls w /\
    batch_moved (status_tracker (proc w)) t1 (before ++ [x]) (rendered_state env) /\
    batch_moved t1 t' rest (fun _ => "cancelled").
Proof.
  intros Hidle Hna Harr. pose proof Hidle as (Hq & Hproc & Hpm & Hnd & Hpend & Hst).
  destruct w as [bp u tc]. cbn [proc uuid_calls time_calls] in *.
  set (bp1 := set_paused false (set_cancelled false (set_processing true bp))).
  destruct (process_loop_prefix before (x :: rest) (S (S (length rest)))
              (mkWorld bp1 u tc))
    as (t1 & tc1 & Hpre & Hbm & Hpend1); auto.
  cbn [proc uuid_calls time_calls] in Hpre.
  set (wm := mkWorld (set_status_tracker t1
                        (set_queue (mkQueue (x :: rest) (Z.of_nat (length (x :: rest))))
                           bp1)) u tc1) in *.
  assert (Hnd' : NoDup (map Queue.id (x :: rest)))
    by (rewrite map_app in Hnd; now apply NoDup_app_remove_l in Hnd).
  destruct (process_loop_cancel_after_first env x rest (S (S (length rest))) wm)
    as (t2 & t' & tc2 & Hloop & Hmv & Hbc); auto.
  rewrite <- Hpre in Hloop.
  replace (length before + S (S (length rest)))%nat
    with (S (length (before ++ x :: rest))) in Hloop
    by (rewrite length_app; cbn [length]; lia).
  destruct (start_processing_loop_result (mkWorld bp u tc) _ _ Hidle
              ltac:(now destruct before) Hloop eq_refl) as (tc3 & Hrun).
  exists t2, t'. eexists. split; [exact Hrun|].
  cbn [proc uuid_calls wm]. split; [|split; [reflexivity | split; [|exact Hbc]]].
  - destruct bp. cbn in *. now subst.
  - eapply batch_moved_app; [|exact Hbm | now apply batch_moved_one].
    intros y Hy Hin. apply (NoDup_app_disjoint before (x :: rest) Hnd y Hy).
    cbn [map In] in *. destruct Hin as [H | []]. now left.
Qed.

(** The counts of a ready batch of which the jobs [done] were rendered. *)
Lemma rendered_counts bp t1 done :
  batch_ready bp = true ->
  batch_moved (status_tracker bp) t1 done (rendered_state env) ->
  count_state "pending" t1 = batch_size bp - Z.of_nat (length done) /\
  count_state "processing" t1 = 0 /\
  count_state "cancelled" t1 = 0 /\
  count_state "completed" t1 = Z.of_nat (length done) - failures env done /\
  count_state "failed" t1 = failures env done /\
  length (Status._statuses t1) = length (jobs bp).
Proof.
  intros Hr (_ & _ & B3 & B4 & _).
  destruct (batch_ready_facts bp Hr) as (_ & _ & _ & Hc & Hl & _).
  destruct (count_fin_render env done) as (F1 & F2 & F3 & F4 & F5).
  unfold rendered_state in B3. rewrite !B3, !Hc, F1, F2, F3, F4, F5, B4, Hl.
  unfold batch_size.
  cbv [String.eqb Ascii.eqb Bool.eqb Z.b2z andb]. repeat split; lia.
Qed.

(** *** The main loop under any control calls *)

(** Whatever requests arrive while jobs are in flight, the loop renders a
    prefix of the queue and then either stops, leaving the rest queued and
    pending, or marks the rest cancelled and empties the queue. *)
Lemma process_loop_any rest : forall fuel w,
  (length rest < fuel)%nat ->
  queue (proc w) = mkQueue rest (Z.of_nat (length rest)) ->
  _processing (proc w) = true ->
  NoDup (map Queue.id rest) ->
  (forall x, In x rest ->
     Status.state_of (status_tracker (proc w)) (Queue.id x) = Some "pending") ->
  complete_stamped (status_tracker (proc w)) ->
  exists w1 t1 done left,
    process_loop env fuel w = (Ok tt, w1) /\
    (config (proc w1) = config (proc w) /\
     _preview_processed (proc w1) = _preview_processed (proc w) /\
     _preview_approved (proc w1) = _preview_approved (proc w)) /\
    rest = done ++ left /\
    (_paused (proc w) = false -> _cancelled (proc w) = false -> rest <> [] ->
     done <> []) /\
    batch_moved (status_tracker (proc w)) t1 done (rendered_state env) /\
    ((status_tracker (proc w1) = t1 /\
      queue (proc w1) = mkQueue left (Z.of_nat (length left))) \/
     (batch_moved t1 (status_tracker (proc w1)) left (fun _ => "cancelled") /\
      queue (proc w1) = mkQueue [] 0)).
Proof.
  induction rest as [|x rest IH]; intros fuel w Hf Hq Hproc Hnd Hpend Hst;
    (destruct fuel as [|fuel]; [cbn in Hf; lia|]).
  - exists w, (status_tracker (proc w)), [], [].
    rewrite process_loop_S, Hq. cbn [size _size length Z.of_nat Z.gtb Z.compare].
    split; [reflexivity|]. split; [repeat split|]. split; [reflexivity|].
    split; [congruence|].
    split; [now apply batch_moved_nil | left; split; reflexivity].
  - destruct (_paused (proc w)) eqn:Hp.
    { exists w, (status_tracker (proc w)), [], (x :: rest).
      rewrite process_loop_S, Hq, Hp. cbn [size _size].
      replace (Z.of_nat (length (x :: rest)) >? 0) with true
        by (symmetry; apply Z.gtb_lt; cbn [length]; lia).
      split; [reflexivity|]. split; [repeat split|]. split; [reflexivity|].
      split; [discriminate|].
      split; [now apply batch_moved_nil | left; split; reflexivity]. }
    destruct (_cancelled (proc w)) eqn:Hc.
    { destruct (cancel_remaining_drains env (x :: rest)
                  (S (Z.to_nat (Z.of_nat (length (x :: rest))))) w)
        as (t' & tc' & Hrun & Hbm); auto; [lia|].
      eexists _, (status_tracker (proc w)), [], (x :: rest).
      rewrite process_loop_S, Hp, Hc.
      replace (size (queue (proc w))) with (Z.of_nat (length (x :: rest)))
        by (now rewrite Hq).
      replace (Z.of_nat (length (x :: rest)) >? 0) with true
        by (symmetry; apply Z.gtb_lt; cbn [length]; lia).
      split; [exact Hrun|].
      cbn [proc config set_status_tracker set_queue status_tracker queue
           _preview_processed _preview_approved].
      split; [repeat split|]. split; [reflexivity|]. split; [discriminate|].
      split; [now apply batch_moved_nil | right; split; [exact Hbm | reflexivity]]. }
    cbn [map] in Hnd. inversion Hnd as [|? ? Hnin Hnd']; subst.
    destruct (process_loop_step env fuel x rest w Hq Hp Hc (Hpend x (or_introl eq_refl)))
      as (t1 & tc1 & Hstep & Hmv).
    rewrite Hstep.
    set (w1 := mkWorld _ _ _).
    destruct (apply_requests_frame (arrivals env x)
                (set_queue (mkQueue rest (Z.of_nat (length rest))) (proc w)))
      as (F1 & F2 & _ & F4 & F5 & F6 & _).
    destruct (IH fuel w1)
      as (w2 & t2 & done & left & Hrun & (Hcfg & Hpp & Hpa) & Hsplit & _ & Hbm & Hend).
    + cbn [length] in Hf. lia.
    + unfold w1. cbn [proc queue set_status_tracker]. exact F2.
    + unfold w1. cbn [proc _processing set_status_tracker]. rewrite F4. exact Hproc.
    + exact Hnd'.
    + intros y Hy. unfold w1. cbn [proc status_tracker set_status_tracker].
      destruct Hmv as (_ & Hoth & _). rewrite Hoth; [apply Hpend; now right|].
      intros Heq. apply Hnin. rewrite <- Heq. now apply in_map.
    + destruct Hmv as (_ & _ & _ & _ & H). exact H.
    + exists w2, t2, (x :: done), left. split; [exact Hrun|].
      split.
      { rewrite Hcfg, Hpp, Hpa. unfold w1.
        cbn [proc config _preview_processed _preview_approved set_status_tracker].
        rewrite F1, F5, F6. repeat split. }
      split; [cbn [app]; now rewrite Hsplit|].
      split; [discriminate|].
      split; [|exact Hend].
      unfold w1 in Hbm. cbn [proc status_tracker set_status_tracker] in Hbm.
      eapply batch_moved_cons; [|exact Hmv | exact Hbm].
      intros Hin. apply Hnin. rewrite Hsplit, map_app. apply in_or_app. now left.
Qed.

(** [start_processing] on an idle processor: the first job is always
    rendered, and the rest of the run is as [process_loop_any] tells. *)
Lemma start_processing_any w x rest :
  idle_with (proc w) (x :: rest) ->
  exists w1 t1 done left,
    start_processing env w = (Ok tt, w1) /\
    _processing (proc w1) = false /\
    x :: rest = (x :: done) ++ left /\
    batch_moved (status_tracker (proc w)) t1 (x :: done) (rendered_state env) /\
    ((status_tracker (proc w1) = t1 /\
      queue (proc w1) = mkQueue left (Z.of_nat (length left))) \/
     (batch_moved t1 (status_tracker (proc w1)) left (fun _ => "cancelled") /\
      queue (proc w1) = mkQueue [] 0)).
Proof.
  intros Hidle. pose proof Hidle as (Hq & Hproc & Hpm & Hnd & Hpend & Hst).
  destruct w as [bp u tc]. cbn [proc uuid_calls time_calls] in *.
  set (bp1 := set_paused false (set_cancelled false (set_processing true bp))).
  destruct (process_loop_any (x :: rest) (S (length (x :: rest))) (mkWorld bp1 u tc))
    as (w1 & t1 & done & left & Hloop & (Hcfg & _) & Hsplit & Hdone & Hbm & Hend); auto.
  destruct (start_processing_loop_result (mkWorld bp u tc) _ w1 Hidle
              ltac:(discriminate) Hloop Hcfg) as (tc2 & Hrun).
  destruct done as [|y done];
    [exfalso; apply Hdone; [reflexivity | reflexivity | discriminate | reflexivity]|].
  injection Hsplit as <- Hrest.
  eexists _, t1, done, left. split; [exact Hrun|].
  cbn [proc _processing set_processing status_tracker queue].
  split; [reflexivity|]. split; [cbn [app]; now rewrite Hrest|].
  split; [exact Hbm | exact Hend].
Qed.

Lemma NoDup_app_disjoint_r (l1 l2 : list ImageQueueItem) :
  NoDup (map Queue.id (l1 ++ l2)) ->
  forall y, In y l2 -> ~ In (Queue.id y) (map Queue.id l1).
Proof.
  intros Hnd y Hy Hin. apply in_map_iff in Hin. destruct Hin as (z & Ez & Hz).
  apply (NoDup_app_disjoint l1 l2 Hnd z Hz). rewrite Ez. now apply in_map.
Qed.

(** *** [add_images] with paths of every kind *)

Lemma NoDup_map_seq_inj {B} (f : nat -> B) u n a b :
  NoDup (map f (seq u n)) ->
  (u <= a < u + n)%nat -> (u <= b < u + n)%nat -> f a = f b -> a = b.
Proof.
  intros Hnd Ha Hb E.
  rewrite (NoDup_nth (map f (seq u n)) (f 0%nat)) in Hnd.
  assert (H : (a - u = b - u)%nat).
  { apply Hnd; rewrite ?length_map, ?length_seq; try lia.
    rewrite !map_nth, !seq_nth by lia.
    replace (u + (a - u))%nat with a by lia.
    replace (u + (b - u))%nat with b by lia. exact E. }
  lia.
Qed.

(** A path that is not queued leaves the processor as it was. *)
Lemma add_one_image_fails cfg p w :
  config (proc w) = cfg ->
  validate_image_file env p = true -> addable env cfg p = false ->
  exists e,
    add_one_image env p w
    = (Raise e, mkWorld (proc w) (S (uuid_calls w)) (time_calls w)).
Proof.
  intros Hcfg Hval Hadd. unfold addable in Hadd. rewrite Hval in Hadd. cbn [andb] in Hadd.
  unfold add_one_image, bind at 1, fresh_uuid. cbn [proc uuid_calls time_calls].
  unfold bind at 1, get_proc at 1. cbn [proc]. rewrite Hcfg.
  destruct (create_output_path env p (output_dir cfg) "_colorized") as [o|e];
    [|eexists; reflexivity].
  destruct (handle_filename_collision env o (overwrite cfg)) as [o'|e];
    [discriminate | eexists; reflexivity].
Qed.

Lemma add_one_image_upto cfg dev u done p w :
  (forall i, In i (map (uuid4 env) (seq u (uuid_calls w - u))) ->
             i <> uuid4 env (uuid_calls w)) ->
  addable env cfg p = true ->
  added_upto cfg dev env u done w ->
  exists w',
    add_one_image env p w = (Ok tt, w') /\
    uuid_calls w' = S (uuid_calls w) /\
    added_upto cfg dev env u (done ++ [p]) w'.
Proof.
  intros Hfresh0 Hadd (items & start & Hproc & Hstart & Hu & Hprio & Hnd & Hids & Hdone).
  unfold addable in Hadd. apply andb_true_iff in Hadd. destruct Hadd as [_ Hadd].
  destruct (create_output_path env p (output_dir cfg) "_colorized") as [o|] eqn:Ho;
    [|discriminate].
  destruct (handle_filename_collision env o (overwrite cfg)) as [o'|] eqn:Ho';
    [|discriminate].
  destruct w as [bp uc tc]. cbn [proc uuid_calls time_calls] in *. subst bp.
  set (item := mkItem (uuid4 env uc) p o' None 0 (Some "line_art") None).
  assert (Hnew : ~ In (uuid4 env uc) (map Queue.id items)).
  { intros Hin. destruct (Hids _ Hin) as (n & Hn & E).
    apply (Hfresh0 (uuid4 env n)); [|now symmetry].
    apply in_map, in_seq. lia. }
  assert (Hfresh : Status.dict_contains (uuid4 env uc)
                     (map (fun i => (i, Status.mkStatus i "pending" None None None None))
                          (map Queue.id items)) = false).
  { destruct (Status.dict_contains _ _) eqn:E; auto. exfalso.
    apply dict_contains_In in E. rewrite map_map in E. cbn [fst] in E.
    rewrite map_id in E. contradiction. }
  unfold add_one_image, bind at 1, fresh_uuid. cbn [proc uuid_calls time_calls].
  unfold bind at 1, get_proc at 1. cbn [proc config].
  rewrite Ho, Ho'. fold item.
  unfold bind at 1, queue_enqueue, modify_proc. cbn [proc uuid_calls time_calls].
  unfold tracker_add_image. cbn [proc status_tracker set_queue uuid_calls time_calls].
  unfold Status.add_image. cbn [Status._statuses]. rewrite Hfresh.
  cbn [Status.ProcessingStatus_new Status.str_in Status.valid_states negb].
  eexists. split; [reflexivity|]. split; [reflexivity|].
  exists (items ++ [item]). eexists.
  cbn [proc uuid_calls set_status_tracker set_queue queue config memory_manager
       _paused _cancelled _processing _preview_processed _preview_approved
       _preview_result Status._batch_end_time Status._statuses].
  unfold enqueue. cbn [_queue _size].
  rewrite insert_pos_all_equal
    by (cbn [priority item]; eapply Forall_impl; [|exact Hprio]; cbn; tauto).
  rewrite dict_set_new by exact Hfresh.
  rewrite !length_app, !map_app. cbn [length map].
  split; [|split; [|split; [|split; [|split; [|split]]]]].
  - unfold set_status_tracker, set_queue.
    cbn [config queue memory_manager _paused _cancelled _processing
         _preview_processed _preview_approved _preview_result status_tracker].
    f_equal; try reflexivity. f_equal. lia.
  - intros H. destruct items; discriminate.
  - lia.
  - apply Forall_app. split; [exact Hprio|]. repeat constructor.
  - apply NoDup_app; [exact Hnd | repeat constructor; cbn; tauto |].
    intros i Hi [<- | []]. contradiction.
  - intros i Hi. apply in_app_or in Hi. destruct Hi as [Hi | [<- | []]].
    + destruct (Hids i Hi) as (n & Hn & E). exists n. split; [lia | exact E].
    + exists uc. split; [lia | reflexivity].
  - now rewrite Hdone.
Qed.

Lemma added_upto_next_uuid cfg dev u done bp uc tc :
  added_upto cfg dev env u done (mkWorld bp uc tc) ->
  added_upto cfg dev env u done (mkWorld bp (S uc) tc).
Proof.
  intros (items & start & Hproc & Hstart & Hu & Hprio & Hnd & Hids & Hdone).
  exists items, start. cbn [proc uuid_calls] in *.
  repeat split; auto.
  intros i Hi. destruct (Hids i Hi) as (n & Hn & E). exists n. split; [lia | exact E].
Qed.

Lemma add_images_loop_upto cfg dev u total paths : forall k done w v i,
  NoDup (map (uuid4 env) (seq u total)) ->
  (k + length paths <= total)%nat ->
  (uuid_calls w <= u + k)%nat ->
  added_upto cfg dev env u done w ->
  exists w' i',
    add_images_loop env paths v i w
    = (Ok (v + Z.of_nat (length (filter (addable env cfg) paths)), i'), w') /\
    added_upto cfg dev env u (done ++ filter (addable env cfg) paths) w'.
Proof.
  induction paths as [|p paths IH]; intros k done w v i Hnd Hk Huc Hadd.
  - exists w, i. cbn [add_images_loop filter length]. unfold ret.
    rewrite Z.add_0_r, app_nil_r. auto.
  - cbn [add_images_loop filter length] in *.
    destruct (validate_image_file env p) eqn:Hval; cbn [negb].
    + destruct (addable env cfg p) eqn:Hok.
      * destruct (add_one_image_upto cfg dev u done p w) as (w1 & Hrun & Huc1 & Hadd1);
          auto.
        { intros j Hj E. apply in_map_iff in Hj. destruct Hj as (n & En & Hn).
          apply in_seq in Hn. subst j.
          assert (n = uuid_calls w)
            by (apply (NoDup_map_seq_inj (uuid4 env) u total); auto; lia).
          lia. }
        destruct (IH (S k) (done ++ [p]) w1 (v + 1) i) as (w' & i' & Hloop & Hadd');
          auto; try lia.
        exists w', i'. unfold bind at 1, try_except, bind at 1. rewrite Hrun.
        unfold ret at 1. rewrite Hloop. cbn [length]. split.
        -- do 3 f_equal. lia.
        -- rewrite <- app_assoc in Hadd'. exact Hadd'.
      * destruct (add_one_image_fails cfg p w) as (e & Hrun); auto.
        { destruct Hadd as (items & start & Hproc & _). now rewrite Hproc. }
        destruct (IH (S k) done
                    (mkWorld (proc w) (S (uuid_calls w)) (time_calls w)) v (i + 1))
          as (w' & i' & Hloop & Hadd'); auto; try (cbn [uuid_calls]; lia).
        { apply added_upto_next_uuid. now destruct w. }
        exists w', i'. unfold bind at 1, try_except, bind at 1. rewrite Hrun.
        unfold ret at 1. rewrite Hloop. auto.
    + replace (addable env cfg p) with false
        by (unfold addable; now rewrite Hval).
      destruct (IH (S k) done w v (i + 1)) as (w' & i' & Hloop & Hadd'); auto; try lia.
      exists w', i'. auto.
Qed.

Lemma added_upto_ready cfg dev u done w :
  added_upto cfg dev env u done w ->
  batch_ready (proc w) = true /\
  map Queue.input_path (jobs (proc w)) = done /\
  Forall (fun x => priority x = 0 /\ image_type x = Some "line_art") (jobs (proc w)) /\
  config (proc w) = cfg /\
  (done = [] -> proc w = BatchProcessor_init cfg dev).
Proof.
  intros (items & start & Hproc & Hstart & Hu & Hprio & Hnd & Hids & Hdone).
  rewrite Hproc. unfold jobs. cbn [queue _queue config].
  split; [|repeat split; auto].
  - unfold batch_ready, batch_size, jobs.
    cbn [queue _queue _size status_tracker Status._statuses _processing
         _preview_processed _preview_approved negb].
    rewrite Z.eqb_refl, !length_map, Nat.eqb_refl, !andb_true_r. cbn [andb].
    apply andb_true_iff. split; [apply andb_true_iff; split|].
    + now apply NoDup_distinct.
    + apply forallb_forall. intros x Hx. apply dict_contains_In.
      rewrite map_map. cbn [fst]. rewrite map_id. now apply in_map.
    + apply forallb_forall. intros [i st] Hin.
      apply in_map_iff in Hin. destruct Hin as (j & [= <- <-] & _). reflexivity.
  - intros Hnil. subst done. destruct items; [|discriminate].
    rewrite Hstart by reflexivity. reflexivity.
Qed.

(** *** One job, whatever state the tracker holds for it *)

Lemma try_update_untracked i s e o w :
  Status.state_of (status_tracker (proc w)) i = None ->
  try_except (tracker_update_status env i s e o) (fun _ => ret tt) w = (Ok tt, w).
Proof.
  unfold Status.state_of, try_except, tracker_update_status, Status.update_status.
  destruct (Status.dict_get i _); [discriminate | reflexivity].
Qed.

Lemma process_single_image_tracked x w old :
  Status.state_of (status_tracker (proc w)) (Queue.id x) = Some old ->
  exists r t' tc',
    process_single_image env x w
    = (r, mkWorld (set_status_tracker t' (apply_requests (arrivals env x) (proc w)))
            (uuid_calls w) tc') /\
    (is_rendered (render env x) = true -> r = Ok tt) /\
    (is_rendered (render env x) = false ->
     exists m, r = Raise (ImageProcessingError (Queue.input_path x) m)) /\
    tracker_moved (status_tracker (proc w)) t' (Queue.id x) old (rendered_state env x).
Proof.
  intros Hold.
  destruct (try_update_run env (Queue.id x) Status.PROCESSING None None w _ Hold)
    as (t1 & tc1 & Hr1 & Hmv1).
  unfold process_single_image, bind at 1. rewrite Hr1.
  unfold try_finally, run_pipeline, bind. rewrite deliver_all_run.
  cbn [proc uuid_calls time_calls]. unfold ret at 1.
  rewrite apply_requests_tracker.
  set (bp1 := apply_requests (arrivals env x) (proc w)).
  set (w1 := mkWorld (set_status_tracker t1 bp1) (uuid_calls w) tc1).
  assert (Hproc : Status.state_of (status_tracker (proc w1)) (Queue.id x)
                  = Some (Status.value Status.PROCESSING))
    by (destruct Hmv1 as [H _]; exact H).
  unfold rendered_state.
  destruct (render env x) as [|stage msg|stage msg] eqn:Er.
  - destruct (try_update_run env (Queue.id x) Status.COMPLETED None
                (Some (Queue.output_path x)) w1 _ Hproc)
      as (t2 & tc2 & Hr2 & Hmv2).
    rewrite Hr2. cbn.
    exists (Ok tt), t2, tc2.
    split; [reflexivity|]. split; [auto|]. split; [discriminate|].
    eapply StatusFacts.tracker_moved_trans; eauto.
  - destruct (try_update_run env (Queue.id x) Status.FAILED
                (Some ("Failed at " ++ stage)%string) None w1 _ Hproc)
      as (t2 & tc2 & Hr2 & Hmv2).
    rewrite Hr2. cbn.
    eexists _, t2, tc2.
    split; [reflexivity|]. split; [discriminate|]. split; [eauto|].
    eapply StatusFacts.tracker_moved_trans; eauto.
  - destruct (try_update_run env (Queue.id x) Status.FAILED
                (Some ("Unexpected error at stage '" ++ stage ++ "': " ++ msg)%string)
                None w1 _ Hproc)
      as (t2 & tc2 & Hr2 & Hmv2).
    rewrite Hr2. cbn.
    eexists _, t2, tc2.
    split; [reflexivity|]. split; [discriminate|]. split; [eauto|].
    eapply StatusFacts.tracker_moved_trans; eauto.
Qed.

Lemma process_single_image_untracked x w :
  Status.state_of (status_tracker (proc w)) (Queue.id x) = None ->
  exists r,
    process_single_image env x w
    = (r, mkWorld (apply_requests (arrivals env x) (proc w))
            (uuid_calls w) (time_calls w)) /\
    (is_rendered (render env x) = true -> r = Ok tt) /\
    (is_rendered (render env x) = false ->
     exists m, r = Raise (ImageProcessingError (Queue.input_path x) m)).
Proof.
  intros Hnone.
  unfold process_single_image, bind at 1.
  rewrite try_update_untracked by exact Hnone.
  unfold try_finally, run_pipeline, bind. rewrite deliver_all_run.
  unfold ret at 1.
  set (w1 := mkWorld (apply_requests (arrivals env x) (proc w)) (uuid_calls w)
               (time_calls w)).
  assert (Hnone1 : Status.state_of (status_tracker (proc w1)) (Queue.id x) = None).
  { unfold w1. cbn [proc].
    destruct (apply_requests_frame (arrivals env x) (proc w)) as (_ & _ & -> & _).
    exact Hnone. }
  destruct (render env x) as [|stage msg|stage msg] eqn:Er;
    rewrite try_update_untracked by exact Hnone1; cbn;
    eexists; (split; [reflexivity|]); split; eauto; discriminate.
Qed.

(** *** What the preview branch records *)

Lemma try_get_status_tracked i w s :
  Status.state_of (status_tracker (proc w)) i = Some s ->
  try_get_status i w = (Ok (Some i), w).
Proof.
  unfold Status.state_of, try_get_status, Status.get_status.
  destruct (Status.dict_get i _); [reflexivity | discriminate].
Qed.

Lemma process_preview_detail x rest w :
  queue (proc w) = mkQueue (x :: rest) (Z.of_nat (S (length rest))) ->
  Status.state_of (status_tracker (proc w)) (Queue.id x) = Some "pending" ->
  arrivals env x = [] ->
  exists t1 tc1 pr,
    process_preview env w
    = (Ok tt,
       mkWorld (set_preview_processed true
                  (set_preview_result (Some pr)
                     (set_status_tracker t1
                        (set_queue (mkQueue rest (Z.of_nat (length rest))) (proc w)))))
         (uuid_calls w) tc1) /\
    tracker_moved (status_tracker (proc w)) t1 (Queue.id x) "pending"
      (rendered_state env x) /\
    pr_input_path pr = Queue.input_path x /\
    pr_image_id pr = Queue.id x /\
    pr_status pr = Some (Queue.id x) /\
    (is_rendered (render env x) = true ->
     pr_output_path pr = Some (Queue.output_path x) /\ pr_error pr = None) /\
    (is_rendered (render env x) = false ->
     pr_output_path pr = None /\ pr_error pr <> None).
Proof.
  intros Hq Hpend Harr. destruct w as [bp u tc]. cbn [proc uuid_calls time_calls] in *.
  destruct (process_single_image_tracked x
              (mkWorld (set_queue (mkQueue rest (Z.of_nat (length rest))) bp) u tc)
              "pending")
    as (r & t1 & tc1 & Hrun & H1 & H2 & Hmv); [exact Hpend|].
  rewrite Harr in Hrun. cbn [apply_requests fold_left proc uuid_calls] in Hrun.
  set (w1 := mkWorld (set_status_tracker t1
                        (set_queue (mkQueue rest (Z.of_nat (length rest))) bp)) u tc1)
    in *.
  assert (Hgs : try_get_status (Queue.id x) w1 = (Ok (Some (Queue.id x)), w1)).
  { apply try_get_status_tracked with (s := rendered_state env x).
    destruct Hmv as (H & _). exact H. }
  unfold process_preview, bind at 1.
  rewrite (queue_dequeue_run x rest bp u tc Hq).
  unfold bind at 1, try_except at 1, bind at 1. rewrite Hrun.
  destruct (is_rendered (render env x)) eqn:Er.
  - rewrite (H1 eq_refl). unfold bind at 1. rewrite Hgs.
    eexists t1, tc1, _. split; [reflexivity|]. split; [exact Hmv|].
    cbn [pr_input_path pr_image_id pr_status pr_output_path pr_error].
    repeat split; discriminate.
  - destruct (H2 eq_refl) as (m & ->).
    cbn [is_ImageProcessingError]. unfold bind at 1. rewrite Hgs.
    eexists t1, tc1, _. split; [reflexivity|]. split; [exact Hmv|].
    cbn [pr_input_path pr_image_id pr_status pr_output_path pr_error].
    repeat split; discriminate.
Qed.

Lemma start_processing_preview_detail x rest w :
  batch_ready (proc w) = true ->
  preview_mode (config (proc w)) = true ->
  jobs (proc w) = x :: rest ->
  arrivals env x = [] ->
  exists t1 pr w1,
    start_processing env w = (Ok tt, w1) /\
    proc w1 = set_preview_processed true
                (set_preview_result (Some pr)
                   (set_status_tracker t1
                      (set_queue (mkQueue rest (Z.of_nat (length rest)))
                         (set_paused false
                            (set_cancelled false
                               (set_processing true (proc w))))))) /\
    tracker_moved (status_tracker (proc w)) t1 (Queue.id x) "pending"
      (rendered_state env x) /\
    pr_input_path pr = Queue.input_path x /\
    pr_image_id pr = Queue.id x /\
    pr_status pr = Some (Queue.id x) /\
    (is_rendered (render env x) = true ->
     pr_output_path pr = Some (Queue.output_path x) /\ pr_error pr = None) /\
    (is_rendered (render env x) = false ->
     pr_output_path pr = None /\ pr_error pr <> None).
Proof.
  intros Hr Hpm Hjobs Harr.
  destruct (batch_ready_facts _ Hr) as (Hq & Hnd & Hpend & _ & _ & Hproc & Hpp & Hpa).
  destruct w as [bp u tc]. cbn [proc uuid_calls time_calls] in *.
  rewrite Hjobs in Hq, Hnd, Hpend.
  set (bp1 := set_paused false (set_cancelled false (set_processing true bp))).
  destruct (process_preview_detail x rest (mkWorld bp1 u tc))
    as (t1 & tc1 & pr & Hrun & Hmv & Hrest); auto.
  { apply Hpend. now left. }
  cbn [proc uuid_calls time_calls] in Hrun.
  exists t1, pr. eexists. split; [|split; [|split; [exact Hmv | exact Hrest]]].
  - unfold start_processing, bind at 1, get_proc at 1. cbn [proc].
    rewrite Hq. cbn [size _size].
    replace (Z.of_nat (length (x :: rest)) =? 0) with false
      by (symmetry; apply Z.eqb_neq; cbn [length]; lia).
    rewrite Hproc, Hpm, Hpp. cbn [andb].
    do 3 run_modify.
    fold bp1. unfold try_finally.
    run_get.
    replace (preview_mode (config bp1)) with true by (symmetry; exact Hpm).
    replace (_preview_processed bp1) with false by (symmetry; exact Hpp).
    cbn [andb negb]. rewrite Hrun.
    unfold bind at 1, get_proc at 1.
    cbn [proc config _preview_processed _preview_approved set_preview_processed
         set_preview_result set_status_tracker set_queue].
    replace (preview_mode (config bp1)) with true by (symmetry; exact Hpm).
    replace (_preview_approved bp1) with false by (symmetry; exact Hpa).
    cbn [andb negb]. reflexivity.
  - reflexivity.
Qed.

(** *** Approval under any control calls *)

Lemma approve_preview_any rest w :
  preview_mode (config (proc w)) = true ->
  _preview_processed (proc w) = true ->
  _preview_approved (proc w) = false ->
  queue (proc w) = mkQueue rest (Z.of_nat (length rest)) ->
  rest <> [] ->
  _processing (proc w) = true ->
  _paused (proc w) = false -> _cancelled (proc w) = false ->
  NoDup (map Queue.id rest) ->
  (forall x, In x rest ->
     Status.state_of (status_tracker (proc w)) (Queue.id x) = Some "pending") ->
  complete_stamped (status_tracker (proc w)) ->
  exists w2 t1 done left,
    approve_preview env w = (Ok tt, w2) /\
    _processing (proc w2) = false /\
    is_waiting_for_preview_approval (proc w2) = false /\
    rest = done ++ left /\
    done <> [] /\
    batch_moved (status_tracker (proc w)) t1 done (rendered_state env) /\
    ((status_tracker (proc w2) = t1 /\
      queue (proc w2) = mkQueue left (Z.of_nat (length left))) \/
     (batch_moved t1 (status_tracker (proc w2)) left (fun _ => "cancelled") /\
      queue (proc w2) = mkQueue [] 0)).
Proof.
  intros Hpm Hpp Hpa Hq Hne Hproc Hp Hc Hnd Hpend Hst.
  destruct w as [bp u tc]. cbn [proc uuid_calls time_calls] in *.
  set (bp1 := set_preview_approved true bp).
  destruct (process_loop_any rest (S (length rest)) (mkWorld bp1 u tc))
    as (w1 & t1 & done & left & Hloop & (_ & Hpp1 & Hpa1) & Hsplit & Hdone & Hbm & Hend);
    auto.
  cbn [proc] in Hdone, Hbm, Hpp1, Hpa1.
  destruct (read_elapsed_time_run env w1) as (tc2 & Hlog).
  (* the loop touches neither the preview flags nor, at its end, more than
     the tracker, the queue and the two control flags *)
  exists (mkWorld (set_processing false (proc w1)) (uuid_calls w1) tc2), t1, done, left.
  split; [|split; [reflexivity|]].
  - unfold approve_preview, bind at 1, get_proc at 1. cbn [proc].
    rewrite Hpm, Hpp, Hpa. cbn [negb].
    run_modify. fold bp1.
    unfold _continue_after_preview, bind at 1, get_proc at 1. cbn [proc].
    replace (size (queue bp1) =? 0) with false.
    2:{ symmetry. apply Z.eqb_neq. change (queue bp1) with (queue bp). rewrite Hq.
        cbn [size _size]. destruct rest; [congruence | cbn [length]; lia]. }
    unfold try_finally, bind at 1.
    rewrite (run_process_loop_fuel env rest) by exact Hq.
    rewrite Hloop, Hlog.
    run_modify.
    reflexivity.
  - cbn [proc status_tracker queue set_processing].
    split; [|split; [exact Hsplit | split; [now apply Hdone | split; [exact Hbm | exact Hend]]]].
    unfold is_waiting_for_preview_approval.
    cbn [_preview_processed _preview_approved set_processing].
    rewrite Hpa1. unfold bp1. cbn [_preview_approved set_preview_approved negb].
    apply andb_false_r.
Qed.

(** The states and counts once the jobs [done] of a ready batch were
    rendered and the others were left queued or cancelled. *)
Lemma outcome_counts bp t1 tf done left q' :
  batch_ready bp = true ->
  jobs bp = done ++ left ->
  batch_moved (status_tracker bp) t1 done (rendered_state env) ->
  (tf = t1 /\ q' = mkQueue left (Z.of_nat (length left)) \/
   batch_moved t1 tf left (fun _ => "cancelled") /\ q' = mkQueue [] 0) ->
  (forall y, In y done ->
     Status.state_of tf (Queue.id y) = Some (rendered_state env y)) /\
  ((_queue q' = left /\
    forall y, In y left -> Status.state_of tf (Queue.id y) = Some "pending") \/
   (_queue q' = [] /\
    forall y, In y left -> Status.state_of tf (Queue.id y) = Some "cancelled")) /\
  count_state "processing" tf = 0 /\
  count_state "pending" tf = _size q' /\
  count_state "completed" tf + count_state "failed" tf = Z.of_nat (length done) /\
  length (Status._statuses tf) = length (jobs bp).
Proof.
  intros Hr Hjobs Hbm Hend.
  destruct (rendered_counts bp t1 _ Hr Hbm) as (C1 & C2 & C3 & C4 & C5 & C6).
  destruct (batch_ready_facts bp Hr) as (_ & Hnd & Hpend & _).
  rewrite Hjobs in Hnd, Hpend. unfold batch_size in *. rewrite Hjobs in C1.
  rewrite length_app in C1.
  destruct Hbm as (A1 & A2 & _).
  destruct Hend as [[-> ->] | [(B1 & B2 & B3 & B4 & _) ->]]; cbn [_queue _size].
  - split; [exact A1|]. split; [left; split; [reflexivity|]|].
    + intros y Hy. rewrite A2 by (now apply (NoDup_app_disjoint_r done left)).
      apply Hpend. apply in_or_app. now right.
    + repeat split; auto; lia.
  - split; [|split; [right; split; [reflexivity | exact B1]|]].
    + intros y Hy. rewrite B2 by (now apply (NoDup_app_disjoint done left)).
      now apply A1.
    + rewrite !B3, B4, C1, C2, C4, C5, C6, !count_fin_const.
      cbv [String.eqb Ascii.eqb Bool.eqb Z.b2z andb]. repeat split; lia.
Qed.

End Run.

(** *** A run that nothing interrupts *)

(** On a ready batch without preview mode and without control calls,
    [start_processing] returns normally however many renderings fail: each
    job has the state its rendering decides, the failed count is the number
    of failed renderings, all other jobs are completed, the queue is empty
    and the batch end time is set. *)
Theorem run_isolates_every_failure :
  forall (env : Env) (w : World),
    batch_ready (proc w) = true ->
    preview_mode (config (proc w)) = false ->
    jobs (proc w) <> [] ->
    no_arrivals env (jobs (proc w)) = true ->
    exists w',
      start_processing env w = (Ok tt, w') /\
      let t := status_tracker (proc w') in
      let s := Status.get_summary t in
      (forall y, In y (jobs (proc w)) ->
         Status.state_of t (Queue.id y) = Some (rendered_state env y)) /\
      Status.failed s = failures env (jobs (proc w)) /\
      Status.completed s = batch_size (proc w) - failures env (jobs (proc w)) /\
      Status.pending s = 0 /\ Status.processing s = 0 /\ Status.cancelled s = 0 /\
      Status.total s = batch_size (proc w) /\
      Status.s_end_time s <> None /\
      size (queue (proc w')) = 0 /\
      _processing (proc w') = false.
Proof.
  intros env w Hr Hpm Hne Hna.
  destruct (start_processing_drains env w Hr Hpm Hne Hna) as (t' & tc' & Hrun & Hbm).
  destruct (drained_summary env (proc w) t' Hr Hne Hbm)
    as (D1 & D2 & D3 & D4 & D5 & D6 & D7 & _).
  destruct (batch_ready_facts (proc w) Hr) as (_ & _ & _ & _ & _ & Hproc & _).
  destruct Hbm as (A1 & _).
  eexists. split; [exact Hrun|].
  cbn [proc status_tracker set_status_tracker queue set_queue size _size
       _processing set_paused set_cancelled].
  repeat split; auto.
Qed.

Lemma run_isolates_every_failure_witness :
  exists w',
    start_processing (demo_env "id-1" "none") (demo_world false) = (Ok tt, w') /\
    let t := status_tracker (proc w') in
    let s := Status.get_summary t in
    (forall y, In y (jobs (proc (demo_world false))) ->
       Status.state_of t (Queue.id y)
       = Some (rendered_state (demo_env "id-1" "none") y)) /\
    Status.failed s
    = failures (demo_env "id-1" "none") (jobs (proc (demo_world false))) /\
    Status.completed s
    = batch_size (proc (demo_world false))
      - failures (demo_env "id-1" "none") (jobs (proc (demo_world false))) /\
    Status.pending s = 0 /\ Status.processing s = 0 /\ Status.cancelled s = 0 /\
    Status.total s = batch_size (proc (demo_world false)) /\
    Status.s_end_time s <> None /\
    size (queue (proc w')) = 0 /\
    _processing (proc w') = false.
Proof.
  apply (run_isolates_every_failure (demo_env "id-1" "none") (demo_world false));
    vm_compute; congruence.
Defined.

(** *** Pause, resume and cancel at any job *)

(** On a ready batch without preview mode, if a pause request is among
    the requests that arrive while some job is in flight and nothing
    arrived before, then when [start_processing] returns that job and the
    jobs before it have the state their rendering gave them, the jobs after
    it are still pending and still queued in their order (also when a
    cancel request arrived with the pause), the paused flag is set and the
    processing flag is cleared. *)
Theorem pause_leaves_remaining_jobs_queued :
  forall (env : Env) (w : World) (before : list ImageQueueItem)
         (x : ImageQueueItem) (rest : list ImageQueueItem),
    batch_ready (proc w) = true ->
    preview_mode (config (proc w)) = false ->
    jobs (proc w) = before ++ x :: rest ->
    no_arrivals env before = true ->
    existsb is_pause (arrivals env x) = true ->
    exists w1,
      start_processing env w = (Ok tt, w1) /\
      let t := status_tracker (proc w1) in
      let s := Status.get_summary t in
      (forall y, In y (before ++ [x]) ->
         Status.state_of t (Queue.id y) = Some (rendered_state env y)) /\
      (forall y, In y rest -> Status.state_of t (Queue.id y) = Some "pending") /\
      jobs (proc w1) = rest /\
      size (queue (proc w1)) = Z.of_nat (length rest) /\
      Status.pending s = Z.of_nat (length rest) /\
      Status.processing s = 0 /\
      Status.cancelled s = 0 /\
      Status.completed s + Status.failed s = Z.of_nat (length before) + 1 /\
      _paused (proc w1) = true /\
      _processing (proc w1) = false.
Proof.
  intros env w before x rest Hr Hpm Hjobs Hna Harr.
  assert (Hidle : idle_with (proc w) (before ++ x :: rest)).
  { rewrite <- Hjobs. apply batch_ready_idle; auto.
    rewrite Hjobs. now destruct before. }
  destruct (start_processing_pause_at env w before x rest Hidle Hna Harr)
    as (t1 & w1 & Hrun & Hw1 & _ & Hbm & Hpend).
  destruct (rendered_counts env (proc w) t1 _ Hr Hbm) as (C1 & C2 & C3 & C4 & C5 & _).
  destruct (StatusFacts.summary_fields t1) as (S1 & S2 & S3 & S4 & S5 & _).
  destruct (batch_ready_facts (proc w) Hr) as (_ & _ & _ & _ & _ & Hproc & _).
  exists w1. split; [exact Hrun|]. rewrite Hw1.
  unfold jobs, size.
  cbn [status_tracker set_status_tracker queue set_queue _queue _size _paused
       _processing set_paused set_cancelled].
  cbv zeta. rewrite S1, S2, S3, S4, S5, C1, C2, C3, C4, C5.
  unfold batch_size. rewrite Hjobs, !length_app. cbn [length].
  destruct Hbm as (B1 & _).
  repeat split; auto; lia.
Qed.

Lemma pause_leaves_remaining_jobs_queued_witness :
  exists w1,
    start_processing (control_env "id-0" "id-1" [ReqPause]) (demo_world false)
    = (Ok tt, w1) /\
    let t := status_tracker (proc w1) in
    let s := Status.get_summary t in
    (forall y, In y ([job_0] ++ [job_1]) ->
       Status.state_of t (Queue.id y)
       = Some (rendered_state (control_env "id-0" "id-1" [ReqPause]) y)) /\
    (forall y, In y [job_2] -> Status.state_of t (Queue.id y) = Some "pending") /\
    jobs (proc w1) = [job_2] /\
    size (queue (proc w1)) = Z.of_nat (length [job_2]) /\
    Status.pending s = Z.of_nat (length [job_2]) /\
    Status.processing s = 0 /\
    Status.cancelled s = 0 /\
    Status.completed s + Status.failed s = Z.of_nat (length [job_0]) + 1 /\
    _paused (proc w1) = true /\
    _processing (proc w1) = false.
Proof.
  apply (pause_leaves_remaining_jobs_queued
           (control_env "id-0" "id-1" [ReqPause]) (demo_world false)
           [job_0] job_1 [job_2]); vm_compute; reflexivity.
Defined.

(** After such a pause with at least one job left, [resume_processing]
    (nothing arriving any more) runs the remaining jobs: it returns
    normally, and the final counts are those of an undisturbed run, every
    job being completed or failed as its rendering decides.  A cancel
    request that arrived together with the pause has no effect. *)
Theorem pause_then_resume_finishes_batch :
  forall (env : Env) (w : World) (before : list ImageQueueItem)
         (x : ImageQueueItem) (rest : list ImageQueueItem),
    batch_ready (proc w) = true ->
    preview_mode (config (proc w)) = false ->
    jobs (proc w) = before ++ x :: rest ->
    rest <> [] ->
    no_arrivals env before = true ->
    existsb is_pause (arrivals env x) = true ->
    no_arrivals env rest = true ->
    exists w1 w2,
      start_processing env w = (Ok tt, w1) /\
      resume_processing env w1
      = ((Ok tt, w2), [(INFO, "Resuming batch processing")]) /\
      let t := status_tracker (proc w2) in
      let s := Status.get_summary t in
      (forall y, In y (jobs (proc w)) ->
         Status.state_of t (Queue.id y) = Some (rendered_state env y)) /\
      Status.failed s = failures env (jobs (proc w)) /\
      Status.completed s = batch_size (proc w) - failures env (jobs (proc w)) /\
      Status.pending s = 0 /\ Status.processing s = 0 /\ Status.cancelled s = 0 /\
      Status.s_end_time s <> None /\
      size (queue (proc w2)) = 0 /\
      _paused (proc w2) = false /\
      _processing (proc w2) = false.
Proof.
  intros env w before x rest Hr Hpm Hjobs Hne Hna Harr Hna2.
  assert (Hne0 : jobs (proc w) <> []) by (rewrite Hjobs; now destruct before).
  assert (Hidle : idle_with (proc w) (before ++ x :: rest)).
  { rewrite <- Hjobs. apply batch_ready_idle; auto. }
  destruct (start_processing_pause_at env w before x rest Hidle Hna Harr)
    as (t1 & w1 & Hrun & Hw1 & _ & Hbm & Hpend).
  pose proof Hidle as (Hq & Hproc & _ & Hnd & _ & _).
  set (w1' := mkWorld (set_paused false (proc w1)) (uuid_calls w1) (time_calls w1)).
  assert (Hidle1 : idle_with (proc w1') rest).
  { unfold w1'. cbn [proc]. rewrite Hw1. unfold idle_with.
    cbn [queue set_paused set_status_tracker set_queue _processing config
         status_tracker set_cancelled].
    repeat split; auto.
    - rewrite map_app in Hnd. apply NoDup_app_remove_l in Hnd.
      cbn [map] in Hnd. now inversion Hnd.
    - destruct Hbm as (_ & _ & _ & _ & H). exact H. }
  destruct (start_processing_idle_drains env w1' rest Hidle1 Hne Hna2)
    as (t2 & w2 & Hrun2 & Hw2 & _ & Hbm2).
  assert (Hall : batch_moved (status_tracker (proc w)) t2 (jobs (proc w))
                   (fun y => final_state (render env y))).
  { rewrite Hjobs.
    replace (before ++ x :: rest) with ((before ++ [x]) ++ rest)
      by (now rewrite <- app_assoc).
    eapply batch_moved_app; [|exact Hbm|].
    - intros y Hy. apply NoDup_app_disjoint with (l1 := before ++ [x]); [|exact Hy].
      now rewrite <- app_assoc.
    - unfold w1' in Hbm2. cbn [proc] in Hbm2. rewrite Hw1 in Hbm2. exact Hbm2. }
  destruct (drained_summary env (proc w) t2 Hr Hne0 Hall)
    as (D1 & D2 & D3 & D4 & D5 & _ & D7 & _).
  exists w1, w2. split; [exact Hrun|]. split.
  - unfold resume_processing.
    replace (_paused (proc w1)) with true by (rewrite Hw1; reflexivity).
    cbn [negb]. unfold bind, modify_proc. fold w1'. now rewrite Hrun2.
  - rewrite Hw2. unfold size.
    cbn [status_tracker set_status_tracker queue set_queue _size _paused
         _processing set_paused set_cancelled proc w1'].
    rewrite Hw1. cbn [_processing set_status_tracker set_queue set_paused set_cancelled].
    destruct Hall as (A1 & _).
    repeat split; auto.
Qed.

Lemma pause_then_resume_finishes_batch_witness :
  exists w1 w2,
    start_processing (control_env "id-0" "id-1" [ReqCancel; ReqPause]) (demo_world false)
    = (Ok tt, w1) /\
    resume_processing (control_env "id-0" "id-1" [ReqCancel; ReqPause]) w1
    = ((Ok tt, w2), [(INFO, "Resuming batch processing")]) /\
    let t := status_tracker (proc w2) in
    let s := Status.get_summary t in
    (forall y, In y (jobs (proc (demo_world false))) ->
       Status.state_of t (Queue.id y)
       = Some (rendered_state (control_env "id-0" "id-1" [ReqCancel; ReqPause]) y)) /\
    Status.failed s
    = failures (control_env "id-0" "id-1" [ReqCancel; ReqPause]) (jobs (proc (demo_world false))) /\
    Status.completed s
    = batch_size (proc (demo_world false))
      - failures (control_env "id-0" "id-1" [ReqCancel; ReqPause]) (jobs (proc (demo_world false))) /\
    Status.pending s = 0 /\ Status.processing s = 0 /\ Status.cancelled s = 0 /\
    Status.s_end_time s <> None /\
    size (queue (proc w2)) = 0 /\
    _paused (proc w2) = false /\
    _processing (proc w2) = false.
Proof.
  apply (pause_then_resume_finishes_batch
           (control_env "id-0" "id-1" [ReqCancel; ReqPause]) (demo_world false)
           [job_0] job_1 [job_2]); vm_compute; congruence.
Defined.

(** If the pause request arrives while the last job is in flight, the run
    ends with every job rendered and the paused flag still set; a
    following [resume_processing] clears the flag and then raises
    [BatchProcessingError], because the queue is empty, and leaves the
    tracker as it was. *)
Theorem resume_after_pause_on_last_job_raises :
  forall (env : Env) (w : World) (before : list ImageQueueItem) (x : ImageQueueItem),
    batch_ready (proc w) = true ->
    preview_mode (config (proc w)) = false ->
    jobs (proc w) = before ++ [x] ->
    no_arrivals env before = true ->
    existsb is_pause (arrivals env x) = true ->
    exists w1 w2,
      start_processing env w = (Ok tt, w1) /\
      Status.is_complete (Status.get_summary (status_tracker (proc w1))) = true /\
      size (queue (proc w1)) = 0 /\
      _paused (proc w1) = true /\
      resume_processing env w1
      = ((Raise (BatchProcessingError "Cannot start processing: queue is empty"), w2),
         [(INFO, "Resuming batch processing")]) /\
      status_tracker (proc w2) = status_tracker (proc w1) /\
      _paused (proc w2) = false.
Proof.
  intros env w before x Hr Hpm Hjobs Hna Harr.
  assert (Hidle : idle_with (proc w) (before ++ [x])).
  { rewrite <- Hjobs. apply batch_ready_idle; auto.
    rewrite Hjobs. now destruct before. }
  destruct (start_processing_pause_at env w before x [] Hidle Hna Harr)
    as (t1 & w1 & Hrun & Hw1 & _ & Hbm & _).
  destruct (rendered_counts env (proc w) t1 _ Hr Hbm) as (_ & _ & C3 & C4 & C5 & C6).
  destruct (StatusFacts.summary_fields t1) as (_ & _ & S3 & S4 & S5 & _ & S7).
  exists w1. eexists. split; [exact Hrun|].
  unfold resume_processing, start_processing, bind, modify_proc, get_proc, raise, size.
  rewrite Hw1.
  cbn [proc status_tracker set_status_tracker queue set_queue _size _paused
       set_paused set_cancelled negb length Z.of_nat Z.eqb].
  repeat split.
  unfold Status.is_complete. rewrite S3, S4, S5, S7, C3, C4, C5, C6, Hjobs.
  apply Z.eqb_eq. lia.
Qed.

Lemma resume_after_pause_on_last_job_raises_witness :
  exists w1 w2,
    start_processing (control_env "none" "id-2" [ReqPause]) (demo_world false)
    = (Ok tt, w1) /\
    Status.is_complete (Status.get_summary (status_tracker (proc w1))) = true /\
    size (queue (proc w1)) = 0 /\
    _paused (proc w1) = true /\
    resume_processing (control_env "none" "id-2" [ReqPause]) w1
    = ((Raise (BatchProcessingError "Cannot start processing: queue is empty"), w2),
       [(INFO, "Resuming batch processing")]) /\
    status_tracker (proc w2) = status_tracker (proc w1) /\
    _paused (proc w2) = false.
Proof.
  apply (resume_after_pause_on_last_job_raises
           (control_env "none" "id-2" [ReqPause]) (demo_world false)
           [job_0; job_1] job_2); vm_compute; reflexivity.
Defined.

(** *** Cancellation *)

(** C7 as worded does not hold: when exactly one job has finished and the
    request is made, the second job is in flight, and that job is rendered,
    not cancelled. *)
Lemma C7_cancel_after_one_job_counterexample :
  ~ cancel_after_one_job_cancels_all_others.
Proof.
  intros H.
  destruct (H (demo_env "none" "id-1") (demo_world false) job_0 job_1 [job_2])
    as (w' & Hrun & _ & Hc & _); try reflexivity.
  specialize (Hc job_1 (or_introl eq_refl)).
  vm_compute in Hrun. injection Hrun as <-.
  vm_compute in Hc. discriminate Hc.
Qed.

(** C7, amended. On a ready batch of [n] jobs without preview mode, if the
    cancel request is made while some job is in flight, [k] jobs having
    finished before it and no request having been made until then, then
    when [start_processing] returns the [k + 1] jobs up to the one in flight
    are in the terminal state their rendering gave them (completed or
    failed), each of the other [n - (k + 1)] jobs has been dequeued and is
    cancelled, and no job is pending or processing.  The job in flight is
    never cancelled: a request made while the second job is in flight,
    exactly one job having finished ([k = 1]), leaves two rendered jobs and
    [n - 2] cancelled ones; one rendered job and [n - 1] cancelled ones is
    the outcome of a request made while the first job is in flight
    ([k = 0]). *)
Theorem C7_cancel_spares_the_job_in_flight :
  forall (env : Env) (w : World) (before : list ImageQueueItem)
         (x : ImageQueueItem) (rest : list ImageQueueItem),
    batch_ready (proc w) = true ->
    preview_mode (config (proc w)) = false ->
    jobs (proc w) = before ++ x :: rest ->
    no_arrivals env before = true ->
    arrivals env x = [ReqCancel] ->
    exists w',
      start_processing env w = (Ok tt, w') /\
      let t := status_tracker (proc w') in
      let s := Status.get_summary t in
      let n := batch_size (proc w) in
      let k := Z.of_nat (length before) in
      (forall y, In y (before ++ [x]) ->
         Status.state_of t (Queue.id y) = Some (final_state (render env y)) /\
         is_terminal t (Queue.id y) = true) /\
      (forall y, In y rest ->
         Status.state_of t (Queue.id y) = Some "cancelled") /\
      queue (proc w') = mkQueue [] 0 /\
      Status.total s = n /\
      Status.completed s + Status.failed s = k + 1 /\
      Status.cancelled s = n - (k + 1) /\
      Status.pending s = 0 /\
      Status.processing s = 0.
Proof.
  intros env w before x rest Hr Hpm Hjobs Hna Harr.
  assert (Hidle : idle_with (proc w) (before ++ x :: rest)).
  { rewrite <- Hjobs. apply batch_ready_idle; auto.
    rewrite Hjobs. now destruct before. }
  destruct (start_processing_cancel_at env w before x rest Hidle Hna Harr)
    as (t1 & t' & w1 & Hrun & Hw1 & _ & Hbm & Hbc).
  destruct (rendered_counts env (proc w) t1 _ Hr Hbm) as (C1 & C2 & C3 & C4 & C5 & C6).
  destruct (StatusFacts.summary_fields t') as (S1 & S2 & S3 & S4 & S5 & S6 & S7).
  destruct (batch_ready_facts (proc w) Hr) as (_ & Hnd & _ & _ & _ & Hproc & _).
  destruct Hbm as (A1 & _). destruct Hbc as (B1 & B2 & B3 & B4 & B5).
  assert (Hlen : batch_size (proc w)
                 = Z.of_nat (length before) + 1 + Z.of_nat (length rest)).
  { unfold batch_size. rewrite Hjobs, length_app. cbn [length]. lia. }
  assert (Hstate : forall y, In y (before ++ [x]) ->
            Status.state_of t' (Queue.id y) = Some (final_state (render env y))).
  { intros y Hy. rewrite B2; [now apply A1|].
    apply NoDup_app_disjoint with (l1 := before ++ [x]); [|exact Hy].
    rewrite <- app_assoc. cbn [app]. now rewrite <- Hjobs. }
  exists w1. split; [exact Hrun|]. rewrite Hw1.
  cbn [proc status_tracker set_status_tracker queue set_queue].
  cbv zeta. rewrite S1, S2, S3, S4, S5, S7.
  split; [|split; [exact B1 | split; [reflexivity|] ]].
  - intros y Hy. split; [now apply Hstate|].
    unfold is_terminal. rewrite (Hstate y Hy). unfold final_state.
    destruct (is_rendered (render env y)); reflexivity.
  - rewrite B4, C6, !B3, C1, C2, C3, C4, C5, !count_fin_const, length_app.
    cbn [length]. fold (batch_size (proc w)). rewrite Hlen.
    cbv [String.eqb Ascii.eqb Bool.eqb Z.b2z andb]. lia.
Qed.

Lemma C7_cancel_spares_the_job_in_flight_witness :
  exists w',
    start_processing (demo_env "id-0" "id-1") (demo_world false) = (Ok tt, w') /\
    let t := status_tracker (proc w') in
    let s := Status.get_summary t in
    let n := batch_size (proc (demo_world false)) in
    let k := Z.of_nat (length [job_0]) in
    (forall y, In y ([job_0] ++ [job_1]) ->
       Status.state_of t (Queue.id y)
       = Some (final_state (render (demo_env "id-0" "id-1") y)) /\
       is_terminal t (Queue.id y) = true) /\
    (forall y, In y [job_2] ->
       Status.state_of t (Queue.id y) = Some "cancelled") /\
    queue (proc w') = mkQueue [] 0 /\
    Status.total s = n /\
    Status.completed s + Status.failed s = k + 1 /\
    Status.cancelled s = n - (k + 1) /\
    Status.pending s = 0 /\
    Status.processing s = 0.
Proof.
  apply (C7_cancel_spares_the_job_in_flight
           (demo_env "id-0" "id-1") (demo_world false)
           [job_0] job_1 [job_2]); vm_compute; reflexivity.
Defined.

(** On a ready batch without preview mode, if a cancel request arrives
    while some job is in flight and nothing arrived before, then when
    [start_processing] returns that job and the jobs before it have the
    state their rendering gave them, every job after it has been dequeued
    and is cancelled, nothing is pending or processing, and the batch end
    time is set. *)
Theorem cancel_at_any_job_cancels_the_rest :
  forall (env : Env) (w : World) (before : list ImageQueueItem)
         (x : ImageQueueItem) (rest : list ImageQueueItem),
    batch_ready (proc w) = true ->
    preview_mode (config (proc w)) = false ->
    jobs (proc w) = before ++ x :: rest ->
    no_arrivals env before = true ->
    arrivals env x = [ReqCancel] ->
    exists w',
      start_processing env w = (Ok tt, w') /\
      let t := status_tracker (proc w') in
      let s := Status.get_summary t in
      (forall y, In y (before ++ [x]) ->
         Status.state_of t (Queue.id y) = Some (rendered_state env y)) /\
      (forall y, In y rest -> Status.state_of t (Queue.id y) = Some "cancelled") /\
      queue (proc w') = mkQueue [] 0 /\
      Status.completed s + Status.failed s = Z.of_nat (length before) + 1 /\
      Status.cancelled s = Z.of_nat (length rest) /\
      Status.pending s = 0 /\
      Status.processing s = 0 /\
      Status.s_end_time s <> None /\
      _processing (proc w') = false.
Proof.
  intros env w before x rest Hr Hpm Hjobs Hna Harr.
  assert (Hidle : idle_with (proc w) (before ++ x :: rest)).
  { rewrite <- Hjobs. apply batch_ready_idle; auto.
    rewrite Hjobs. now destruct before. }
  destruct (start_processing_cancel_at env w before x rest Hidle Hna Harr)
    as (t1 & t' & w1 & Hrun & Hw1 & _ & Hbm & Hbc).
  destruct (rendered_counts env (proc w) t1 _ Hr Hbm) as (C1 & C2 & C3 & C4 & C5 & C6).
  destruct (StatusFacts.summary_fields t') as (S1 & S2 & S3 & S4 & S5 & S6 & S7).
  destruct (batch_ready_facts (proc w) Hr) as (_ & Hnd & _ & _ & _ & Hproc & _).
  destruct Hbm as (A1 & _). destruct Hbc as (B1 & B2 & B3 & B4 & B5).
  assert (E1 : count_state "pending" t' = 0).
  { rewrite B3, C1, count_fin_const. unfold batch_size.
    rewrite Hjobs, !length_app. cbn [length].
    cbv [String.eqb Ascii.eqb Bool.eqb Z.b2z andb]. lia. }
  assert (E2 : count_state "processing" t' = 0).
  { rewrite B3, C2, count_fin_const. cbv [String.eqb Ascii.eqb Bool.eqb Z.b2z andb]. lia. }
  assert (E3 : count_state "cancelled" t' = Z.of_nat (length rest)).
  { rewrite B3, C3, count_fin_const. cbv [String.eqb Ascii.eqb Bool.eqb Z.b2z andb]. lia. }
  assert (E4 : count_state "completed" t' + count_state "failed" t'
               = Z.of_nat (length before) + 1).
  { rewrite !B3, C4, C5, !count_fin_const. rewrite length_app. cbn [length].
    cbv [String.eqb Ascii.eqb Bool.eqb Z.b2z andb]. lia. }
  exists w1. split; [exact Hrun|]. rewrite Hw1.
  cbn [status_tracker set_status_tracker queue set_queue _processing
       set_paused set_cancelled].
  cbv zeta. rewrite S1, S2, S3, S4, S5, S6.
  split; [|split; [exact B1 | repeat split; auto]].
  - intros y Hy. rewrite B2; [now apply A1|].
    apply NoDup_app_disjoint with (l1 := before ++ [x]); [|exact Hy].
    rewrite <- app_assoc. cbn [app]. now rewrite <- Hjobs.
  - apply B5. unfold Status.is_complete. rewrite S3, S4, S5, S7, E3, B4, C6.
    apply Z.eqb_eq. rewrite Hjobs, length_app. cbn [length]. lia.
Qed.

Lemma cancel_at_any_job_cancels_the_rest_witness :
  exists w',
    start_processing (control_env "id-0" "id-1" [ReqCancel]) (demo_world false)
    = (Ok tt, w') /\
    let t := status_tracker (proc w') in
    let s := Status.get_summary t in
    (forall y, In y ([job_0] ++ [job_1]) ->
       Status.state_of t (Queue.id y)
       = Some (rendered_state (control_env "id-0" "id-1" [ReqCancel]) y)) /\
    (forall y, In y [job_2] -> Status.state_of t (Queue.id y) = Some "cancelled") /\
    queue (proc w') = mkQueue [] 0 /\
    Status.completed s + Status.failed s = Z.of_nat (length [job_0]) + 1 /\
    Status.cancelled s = Z.of_nat (length [job_2]) /\
    Status.pending s = 0 /\
    Status.processing s = 0 /\
    Status.s_end_time s <> None /\
    _processing (proc w') = false.
Proof.
  apply (cancel_at_any_job_cancels_the_rest
           (control_env "id-0" "id-1" [ReqCancel]) (demo_world false)
           [job_0] job_1 [job_2]); vm_compute; reflexivity.
Defined.

(** *** No job is lost, whatever control calls arrive *)

(** On a ready batch without preview mode, whatever pause and cancel
    requests arrive while jobs are in flight, [start_processing] returns
    normally with the processing flag cleared; the jobs split into those
    that were rendered, which have the state their rendering gave them and
    include the first job, and the others, which are either all still
    pending and exactly the queue, in order, or all cancelled with the queue
    empty.  No job is left processing, and the pending count is the size of
    the queue. *)
Theorem run_accounts_for_every_job :
  forall (env : Env) (w : World),
    batch_ready (proc w) = true ->
    preview_mode (config (proc w)) = false ->
    jobs (proc w) <> [] ->
    exists w' done left,
      start_processing env w = (Ok tt, w') /\
      jobs (proc w) = done ++ left /\
      done <> [] /\
      let t := status_tracker (proc w') in
      let s := Status.get_summary t in
      (forall y, In y done ->
         Status.state_of t (Queue.id y) = Some (rendered_state env y)) /\
      ((jobs (proc w') = left /\
        forall y, In y left -> Status.state_of t (Queue.id y) = Some "pending") \/
       (jobs (proc w') = [] /\
        forall y, In y left -> Status.state_of t (Queue.id y) = Some "cancelled")) /\
      Status.processing s = 0 /\
      Status.pending s = size (queue (proc w')) /\
      Status.completed s + Status.failed s = Z.of_nat (length done) /\
      Status.total s = batch_size (proc w) /\
      _processing (proc w') = false.
Proof.
  intros env w Hr Hpm Hne.
  pose proof (batch_ready_idle (proc w) Hr Hpm Hne) as Hidle.
  destruct (jobs (proc w)) as [|x rest] eqn:Hjobs; [congruence|].
  destruct (start_processing_any env w x rest Hidle)
    as (w1 & t1 & done & left & Hrun & Hproc & Hsplit & Hbm & Hend).
  destruct (rendered_counts env (proc w) t1 _ Hr Hbm) as (C1 & C2 & C3 & C4 & C5 & C6).
  destruct (batch_ready_facts (proc w) Hr) as (_ & Hnd & Hpend & _).
  rewrite Hjobs, Hsplit in Hnd. rewrite Hjobs in Hpend.
  unfold batch_size in *. rewrite Hjobs in *.
  exists w1, (x :: done), left.
  split; [exact Hrun|]. split; [exact Hsplit|]. split; [discriminate|].
  cbv zeta.
  destruct (StatusFacts.summary_fields (status_tracker (proc w1)))
    as (S1 & S2 & S3 & S4 & S5 & _ & S7).
  rewrite S1, S2, S3, S4, S7. unfold jobs, size.
  destruct Hbm as (A1 & A2 & _).
  assert (Hlen : length (x :: rest) = (length (x :: done) + length left)%nat)
    by (rewrite Hsplit; apply length_app).
  destruct Hend as [[Ht Hq] | [(B1 & B2 & B3 & B4 & _) Hq]].
  - rewrite Ht, Hq, C1, C2, C4, C5, C6. cbn [_queue _size].
    split; [exact A1|]. split; [left; split; [reflexivity|]|].
    + intros y Hy. rewrite A2 by (now apply (NoDup_app_disjoint_r (x :: done) left)).
      apply Hpend. rewrite Hsplit. apply in_or_app. now right.
    + repeat split; auto; lia.
  - rewrite Hq, !B3, B4, C1, C2, C4, C5, C6, !count_fin_const. cbn [_queue _size].
    cbv [String.eqb Ascii.eqb Bool.eqb Z.b2z andb].
    split; [|split; [right; split; [reflexivity | exact B1]|]].
    + intros y Hy. rewrite B2 by (now apply (NoDup_app_disjoint (x :: done) left)).
      now apply A1.
    + repeat split; auto; lia.
Qed.

Lemma run_accounts_for_every_job_witness :
  exists w' done left,
    start_processing (control_env "id-0" "id-1" [ReqCancel; ReqPause]) (demo_world false)
    = (Ok tt, w') /\
    jobs (proc (demo_world false)) = done ++ left /\
    done <> [] /\
    let t := status_tracker (proc w') in
    let s := Status.get_summary t in
    (forall y, In y done ->
       Status.state_of t (Queue.id y)
       = Some (rendered_state (control_env "id-0" "id-1" [ReqCancel; ReqPause]) y)) /\
    ((jobs (proc w') = left /\
      forall y, In y left -> Status.state_of t (Queue.id y) = Some "pending") \/
     (jobs (proc w') = [] /\
      forall y, In y left -> Status.state_of t (Queue.id y) = Some "cancelled")) /\
    Status.processing s = 0 /\
    Status.pending s = size (queue (proc w')) /\
    Status.completed s + Status.failed s = Z.of_nat (length done) /\
    Status.total s = batch_size (proc (demo_world false)) /\
    _processing (proc w') = false.
Proof.
  apply (run_accounts_for_every_job
           (control_env "id-0" "id-1" [ReqCancel; ReqPause]) (demo_world false));
    vm_compute; congruence.
Defined.

(** *** Adding images *)

(** [add_images] on a processor that was just constructed, the ids drawn
    from [uuid4] being distinct: the paths that pass the file check and for
    which an output path can be made are queued in the order given, each as
    a pending job of priority 0 and type line art, and the result is a
    ready batch; the other paths are skipped.  If no path can be queued the
    call raises [ValidationError] and the processor is as it was made. *)
Theorem add_images_queues_valid_paths :
  forall (env : Env) (cfg : BatchConfig) (dev : Memory.device_type)
         (u t : nat) (paths : list string),
    distinct (map (uuid4 env) (seq u (length paths))) = true ->
    exists r w',
      add_images env paths (mkWorld (BatchProcessor_init cfg dev) u t) = (r, w') /\
      (filter (addable env cfg) paths <> [] ->
       r = Ok tt /\
       batch_ready (proc w') = true /\
       map Queue.input_path (jobs (proc w')) = filter (addable env cfg) paths /\
       Forall (fun x => priority x = 0 /\ image_type x = Some "line_art")
              (jobs (proc w')) /\
       config (proc w') = cfg) /\
      (filter (addable env cfg) paths = [] ->
       (exists msg, r = Raise (ValidationError msg)) /\
       proc w' = BatchProcessor_init cfg dev).
Proof.
  intros env cfg dev u t paths Hd. apply distinct_NoDup in Hd.
  destruct paths as [|p paths].
  { eexists _, _. split; [reflexivity|]. split; [intros H; now elim H|].
    intros _. split; [eauto | reflexivity]. }
  destruct (add_images_loop_upto env cfg dev u _ (p :: paths) 0 []
              (mkWorld (BatchProcessor_init cfg dev) u t) 0 0 Hd)
    as (w' & i' & Hloop & Hadd); [cbn; lia | cbn; lia | |].
  { exists [], None. cbn. repeat split; auto; try constructor. intros i []. }
  cbn [app] in Hadd.
  destruct (added_upto_ready env cfg dev u _ w' Hadd) as (Hr & Hin & Hall & Hc & Hinit).
  unfold add_images, bind. rewrite Hloop. cbn [fst snd].
  destruct (filter (addable env cfg) (p :: paths)) as [|g good] eqn:Eg.
  - cbn [length Z.of_nat Z.add Z.eqb]. unfold raise.
    eexists _, _. split; [reflexivity|]. split; [intros H; now elim H|].
    intros _. split; [eauto | now apply Hinit].
  - replace (0 + Z.of_nat (length (g :: good)) =? 0) with false
      by (symmetry; apply Z.eqb_neq; cbn [length]; lia).
    unfold ret. eexists _, _. split; [reflexivity|].
    split; [auto | discriminate].
Qed.

Lemma add_images_queues_valid_paths_witness :
  exists r w',
    add_images picky_env ["a.png"; "notes.txt"; "locked.png"; "b.png"]
      (mkWorld (BatchProcessor_init (demo_config false) Memory.cpu) 0 0) = (r, w') /\
    (filter (addable picky_env (demo_config false))
            ["a.png"; "notes.txt"; "locked.png"; "b.png"] <> [] ->
     r = Ok tt /\
     batch_ready (proc w') = true /\
     map Queue.input_path (jobs (proc w'))
     = filter (addable picky_env (demo_config false))
              ["a.png"; "notes.txt"; "locked.png"; "b.png"] /\
     Forall (fun x => priority x = 0 /\ image_type x = Some "line_art")
            (jobs (proc w')) /\
     config (proc w') = demo_config false) /\
    (filter (addable picky_env (demo_config false))
            ["a.png"; "notes.txt"; "locked.png"; "b.png"] = [] ->
     (exists msg, r = Raise (ValidationError msg)) /\
     proc w' = BatchProcessor_init (demo_config false) Memory.cpu).
Proof.
  apply (add_images_queues_valid_paths picky_env (demo_config false) Memory.cpu 0 0
           ["a.png"; "notes.txt"; "locked.png"; "b.png"]).
  vm_compute. reflexivity.
Defined.

(** *** Processing one job *)

(** [process_single_image] on any item in any state of the processor
    returns normally exactly when the rendering succeeds and otherwise
    raises [ImageProcessingError] for the item's input path.  It leaves the
    queue, the configuration, the processing flag and the preview state as
    they are, and the status of every other job.  If the item's id is
    tracked the job ends in the state its rendering decides; if it is not
    tracked the tracker is unchanged. *)
Theorem process_single_image_outcome :
  forall (env : Env) (x : ImageQueueItem) (w : World),
    exists r w',
      process_single_image env x w = (r, w') /\
      (r = Ok tt <-> is_rendered (render env x) = true) /\
      (is_rendered (render env x) = false ->
       exists m, r = Raise (ImageProcessingError (Queue.input_path x) m)) /\
      queue (proc w') = queue (proc w) /\
      config (proc w') = config (proc w) /\
      _processing (proc w') = _processing (proc w) /\
      _preview_processed (proc w') = _preview_processed (proc w) /\
      _preview_approved (proc w') = _preview_approved (proc w) /\
      _preview_result (proc w') = _preview_result (proc w) /\
      (forall j, j <> Queue.id x ->
         Status.state_of (status_tracker (proc w')) j
         = Status.state_of (status_tracker (proc w)) j) /\
      match Status.state_of (status_tracker (proc w)) (Queue.id x) with
      | Some _ =>
          Status.state_of (status_tracker (proc w')) (Queue.id x)
          = Some (rendered_state env x)
      | None => status_tracker (proc w') = status_tracker (proc w)
      end.
Proof.
  intros env x w.
  destruct (apply_requests_frame (arrivals env x) (proc w))
    as (F1 & F2 & F3 & F4 & F5 & F6 & F7).
  assert (Hiff : forall r : result unit,
            (is_rendered (render env x) = true -> r = Ok tt) ->
            (is_rendered (render env x) = false ->
             exists m, r = Raise (ImageProcessingError (Queue.input_path x) m)) ->
            (r = Ok tt <-> is_rendered (render env x) = true)).
  { intros r H1 H2. split; [|exact H1].
    intros ->. destruct (is_rendered (render env x)); [reflexivity|].
    destruct (H2 eq_refl) as (m & Hm). discriminate. }
  destruct (Status.state_of (status_tracker (proc w)) (Queue.id x)) as [old|] eqn:Hs.
  - destruct (process_single_image_tracked env x w old Hs)
      as (r & t' & tc' & Hrun & H1 & H2 & (A1 & A2 & _)).
    exists r. eexists. split; [exact Hrun|].
    cbn [proc queue config _processing _preview_processed _preview_approved
         _preview_result status_tracker set_status_tracker].
    split; [now apply Hiff|]. split; [exact H2|]. repeat split; auto.
  - destruct (process_single_image_untracked env x w Hs) as (r & Hrun & H1 & H2).
    exists r. eexists. split; [exact Hrun|]. cbn [proc].
    split; [now apply Hiff|]. split; [exact H2|]. rewrite F3. repeat split; auto.
Qed.

(** *** The preview calls outside a preview *)

(** When preview mode is off, or no preview has been processed,
    [approve_preview] and [reject_preview] raise [BatchProcessingError] and
    change nothing; when the preview is already approved [approve_preview]
    returns at once and changes nothing. *)
Theorem preview_calls_outside_preview :
  forall (env : Env) (w : World),
    (is_preview_mode (proc w) = false \/ _preview_processed (proc w) = false ->
     (exists msg, approve_preview env w = (Raise (BatchProcessingError msg), w)) /\
     (exists msg, reject_preview w = (Raise (BatchProcessingError msg), w))) /\
    (is_preview_mode (proc w) = true -> _preview_processed (proc w) = true ->
     _preview_approved (proc w) = true ->
     approve_preview env w = (Ok tt, w)).
Proof.
  intros env w. unfold is_preview_mode, approve_preview, reject_preview, bind, get_proc.
  split.
  - intros [H | H].
    + rewrite H. cbn [negb]. split; eexists; reflexivity.
    + rewrite H. destruct (preview_mode (config (proc w))); cbn [negb];
        split; eexists; reflexivity.
  - intros -> -> ->. reflexivity.
Qed.

Lemma preview_calls_outside_preview_witness :
  ((exists msg, approve_preview (demo_env "none" "none") (demo_world true)
                = (Raise (BatchProcessingError msg), demo_world true)) /\
   (exists msg, reject_preview (demo_world true)
                = (Raise (BatchProcessingError msg), demo_world true))) /\
  approve_preview (demo_env "none" "none")
    (snd (approve_preview (demo_env "none" "none")
            (snd (start_processing (demo_env "none" "none") (demo_world true)))))
  = (Ok tt,
     snd (approve_preview (demo_env "none" "none")
            (snd (start_processing (demo_env "none" "none") (demo_world true))))).
Proof.
  split.
  - apply (preview_calls_outside_preview (demo_env "none" "none") (demo_world true)).
    right. reflexivity.
  - apply (preview_calls_outside_preview (demo_env "none" "none")
             (snd (approve_preview (demo_env "none" "none")
                (snd (start_processing (demo_env "none" "none") (demo_world true))))));
      reflexivity.
Defined.

(** *** The preview run *)

(** In preview mode [start_processing] on a ready batch (no control call
    arriving) returns normally whether or not the first job renders.  The
    preview result names the job's input path and id and refers to its
    status; it holds the output path and no error if the rendering
    succeeded, and no output path and an error text if it failed.  The job
    has the state its rendering decides, the other jobs stay queued, and
    the processor waits for approval with the processing flag set. *)
Theorem preview_records_outcome :
  forall (env : Env) (w : World) (x : ImageQueueItem) (rest : list ImageQueueItem),
    batch_ready (proc w) = true ->
    preview_mode (config (proc w)) = true ->
    jobs (proc w) = x :: rest ->
    arrivals env x = [] ->
    exists w1 pr,
      start_processing env w = (Ok tt, w1) /\
      get_preview_result (proc w1) = Some pr /\
      pr_input_path pr = Queue.input_path x /\
      pr_image_id pr = Queue.id x /\
      pr_status pr = Some (Queue.id x) /\
      (is_rendered (render env x) = true ->
       pr_output_path pr = Some (Queue.output_path x) /\ pr_error pr = None) /\
      (is_rendered (render env x) = false ->
       pr_output_path pr = None /\ pr_error pr <> None) /\
      Status.state_of (status_tracker (proc w1)) (Queue.id x)
      = Some (rendered_state env x) /\
      jobs (proc w1) = rest /\
      is_waiting_for_preview_approval (proc w1) = true /\
      _processing (proc w1) = true.
Proof.
  intros env w x rest Hr Hpm Hjobs Harr.
  destruct (start_processing_preview_detail env x rest w Hr Hpm Hjobs Harr)
    as (t1 & pr & w1 & Hrun & Hw1 & (A1 & _) & P1 & P2 & P3 & P4 & P5).
  destruct (batch_ready_facts _ Hr) as (_ & _ & _ & _ & _ & _ & _ & Hpa).
  exists w1, pr. split; [exact Hrun|]. rewrite Hw1.
  unfold get_preview_result, is_waiting_for_preview_approval, jobs.
  cbn [_preview_result _preview_processed _preview_approved _processing
       status_tracker queue _queue set_preview_processed set_preview_result
       set_status_tracker set_queue set_paused set_cancelled set_processing].
  rewrite Hpa. repeat split; auto; try apply P4; try apply P5; auto.
Qed.

Lemma preview_records_outcome_witness :
  exists w1 pr,
    start_processing (demo_env "id-0" "none") (demo_world true) = (Ok tt, w1) /\
    get_preview_result (proc w1) = Some pr /\
    pr_input_path pr = Queue.input_path job_0 /\
    pr_image_id pr = Queue.id job_0 /\
    pr_status pr = Some (Queue.id job_0) /\
    (is_rendered (render (demo_env "id-0" "none") job_0) = true ->
     pr_output_path pr = Some (Queue.output_path job_0) /\ pr_error pr = None) /\
    (is_rendered (render (demo_env "id-0" "none") job_0) = false ->
     pr_output_path pr = None /\ pr_error pr <> None) /\
    Status.state_of (status_tracker (proc w1)) (Queue.id job_0)
    = Some (rendered_state (demo_env "id-0" "none") job_0) /\
    jobs (proc w1) = [job_1; job_2] /\
    is_waiting_for_preview_approval (proc w1) = true /\
    _processing (proc w1) = true.
Proof.
  apply (preview_records_outcome (demo_env "id-0" "none") (demo_world true)
           job_0 [job_1; job_2]); vm_compute; reflexivity.
Defined.

(** On a ready batch of a single job in preview mode, the preview run
    leaves the processor waiting for approval; [approve_preview] then
    returns normally, the job is in a terminal state and the queue empty,
    and the processor no longer waits, but the processing flag is still
    set. *)
Theorem approve_single_job_preview_keeps_processing_flag :
  forall (env : Env) (w : World) (x : ImageQueueItem),
    batch_ready (proc w) = true ->
    preview_mode (config (proc w)) = true ->
    jobs (proc w) = [x] ->
    arrivals env x = [] ->
    exists w1 w2,
      start_processing env w = (Ok tt, w1) /\
      is_waiting_for_preview_approval (proc w1) = true /\
      approve_preview env w1 = (Ok tt, w2) /\
      is_waiting_for_preview_approval (proc w2) = false /\
      is_terminal (status_tracker (proc w2)) (Queue.id x) = true /\
      size (queue (proc w2)) = 0 /\
      _processing (proc w2) = true.
Proof.
  intros env w x Hr Hpm Hjobs Harr.
  destruct (start_processing_preview_detail env x [] w Hr Hpm Hjobs Harr)
    as (t1 & pr & w1 & Hrun & Hw1 & (A1 & _) & _).
  destruct (batch_ready_facts _ Hr) as (_ & _ & _ & _ & _ & _ & _ & Hpa).
  exists w1. eexists. split; [exact Hrun|].
  destruct w1 as [bp1 u1 tc1]. cbn [proc] in Hw1. subst bp1.
  unfold approve_preview, _continue_after_preview, bind, get_proc, modify_proc, ret.
  unfold is_waiting_for_preview_approval, is_terminal, size.
  cbn [proc uuid_calls time_calls config _preview_processed _preview_approved
       _processing status_tracker
       queue _size set_preview_processed set_preview_result set_preview_approved
       set_status_tracker set_queue set_paused set_cancelled set_processing
       length Z.of_nat Z.eqb negb andb].
  rewrite Hpm, Hpa. cbn [negb andb].
  split; [reflexivity|]. split; [reflexivity|].
  cbn [proc _preview_processed _preview_approved _processing status_tracker
       queue _size set_preview_processed set_preview_result set_preview_approved
       set_status_tracker set_queue set_paused set_cancelled set_processing
       negb andb].
  rewrite A1. unfold rendered_state, final_state.
  destruct (is_rendered (render env x)); repeat split.
Qed.

Lemma approve_single_job_preview_keeps_processing_flag_witness :
  exists w1 w2,
    start_processing (demo_env "none" "none")
      (snd (add_images (demo_env "none" "none") ["a.png"]
              (mkWorld (BatchProcessor_init (demo_config true) Memory.cpu) 0 0)))
    = (Ok tt, w1) /\
    is_waiting_for_preview_approval (proc w1) = true /\
    approve_preview (demo_env "none" "none") w1 = (Ok tt, w2) /\
    is_waiting_for_preview_approval (proc w2) = false /\
    is_terminal (status_tracker (proc w2)) (Queue.id job_0) = true /\
    size (queue (proc w2)) = 0 /\
    _processing (proc w2) = true.
Proof.
  apply (approve_single_job_preview_keeps_processing_flag (demo_env "none" "none")
           (snd (add_images (demo_env "none" "none") ["a.png"]
                   (mkWorld (BatchProcessor_init (demo_config true) Memory.cpu) 0 0)))
           job_0); vm_compute; reflexivity.
Defined.

(** On a ready batch of at least two jobs in preview mode (no control
    call arriving), the preview run followed by [approve_preview] renders
    every job whatever fails: both calls return normally, each job has the
    state its rendering decides, the failed count is the number of failed
    renderings and all other jobs are completed, and the processing flag is
    cleared. *)
Theorem preview_then_approve_isolates_failures :
  forall (env : Env) (w : World) (x : ImageQueueItem) (rest : list ImageQueueItem),
    batch_ready (proc w) = true ->
    preview_mode (config (proc w)) = true ->
    jobs (proc w) = x :: rest ->
    rest <> [] ->
    no_arrivals env (jobs (proc w)) = true ->
    exists w1 w2,
      start_processing env w = (Ok tt, w1) /\
      approve_preview env w1 = (Ok tt, w2) /\
      let t := status_tracker (proc w2) in
      let s := Status.get_summary t in
      (forall y, In y (jobs (proc w)) ->
         Status.state_of t (Queue.id y) = Some (rendered_state env y)) /\
      Status.failed s = failures env (jobs (proc w)) /\
      Status.completed s = batch_size (proc w) - failures env (jobs (proc w)) /\
      Status.pending s = 0 /\ Status.processing s = 0 /\ Status.cancelled s = 0 /\
      Status.s_end_time s <> None /\
      size (queue (proc w2)) = 0 /\
      is_waiting_for_preview_approval (proc w2) = false /\
      _processing (proc w2) = false.
Proof.
  intros env w x rest Hr Hpm Hjobs Hne Hna.
  assert (Hne0 : jobs (proc w) <> []) by (rewrite Hjobs; discriminate).
  destruct (batch_ready_facts (proc w) Hr) as (Hq & Hnd & Hpend & _ & _ & _ & _ & Hpa).
  rewrite Hjobs in Hna, Hnd, Hpend.
  cbn [no_arrivals forallb] in Hna. apply andb_true_iff in Hna.
  destruct Hna as [Hax Hna].
  destruct (arrivals env x) as [|? ?] eqn:Harr; [clear Hax | discriminate].
  destruct (start_processing_preview_detail env x rest w Hr Hpm Hjobs Harr)
    as (t1 & pr & w1 & Hrun & Hw1 & Hmv & _).
  cbn [map] in Hnd. inversion Hnd as [|? ? Hnin Hnd']; subst.
  destruct w1 as [bp1 u1 tc1]. cbn [proc] in Hw1. subst bp1.
  match goal with
  | Hrun : start_processing env w = (Ok tt, ?W1) |- _ =>
      destruct (approve_preview_drains env rest W1) as (t2 & tc2 & Hrun2 & Hbm); auto
  end.
  { intros y Hy. cbn [proc status_tracker set_preview_processed set_preview_result
                      set_status_tracker].
    destruct Hmv as (_ & Hoth & _). rewrite Hoth; [apply Hpend; now right|].
    intros Heq. apply Hnin. rewrite <- Heq. now apply in_map. }
  { cbn [proc status_tracker set_preview_processed set_preview_result
         set_status_tracker].
    destruct Hmv as (_ & _ & _ & _ & H). exact H. }
  cbn [proc status_tracker set_preview_processed set_preview_result
       set_status_tracker] in Hbm.
  assert (Hall : batch_moved (status_tracker (proc w)) t2 (jobs (proc w))
                   (fun y => final_state (render env y))).
  { rewrite Hjobs. eapply batch_moved_cons; [exact Hnin | exact Hmv | exact Hbm]. }
  destruct (drained_summary env (proc w) t2 Hr Hne0 Hall)
    as (D1 & D2 & D3 & D4 & D5 & _ & D7 & _).
  eexists _, _. split; [exact Hrun|]. split; [exact Hrun2|].
  unfold size, is_waiting_for_preview_approval.
  cbn [proc status_tracker set_status_tracker queue set_queue _size _processing
       _preview_processed _preview_approved set_processing set_preview_approved
       set_preview_processed set_preview_result negb andb].
  destruct Hall as (A1 & _).
  repeat split; auto.
Qed.

Lemma preview_then_approve_isolates_failures_witness :
  exists w1 w2,
    start_processing (demo_env "id-1" "none") (demo_world true) = (Ok tt, w1) /\
    approve_preview (demo_env "id-1" "none") w1 = (Ok tt, w2) /\
    let t := status_tracker (proc w2) in
    let s := Status.get_summary t in
    (forall y, In y (jobs (proc (demo_world true))) ->
       Status.state_of t (Queue.id y)
       = Some (rendered_state (demo_env "id-1" "none") y)) /\
    Status.failed s = failures (demo_env "id-1" "none") (jobs (proc (demo_world true))) /\
    Status.completed s
    = batch_size (proc (demo_world true))
      - failures (demo_env "id-1" "none") (jobs (proc (demo_world true))) /\
    Status.pending s = 0 /\ Status.processing s = 0 /\ Status.cancelled s = 0 /\
    Status.s_end_time s <> None /\
    size (queue (proc w2)) = 0 /\
    is_waiting_for_preview_approval (proc w2) = false /\
    _processing (proc w2) = false.
Proof.
  apply (preview_then_approve_isolates_failures (demo_env "id-1" "none")
           (demo_world true) job_0 [job_1; job_2]); vm_compute; congruence.
Defined.

(** On a ready batch of at least two jobs in preview mode, after the
    preview run (nothing arriving during it), [approve_preview] returns
    normally whatever pause and cancel requests arrive while the remaining
    jobs are in flight: the first remaining job is always rendered, the jobs
    not rendered are either all still pending and exactly the queue or all
    cancelled with the queue empty, no job is left processing, and the
    processing flag is cleared. *)
Theorem approve_accounts_for_every_job :
  forall (env : Env) (w : World) (x : ImageQueueItem) (rest : list ImageQueueItem),
    batch_ready (proc w) = true ->
    preview_mode (config (proc w)) = true ->
    jobs (proc w) = x :: rest ->
    rest <> [] ->
    arrivals env x = [] ->
    exists w1 w2 done left,
      start_processing env w = (Ok tt, w1) /\
      approve_preview env w1 = (Ok tt, w2) /\
      rest = done ++ left /\
      done <> [] /\
      let t := status_tracker (proc w2) in
      let s := Status.get_summary t in
      (forall y, In y (x :: done) ->
         Status.state_of t (Queue.id y) = Some (rendered_state env y)) /\
      ((jobs (proc w2) = left /\
        forall y, In y left -> Status.state_of t (Queue.id y) = Some "pending") \/
       (jobs (proc w2) = [] /\
        forall y, In y left -> Status.state_of t (Queue.id y) = Some "cancelled")) /\
      Status.processing s = 0 /\
      Status.pending s = size (queue (proc w2)) /\
      Status.completed s + Status.failed s = Z.of_nat (length done) + 1 /\
      Status.total s = batch_size (proc w) /\
      is_waiting_for_preview_approval (proc w2) = false /\
      _processing (proc w2) = false.
Proof.
  intros env w x rest Hr Hpm Hjobs Hne Harr.
  destruct (batch_ready_facts (proc w) Hr) as (Hq & Hnd & Hpend & _ & _ & _ & _ & Hpa).
  rewrite Hjobs in Hnd, Hpend.
  destruct (start_processing_preview_detail env x rest w Hr Hpm Hjobs Harr)
    as (t1 & pr & w1 & Hrun & Hw1 & Hmv & _).
  cbn [map] in Hnd. inversion Hnd as [|? ? Hnin Hnd']; subst.
  destruct w1 as [bp1 u1 tc1]. cbn [proc] in Hw1. subst bp1.
  match goal with
  | Hrun : start_processing env w = (Ok tt, ?W1) |- _ =>
      destruct (approve_preview_any env rest W1)
        as (w2 & tA & done & left & Hrun2 & Hproc2 & Hwait2 & Hsplit & Hdone & Hbm & Hend);
        auto
  end.
  { intros y Hy. cbn [proc status_tracker set_preview_processed set_preview_result
                      set_status_tracker].
    destruct Hmv as (_ & Hoth & _). rewrite Hoth; [apply Hpend; now right|].
    intros Heq. apply Hnin. rewrite <- Heq. now apply in_map. }
  { cbn [proc status_tracker set_preview_processed set_preview_result
         set_status_tracker].
    destruct Hmv as (_ & _ & _ & _ & H). exact H. }
  cbn [proc status_tracker set_preview_processed set_preview_result
       set_status_tracker] in Hbm.
  assert (Hall : batch_moved (status_tracker (proc w)) tA (x :: done)
                   (rendered_state env)).
  { eapply batch_moved_cons; [|exact Hmv | exact Hbm].
    intros Hin. apply Hnin. rewrite Hsplit, map_app. apply in_or_app. now left. }
  assert (Hjobs' : jobs (proc w) = (x :: done) ++ left)
    by (rewrite Hjobs, Hsplit; reflexivity).
  destruct (outcome_counts env (proc w) tA (status_tracker (proc w2)) (x :: done) left
              (queue (proc w2)) Hr Hjobs' Hall Hend)
    as (O1 & O2 & O3 & O4 & O5 & O6).
  destruct (StatusFacts.summary_fields (status_tracker (proc w2)))
    as (S1 & S2 & S3 & S4 & _ & _ & S7).
  eexists _, w2, done, left. split; [exact Hrun|]. split; [exact Hrun2|].
  split; [exact Hsplit|]. split; [exact Hdone|].
  cbv zeta. rewrite S1, S2, S3, S4, S7, O3, O4, O5, O6.
  unfold jobs at 1 2, size, batch_size. cbn [length].
  repeat split; auto; lia.
Qed.

Lemma approve_accounts_for_every_job_witness :
  exists w1 w2 done left,
    start_processing (control_env "none" "id-1" [ReqCancel]) (demo_world true)
    = (Ok tt, w1) /\
    approve_preview (control_env "none" "id-1" [ReqCancel]) w1 = (Ok tt, w2) /\
    [job_1; job_2] = done ++ left /\
    done <> [] /\
    let t := status_tracker (proc w2) in
    let s := Status.get_summary t in
    (forall y, In y (job_0 :: done) ->
       Status.state_of t (Queue.id y)
       = Some (rendered_state (control_env "none" "id-1" [ReqCancel]) y)) /\
    ((jobs (proc w2) = left /\
      forall y, In y left -> Status.state_of t (Queue.id y) = Some "pending") \/
     (jobs (proc w2) = [] /\
      forall y, In y left -> Status.state_of t (Queue.id y) = Some "cancelled")) /\
    Status.processing s = 0 /\
    Status.pending s = size (queue (proc w2)) /\
    Status.completed s + Status.failed s = Z.of_nat (length done) + 1 /\
    Status.total s = batch_size (proc (demo_world true)) /\
    is_waiting_for_preview_approval (proc w2) = false /\
    _processing (proc w2) = false.
Proof.
  apply (approve_accounts_for_every_job (control_env "none" "id-1" [ReqCancel])
           (demo_world true) job_0 [job_1; job_2]); vm_compute; congruence.
Defined.

(** *** Control calls while a run is active *)

(** While processing is active, any sequence of [pause_processing] and
    [cancel_processing] calls sets the paused flag exactly if it was set or
    the sequence holds a pause, and the cancelled flag exactly if it was set
    or the sequence holds a cancel; the order and the number of the calls do
    not matter, and nothing else of the processor changes. *)
Theorem control_calls_set_flags_only :
  forall (bp : BatchProcessor) (rs : list ControlRequest),
    _processing bp = true ->
    let bp' := apply_requests rs bp in
    _paused bp' = _paused bp || existsb is_pause rs /\
    _cancelled bp' = _cancelled bp || existsb is_cancel rs /\
    _processing bp' = true /\
    queue bp' = queue bp /\
    status_tracker bp' = status_tracker bp /\
    config bp' = config bp /\
    _preview_processed bp' = _preview_processed bp /\
    _preview_approved bp' = _preview_approved bp /\
    _preview_result bp' = _preview_result bp.
Proof.
  intros bp rs Hp. cbv zeta. rewrite apply_requests_flags by exact Hp.
  destruct bp. cbn in *. subst. repeat split.
Qed.

Lemma control_calls_set_flags_only_witness :
  let bp := set_processing true (proc (demo_world false)) in
  let bp' := apply_requests [ReqCancel; ReqPause; ReqCancel] bp in
  _paused bp' = _paused bp || existsb is_pause [ReqCancel; ReqPause; ReqCancel] /\
  _cancelled bp' = _cancelled bp || existsb is_cancel [ReqCancel; ReqPause; ReqCancel] /\
  _processing bp' = true /\
  queue bp' = queue bp /\
  status_tracker bp' = status_tracker bp /\
  config bp' = config bp /\
  _preview_processed bp' = _preview_processed bp /\
  _preview_approved bp' = _preview_approved bp /\
  _preview_result bp' = _preview_result bp.
Proof.
  intros bp.
  apply (control_calls_set_flags_only bp [ReqCancel; ReqPause; ReqCancel]).
  reflexivity.
Defined.

End ProcessorMore.
